(** * The query lifecycle of the SQL client window

    A shallow embedding of [MainWindow] (src/ui/main_window.py): the two
    dictionaries [tab_timers] and [running_queries], the tab widget, the
    history calls on the database manager, and the handlers
    [execute_query], [handle_query_result], [handle_query_error],
    [handle_query_timeout], [cancel_current_query] and [close_tab].

    Python objects (tab pages, timers, runnables) are identified by a
    number, their identity; the state of the objects lives in stores
    indexed by identity, so that two references to one object alias.

    The later parts add the table actions of the schema tree
    ([query_table_rows], [open_query_tool_for_table]), the combo box of
    connections ([load_joined_items]), the row text of the history list
    ([load_connection_history]), [switch_results_view],
    [copy_history_to_editor] and the titles of [renumber_tabs]. *)

From Stdlib Require Import PrimFloat Uint63.
From stdpp Require Import gmap strings list functions pretty.

Local Open Scope string_scope.
Local Open Scope list_scope.

(** ** Python built-ins *)

Module Py.

(** [str.isspace] on one character.  A character is a code point below
    256; these are the white-space code points of that range. *)
Definition isspace (c : Ascii.ascii) : bool :=
  let n := Ascii.nat_of_ascii c in
  (((9 <=? n) && (n <=? 13)) || ((28 <=? n) && (n <=? 32))
   || (n =? 133) || (n =? 160))%nat.

Fixpoint lstrip (s : string) : string :=
  match s with
  | EmptyString => EmptyString
  | String c rest => if isspace c then lstrip rest else s
  end.

Fixpoint rstrip (s : string) : string :=
  match s with
  | EmptyString => EmptyString
  | String c rest =>
      match rstrip rest with
      | EmptyString => if isspace c then EmptyString else String c EmptyString
      | kept => String c kept
      end
  end.

(** [s.strip()] *)
Definition strip (s : string) : string := rstrip (lstrip s).

(** [s.endswith(suffix)] *)
Fixpoint endswith (s suffix : string) : bool :=
  if String.eqb s suffix then true
  else match s with
       | EmptyString => false
       | String _ rest => endswith rest suffix
       end.

(** [not s] for a string: true on the empty string only. *)
Definition falsy (s : string) : bool :=
  match s with EmptyString => true | _ => false end.

(** [int] to [float], and the true division [a / b] of two ints. *)
Definition float_of_int (z : Z) : float :=
  match z with
  | Zneg p => PrimFloat.opp (PrimFloat.of_uint63 (Uint63.of_Z (Zpos p)))
  | _ => PrimFloat.of_uint63 (Uint63.of_Z z)
  end.

Definition truediv (a b : Z) : float :=
  PrimFloat.div (float_of_int a) (float_of_int b).

(** An exception that no handler catches.  The window installs no
    [sys.excepthook], so an exception escaping a slot ends the
    process: no state is left to look at. *)
Inductive Exn :=
| AttributeError (msg : string).

Inductive Result (A : Type) :=
| Ok (a : A)
| Raise (e : Exn).
Arguments Ok {A} a.
Arguments Raise {A} e.

Global Instance result_ret : MRet Result := fun A a => Ok a.
Global Instance result_bind : MBind Result := fun A B k m =>
  match m with
  | Ok a => k a
  | Raise e => Raise e
  end.

(** A line break inside a message. *)
Definition nl : string := String (Ascii.ascii_of_nat 10) EmptyString.

End Py.

Import Py.

(** ** Data *)

(** Identities of the objects the window creates. *)
Abbreviation Tab := nat (only parsing).
Abbreviation Runnable := nat (only parsing).
Abbreviation TimerId := nat (only parsing).

(** A connection as the combo box holds it ([itemData]): a dictionary of
    which the window reads the key ["id"]. *)
Record ConnData := { conn_id : Z; conn_name : string }.

(** Text put on a label, a text view or a dialog.  The formatted
    messages keep their arguments. *)
Inductive Text :=
| Str (s : string)
(** ["Query executed successfully.\n\nTotal rows: {n}\nTime: {t:.2f} sec"] *)
| SelectMessage (row_count : Z) (elapsed : float)
(** ["Query executed successfully | Total rows: {n} | Time: {t:.2f} sec"] *)
| SelectStatus (row_count : Z) (elapsed : float)
(** ["Command executed successfully.\n\nRows affected: {n}\nTime: {t:.2f} sec"] *)
| CommandMessage (row_count : Z) (elapsed : float)
(** ["Command executed successfully | Rows affected: {n} | Time: {t:.2f} sec"] *)
| CommandStatus (row_count : Z) (elapsed : float)
(** ["Error: Query Timed Out after {s} seconds."] *)
| TimedOutMessage (seconds : float)
(** ["The query was stopped as it exceeded {s}s."] *)
| TimedOutDialog (seconds : float)
(** ["Running... {t:.1f} sec"] *)
| RunningStatus (elapsed : float).

Inductive DialogKind := Information | Warning | Critical.

(** One call of [show_info_dialog], [show_warning_dialog] or
    [show_critical_dialog]. *)
Record Dialog := { d_kind : DialogKind; d_title : string; d_text : Text }.

(** The arguments of one [save_query_to_history] call. *)
Record HistoryEntry := {
  h_conn : Z;
  h_query : string;
  h_status : string;
  h_rows : Z;
  h_elapsed : float
}.

(** Modelled from the spec: core/db_manager.py ([DatabaseManager]) is
    missing.  The History Store's [append] answers with a result or a
    [StoreError]; a failure is logged by the store and goes no further.
    [appends] lists every append the store received, in order, each with
    [true] when it was written; [writable] says whether the next one
    will be.  [connections] is what [get_all_joined_connections]
    returns. *)
Record DatabaseManager := {
  connections : list ConnData;
  appends : list (HistoryEntry * bool);
  writable : bool
}.

(** Modelled from the spec: [DatabaseManager.save_query_to_history] is
    missing with its class.  The append is handed to the store, which
    writes it or fails; the caller gets no exception either way. *)
Definition save_query_to_history (conn : Z) (query status : string)
    (row_count : Z) (elapsed : float) (db : DatabaseManager) : DatabaseManager :=
  let entry := {| h_conn := conn; h_query := query; h_status := status;
                  h_rows := row_count; h_elapsed := elapsed |} in
  {| connections := connections db;
     appends := appends db ++ [(entry, writable db)];
     writable := writable db |}.

(** The rows the store holds: the appends that were written. *)
Definition history (db : DatabaseManager) : list HistoryEntry :=
  (filter (fun a => a.2 = true) (appends db)).*1.

(** The children of one tab page that the handlers find by name. *)
Record TabPage := {
  db_combo_box : option ConnData;      (* currentData() *)
  editor_stack : nat;                  (* currentIndex(): 0 query, 1 history *)
  query_editor : string;               (* toPlainText() *)
  results_stacked_widget : nat;        (* currentIndex(): 3 is the spinner *)
  results_button : nat;                (* the checked button of resultsHeader *)
  spinner : bool;                      (* the spinner movie is running *)
  result_table : list string * list (list string);
  message_view : Text;
  tab_status_label : Text
}.

(** What a timer's [timeout] signal is connected to. *)
Inductive Slot :=
| update_timer_label_slot (tab : Tab)
| handle_query_timeout_slot (tab : Tab) (runnable : Runnable).

Record QTimer := {
  active : bool;
  single_shot : bool;
  interval : Z;
  slot : option Slot
}.

(** Modelled from the spec: core/query_worker.py ([RunnableQuery],
    [QuerySignals]) is missing.  A runnable keeps the request it was
    built with; [cancel] marks it cancelled, which is the signal the
    executor polls.  [r_tab] is the tab its [finished] and [error]
    signals were connected with. *)
Record RunnableQuery := {
  r_conn : ConnData;
  r_query : string;
  r_cancelled : bool;
  r_tab : Tab
}.

(** One value of [tab_timers]. *)
Record TimerEntry := {
  timer : TimerId;
  start_time : float;
  timeout_timer : TimerId
}.

(** [QTabWidget]: the pages in tab order and the current index. *)
Record QTabWidget := { tab_pages : list Tab; currentIndex : nat }.

Record MainWindow := {
  db_manager : DatabaseManager;
  thread_pool : list Runnable;          (* runnables started, oldest first *)
  tab_timers : gmap Tab TimerEntry;
  running_queries : gmap Tab Runnable;
  tab_widget : QTabWidget;
  pages : Tab → TabPage;                (* the widget tree of each tab *)
  timers : TimerId → QTimer;            (* the QTimer objects *)
  runnables : Runnable → RunnableQuery; (* the RunnableQuery objects *)
  next_object : nat;                    (* the next fresh identity *)
  cancel_action : bool;                 (* isEnabled() *)
  status : option (string * Z);         (* the status bar's showMessage *)
  status_message_label : string;
  dialogs : list Dialog                 (* dialogs shown, oldest first *)
}.

Definition QUERY_TIMEOUT : Z := 60000.

(** ** Field updates *)

Definition set_db_manager (f : DatabaseManager → DatabaseManager) (w : MainWindow) : MainWindow :=
  {| db_manager := f (db_manager w); thread_pool := thread_pool w;
     tab_timers := tab_timers w; running_queries := running_queries w;
     tab_widget := tab_widget w; pages := pages w; timers := timers w;
     runnables := runnables w; next_object := next_object w;
     cancel_action := cancel_action w; status := status w;
     status_message_label := status_message_label w; dialogs := dialogs w |}.

Definition set_thread_pool (f : list Runnable → list Runnable) (w : MainWindow) : MainWindow :=
  {| db_manager := db_manager w; thread_pool := f (thread_pool w);
     tab_timers := tab_timers w; running_queries := running_queries w;
     tab_widget := tab_widget w; pages := pages w; timers := timers w;
     runnables := runnables w; next_object := next_object w;
     cancel_action := cancel_action w; status := status w;
     status_message_label := status_message_label w; dialogs := dialogs w |}.

Definition set_tab_timers (f : gmap Tab TimerEntry → gmap Tab TimerEntry) (w : MainWindow) : MainWindow :=
  {| db_manager := db_manager w; thread_pool := thread_pool w;
     tab_timers := f (tab_timers w); running_queries := running_queries w;
     tab_widget := tab_widget w; pages := pages w; timers := timers w;
     runnables := runnables w; next_object := next_object w;
     cancel_action := cancel_action w; status := status w;
     status_message_label := status_message_label w; dialogs := dialogs w |}.

Definition set_running_queries (f : gmap Tab Runnable → gmap Tab Runnable) (w : MainWindow) : MainWindow :=
  {| db_manager := db_manager w; thread_pool := thread_pool w;
     tab_timers := tab_timers w; running_queries := f (running_queries w);
     tab_widget := tab_widget w; pages := pages w; timers := timers w;
     runnables := runnables w; next_object := next_object w;
     cancel_action := cancel_action w; status := status w;
     status_message_label := status_message_label w; dialogs := dialogs w |}.

Definition set_tab_widget (f : QTabWidget → QTabWidget) (w : MainWindow) : MainWindow :=
  {| db_manager := db_manager w; thread_pool := thread_pool w;
     tab_timers := tab_timers w; running_queries := running_queries w;
     tab_widget := f (tab_widget w); pages := pages w; timers := timers w;
     runnables := runnables w; next_object := next_object w;
     cancel_action := cancel_action w; status := status w;
     status_message_label := status_message_label w; dialogs := dialogs w |}.

Definition set_pages (f : (Tab → TabPage) → Tab → TabPage) (w : MainWindow) : MainWindow :=
  {| db_manager := db_manager w; thread_pool := thread_pool w;
     tab_timers := tab_timers w; running_queries := running_queries w;
     tab_widget := tab_widget w; pages := f (pages w); timers := timers w;
     runnables := runnables w; next_object := next_object w;
     cancel_action := cancel_action w; status := status w;
     status_message_label := status_message_label w; dialogs := dialogs w |}.

Definition set_timers (f : (TimerId → QTimer) → TimerId → QTimer) (w : MainWindow) : MainWindow :=
  {| db_manager := db_manager w; thread_pool := thread_pool w;
     tab_timers := tab_timers w; running_queries := running_queries w;
     tab_widget := tab_widget w; pages := pages w; timers := f (timers w);
     runnables := runnables w; next_object := next_object w;
     cancel_action := cancel_action w; status := status w;
     status_message_label := status_message_label w; dialogs := dialogs w |}.

Definition set_runnables (f : (Runnable → RunnableQuery) → Runnable → RunnableQuery) (w : MainWindow) : MainWindow :=
  {| db_manager := db_manager w; thread_pool := thread_pool w;
     tab_timers := tab_timers w; running_queries := running_queries w;
     tab_widget := tab_widget w; pages := pages w; timers := timers w;
     runnables := f (runnables w); next_object := next_object w;
     cancel_action := cancel_action w; status := status w;
     status_message_label := status_message_label w; dialogs := dialogs w |}.

Definition set_next_object (n : nat) (w : MainWindow) : MainWindow :=
  {| db_manager := db_manager w; thread_pool := thread_pool w;
     tab_timers := tab_timers w; running_queries := running_queries w;
     tab_widget := tab_widget w; pages := pages w; timers := timers w;
     runnables := runnables w; next_object := n;
     cancel_action := cancel_action w; status := status w;
     status_message_label := status_message_label w; dialogs := dialogs w |}.

Definition set_cancel_action (b : bool) (w : MainWindow) : MainWindow :=
  {| db_manager := db_manager w; thread_pool := thread_pool w;
     tab_timers := tab_timers w; running_queries := running_queries w;
     tab_widget := tab_widget w; pages := pages w; timers := timers w;
     runnables := runnables w; next_object := next_object w;
     cancel_action := b; status := status w;
     status_message_label := status_message_label w; dialogs := dialogs w |}.

Definition set_status (m : option (string * Z)) (w : MainWindow) : MainWindow :=
  {| db_manager := db_manager w; thread_pool := thread_pool w;
     tab_timers := tab_timers w; running_queries := running_queries w;
     tab_widget := tab_widget w; pages := pages w; timers := timers w;
     runnables := runnables w; next_object := next_object w;
     cancel_action := cancel_action w; status := m;
     status_message_label := status_message_label w; dialogs := dialogs w |}.

Definition set_status_message_label (m : string) (w : MainWindow) : MainWindow :=
  {| db_manager := db_manager w; thread_pool := thread_pool w;
     tab_timers := tab_timers w; running_queries := running_queries w;
     tab_widget := tab_widget w; pages := pages w; timers := timers w;
     runnables := runnables w; next_object := next_object w;
     cancel_action := cancel_action w; status := status w;
     status_message_label := m; dialogs := dialogs w |}.

Definition set_dialogs (f : list Dialog → list Dialog) (w : MainWindow) : MainWindow :=
  {| db_manager := db_manager w; thread_pool := thread_pool w;
     tab_timers := tab_timers w; running_queries := running_queries w;
     tab_widget := tab_widget w; pages := pages w; timers := timers w;
     runnables := runnables w; next_object := next_object w;
     cancel_action := cancel_action w; status := status w;
     status_message_label := status_message_label w; dialogs := f (dialogs w) |}.

Definition set_db_combo_box (c : option ConnData) (p : TabPage) : TabPage :=
  {| db_combo_box := c; editor_stack := editor_stack p;
     query_editor := query_editor p;
     results_stacked_widget := results_stacked_widget p;
     results_button := results_button p; spinner := spinner p;
     result_table := result_table p; message_view := message_view p;
     tab_status_label := tab_status_label p |}.

Definition set_editor_stack (i : nat) (p : TabPage) : TabPage :=
  {| db_combo_box := db_combo_box p; editor_stack := i;
     query_editor := query_editor p;
     results_stacked_widget := results_stacked_widget p;
     results_button := results_button p; spinner := spinner p;
     result_table := result_table p; message_view := message_view p;
     tab_status_label := tab_status_label p |}.

Definition set_query_editor (t : string) (p : TabPage) : TabPage :=
  {| db_combo_box := db_combo_box p; editor_stack := editor_stack p;
     query_editor := t;
     results_stacked_widget := results_stacked_widget p;
     results_button := results_button p; spinner := spinner p;
     result_table := result_table p; message_view := message_view p;
     tab_status_label := tab_status_label p |}.

Definition set_results_stacked_widget (i : nat) (p : TabPage) : TabPage :=
  {| db_combo_box := db_combo_box p; editor_stack := editor_stack p;
     query_editor := query_editor p;
     results_stacked_widget := i;
     results_button := results_button p; spinner := spinner p;
     result_table := result_table p; message_view := message_view p;
     tab_status_label := tab_status_label p |}.

Definition set_results_button (i : nat) (p : TabPage) : TabPage :=
  {| db_combo_box := db_combo_box p; editor_stack := editor_stack p;
     query_editor := query_editor p;
     results_stacked_widget := results_stacked_widget p;
     results_button := i; spinner := spinner p;
     result_table := result_table p; message_view := message_view p;
     tab_status_label := tab_status_label p |}.

Definition set_spinner (b : bool) (p : TabPage) : TabPage :=
  {| db_combo_box := db_combo_box p; editor_stack := editor_stack p;
     query_editor := query_editor p;
     results_stacked_widget := results_stacked_widget p;
     results_button := results_button p; spinner := b;
     result_table := result_table p; message_view := message_view p;
     tab_status_label := tab_status_label p |}.

Definition set_result_table (m : list string * list (list string)) (p : TabPage) : TabPage :=
  {| db_combo_box := db_combo_box p; editor_stack := editor_stack p;
     query_editor := query_editor p;
     results_stacked_widget := results_stacked_widget p;
     results_button := results_button p; spinner := spinner p;
     result_table := m; message_view := message_view p;
     tab_status_label := tab_status_label p |}.

Definition set_message_view (t : Text) (p : TabPage) : TabPage :=
  {| db_combo_box := db_combo_box p; editor_stack := editor_stack p;
     query_editor := query_editor p;
     results_stacked_widget := results_stacked_widget p;
     results_button := results_button p; spinner := spinner p;
     result_table := result_table p; message_view := t;
     tab_status_label := tab_status_label p |}.

Definition set_tab_status_label (t : Text) (p : TabPage) : TabPage :=
  {| db_combo_box := db_combo_box p; editor_stack := editor_stack p;
     query_editor := query_editor p;
     results_stacked_widget := results_stacked_widget p;
     results_button := results_button p; spinner := spinner p;
     result_table := result_table p; message_view := message_view p;
     tab_status_label := t |}.

(** Change the page of one tab. *)
Definition on_page (tab : Tab) (f : TabPage → TabPage) (w : MainWindow) : MainWindow :=
  set_pages (fun ps => <[tab := f (ps tab)]> ps) w.

(** ** Qt objects *)

(** [QTimer(self)]: a timer that is not running. *)
Definition new_timer : QTimer :=
  {| active := false; single_shot := false; interval := 0; slot := None |}.

Definition timer_stop (q : QTimer) : QTimer :=
  {| active := false; single_shot := single_shot q; interval := interval q;
     slot := slot q |}.

Definition timer_start (ms : Z) (q : QTimer) : QTimer :=
  {| active := true; single_shot := single_shot q; interval := ms;
     slot := slot q |}.

Definition timer_setSingleShot (b : bool) (q : QTimer) : QTimer :=
  {| active := active q; single_shot := b; interval := interval q;
     slot := slot q |}.

Definition timer_connect (f : Slot) (q : QTimer) : QTimer :=
  {| active := active q; single_shot := single_shot q; interval := interval q;
     slot := Some f |}.

(** Apply a method to the timer object [t]. *)
Definition on_timer (t : TimerId) (f : QTimer → QTimer) (w : MainWindow) : MainWindow :=
  set_timers (fun ts => <[t := f (ts t)]> ts) w.

(** [runnable.cancel()] *)
Definition runnable_cancel (q : RunnableQuery) : RunnableQuery :=
  {| r_conn := r_conn q; r_query := r_query q; r_cancelled := true;
     r_tab := r_tab q |}.

Definition on_runnable (r : Runnable) (f : RunnableQuery → RunnableQuery) (w : MainWindow) : MainWindow :=
  set_runnables (fun rs => <[r := f (rs r)]> rs) w.

(** [tab_widget.widget(index)]: [None] when there is no such tab. *)
Definition widget (index : nat) (tw : QTabWidget) : option Tab :=
  tab_pages tw !! index.

Definition currentWidget (tw : QTabWidget) : option Tab :=
  widget (currentIndex tw) tw.

Definition count (tw : QTabWidget) : nat := length (tab_pages tw).

(** [addTab] puts the page last and answers its index. *)
Definition addTab (tab : Tab) (tw : QTabWidget) : QTabWidget :=
  {| tab_pages := tab_pages tw ++ [tab]; currentIndex := currentIndex tw |}.

Definition setCurrentIndex (i : nat) (tw : QTabWidget) : QTabWidget :=
  {| tab_pages := tab_pages tw; currentIndex := i |}.

(** [removeTab]: nothing on an index out of range.  The current page
    stays current when another one goes; when the current one goes, the
    page to its right becomes current, or the new last one. *)
Definition removeTab (index : nat) (tw : QTabWidget) : QTabWidget :=
  if decide (index < count tw)%nat then
    let cur := currentIndex tw in
    {| tab_pages := delete index (tab_pages tw);
       currentIndex :=
         if decide (index < cur)%nat then Nat.pred cur
         else if decide (index = cur ∧ S index = count tw) then Nat.pred cur
         else cur |}
  else tw.

(** The three dialog helpers of dialogs/confirmation_dialogs.py. *)
Definition show_info_dialog (title message : string) (w : MainWindow) : MainWindow :=
  set_dialogs (fun ds => ds ++ [{| d_kind := Information; d_title := title;
                                   d_text := Str message |}]) w.

Definition show_warning_dialog (title : string) (message : Text) (w : MainWindow) : MainWindow :=
  set_dialogs (fun ds => ds ++ [{| d_kind := Warning; d_title := title;
                                   d_text := message |}]) w.

Definition show_critical_dialog (title message : string) (w : MainWindow) : MainWindow :=
  set_dialogs (fun ds => ds ++ [{| d_kind := Critical; d_title := title;
                                   d_text := Str message |}]) w.

(** ** The window *)

(** The page [add_tab] builds: the combo box filled by
    [load_joined_items] shows its first item, the editor is empty and in
    the query view, the results show the output table. *)
Definition new_page (db : DatabaseManager) : TabPage :=
  {| db_combo_box := head (connections db); editor_stack := 0;
     query_editor := ""; results_stacked_widget := 0; results_button := 0;
     spinner := false; result_table := ([], []); message_view := Str "";
     tab_status_label := Str "Ready" |}.

Definition add_tab (w : MainWindow) : MainWindow :=
  let tab_content := next_object w in
  let w := set_next_object (S tab_content) w in
  let w := set_pages (fun ps => <[tab_content := new_page (db_manager w)]> ps) w in
  let index := count (tab_widget w) in
  let w := set_tab_widget (addTab tab_content) w in
  set_tab_widget (setCurrentIndex index) w.

(** [if not self.running_queries: self.cancel_action.setEnabled(False)] *)
Definition disable_cancel_when_idle (w : MainWindow) : MainWindow :=
  if decide (size (running_queries w) = 0)%nat then set_cancel_action false w
  else w.

Definition close_tab (index : nat) (w : MainWindow) : MainWindow :=
  match widget index (tab_widget w) with
  | None =>
      (* [None] is a key of neither dictionary *)
      if decide (1 < count (tab_widget w))%nat
      then set_tab_widget (removeTab index) w
      else set_status (Some ("Must keep at least one tab", 3000%Z)) w
  | Some tab =>
      let w :=
        match running_queries w !! tab with
        | Some runnable =>
            let w := on_runnable runnable runnable_cancel w in
            let w := set_running_queries (delete tab) w in
            disable_cancel_when_idle w
        | None => w
        end in
      let w :=
        match tab_timers w !! tab with
        | Some entry =>
            let w := on_timer (timer entry) timer_stop w in
            let w := on_timer (timeout_timer entry) timer_stop w in
            set_tab_timers (delete tab) w
        | None => w
        end in
      if decide (1 < count (tab_widget w))%nat
      then set_tab_widget (removeTab index) w
      else set_status (Some ("Must keep at least one tab", 3000%Z)) w
  end.

(** [execute_query] at clock reading [now] ([time.time()]).  Every page
    is built by [add_tab] with its editor stack, so the branch for a
    missing editor stack is never taken. *)
Definition execute_query (now : float) (w : MainWindow) : MainWindow :=
  match currentWidget (tab_widget w) with
  | None => w
  | Some current_tab =>
      let page := pages w current_tab in
      if decide (editor_stack page = 1)%nat then
        show_info_dialog "Info"
          "Cannot execute from History view. Switch to the Query view." w
      else
      match running_queries w !! current_tab with
      | Some _ =>
          show_warning_dialog "Query in Progress"
            (Str "A query is already running in this tab.") w
      | None =>
          let conn_data := db_combo_box page in
          let query := strip (query_editor page) in
          if negb (endswith query ";") then
            let w := show_warning_dialog "Missing Semicolon"
                       (Str "Query must end with a semicolon (;) to execute.") w in
            set_status (Some ("Execution aborted: Missing semicolon.", 3000%Z)) w
          else
          match conn_data with
          | None => set_status (Some ("Connection or query is empty", 3000%Z)) w
          | Some conn =>
              if falsy query then
                set_status (Some ("Connection or query is empty", 3000%Z)) w
              else
                let w := on_page current_tab (set_results_stacked_widget 3) w in
                let w := on_page current_tab (set_spinner true) w in
                let progress_timer := next_object w in
                let timeout_timer_ := S progress_timer in
                let runnable := S timeout_timer_ in
                let w := set_next_object (S runnable) w in
                let w := on_timer progress_timer (fun _ => new_timer) w in
                let start_time_ := now in
                let w := on_timer timeout_timer_ (fun _ => new_timer) w in
                let w := on_timer timeout_timer_ (timer_setSingleShot true) w in
                let w := set_tab_timers
                           (insert current_tab
                              {| timer := progress_timer; start_time := start_time_;
                                 timeout_timer := timeout_timer_ |}) w in
                let w := on_timer progress_timer
                           (timer_connect (update_timer_label_slot current_tab)) w in
                let w := on_timer progress_timer (timer_start 100) w in
                let w := on_runnable runnable
                           (fun _ => {| r_conn := conn; r_query := query;
                                        r_cancelled := false; r_tab := current_tab |}) w in
                let w := on_timer timeout_timer_
                           (timer_connect (handle_query_timeout_slot current_tab runnable)) w in
                let w := set_running_queries (insert current_tab runnable) w in
                let w := set_cancel_action true w in
                let w := set_thread_pool (fun pool => pool ++ [runnable]) w in
                let w := on_timer timeout_timer_ (timer_start QUERY_TIMEOUT) w in
                set_status_message_label "Executing query..." w
          end
      end
  end.

Definition update_timer_label (now : float) (tab : Tab) (w : MainWindow) : MainWindow :=
  match tab_timers w !! tab with
  | None => w
  | Some entry =>
      let elapsed := PrimFloat.sub now (start_time entry) in
      on_page tab (set_tab_status_label (RunningStatus elapsed)) w
  end.

Definition stop_spinner (target_tab : Tab) (success : bool) (w : MainWindow) : MainWindow :=
  let w := on_page target_tab (set_spinner false) w in
  if success then
    let w := on_page target_tab (set_results_stacked_widget 0) w in
    on_page target_tab (set_results_button 0) w
  else
    let w := on_page target_tab (set_results_stacked_widget 1) w in
    on_page target_tab (set_results_button 1) w.

Definition handle_query_result (target_tab : Tab) (conn_data : ConnData)
    (query : string) (results : list (list string)) (columns : list string)
    (row_count : Z) (elapsed_time : float) (is_select_query : bool)
    (w : MainWindow) : MainWindow :=
  let w :=
    match tab_timers w !! target_tab with
    | Some entry =>
        let w := on_timer (timer entry) timer_stop w in
        let w := on_timer (timeout_timer entry) timer_stop w in
        set_tab_timers (delete target_tab) w
    | None => w
    end in
  let w := set_db_manager
             (save_query_to_history (conn_id conn_data) query "Success"
                row_count elapsed_time) w in
  let w :=
    if is_select_query then
      let w := on_page target_tab (set_result_table (columns, results)) w in
      let w := on_page target_tab
                 (set_message_view (SelectMessage row_count elapsed_time)) w in
      on_page target_tab (set_tab_status_label (SelectStatus row_count elapsed_time)) w
    else
      let w := on_page target_tab (set_result_table ([], [])) w in
      let w := on_page target_tab
                 (set_message_view (CommandMessage row_count elapsed_time)) w in
      on_page target_tab (set_tab_status_label (CommandStatus row_count elapsed_time)) w in
  let w := set_status_message_label "Ready" w in
  let w := stop_spinner target_tab true w in
  let w := set_running_queries (delete target_tab) w in
  disable_cancel_when_idle w.

(** [tab.findChild(QComboBox, "db_combo_box").currentData().get("id")]:
    with nothing selected [currentData()] is [None], which has no [get]. *)
Definition currentData_id (p : TabPage) : Result Z :=
  match db_combo_box p with
  | Some conn => Ok (conn_id conn)
  | None => Raise (AttributeError "'NoneType' object has no attribute 'get'")
  end.

Definition handle_query_error (target_tab : Tab) (error_message : string)
    (w : MainWindow) : Result MainWindow :=
  let w :=
    match tab_timers w !! target_tab with
    | Some entry =>
        let w := on_timer (timer entry) timer_stop w in
        let w := on_timer (timeout_timer entry) timer_stop w in
        set_tab_timers (delete target_tab) w
    | None => w
    end in
  let error_text := "Error: " +:+ error_message in
  let w := on_page target_tab
             (set_message_view (Str ("Error:" +:+ nl +:+ nl +:+ error_message))) w in
  let w := on_page target_tab (set_tab_status_label (Str error_text)) w in
  id ← currentData_id (pages w target_tab);
  let w := set_db_manager
             (save_query_to_history id
                (strip (query_editor (pages w target_tab))) "Failed" 0 0) w in
  let w := set_status_message_label "Error occurred" w in
  let w := stop_spinner target_tab false w in
  let w := set_running_queries (delete target_tab) w in
  Ok (disable_cancel_when_idle w).

Definition handle_query_timeout (tab : Tab) (runnable : Runnable)
    (w : MainWindow) : Result MainWindow :=
  if decide (running_queries w !! tab = Some runnable) then
    let w := on_runnable runnable runnable_cancel w in
    let seconds := truediv QUERY_TIMEOUT 1000 in
    let error_message := TimedOutMessage seconds in
    let w := on_page tab (set_message_view error_message) w in
    let w := on_page tab (set_tab_status_label error_message) w in
    id ← currentData_id (pages w tab);
    let w := set_db_manager
               (save_query_to_history id (strip (query_editor (pages w tab)))
                  "Timed Out" 0 seconds) w in
    let w := stop_spinner tab false w in
    let w :=
      match tab_timers w !! tab with
      | Some entry =>
          let w := on_timer (timer entry) timer_stop w in
          set_tab_timers (delete tab) w
      | None => w
      end in
    let w := set_running_queries (delete tab) w in
    let w := disable_cancel_when_idle w in
    let w := set_status_message_label "Error occurred" w in
    Ok (show_warning_dialog "Query Timeout" (TimedOutDialog seconds) w)
  else Ok w.

Definition cancel_current_query (w : MainWindow) : Result MainWindow :=
  match currentWidget (tab_widget w) with
  | None => Ok w
  | Some current_tab =>
      match running_queries w !! current_tab with
      | None => Ok w
      | Some runnable =>
          let w := on_runnable runnable runnable_cancel w in
          let w :=
            match tab_timers w !! current_tab with
            | Some entry =>
                let w := on_timer (timer entry) timer_stop w in
                let w := on_timer (timeout_timer entry) timer_stop w in
                set_tab_timers (delete current_tab) w
            | None => w
            end in
          let cancel_message := Str "Query cancelled by user." in
          let w := on_page current_tab (set_message_view cancel_message) w in
          let w := on_page current_tab (set_tab_status_label cancel_message) w in
          id ← currentData_id (pages w current_tab);
          let w := set_db_manager
                     (save_query_to_history id
                        (strip (query_editor (pages w current_tab)))
                        "Cancelled" 0 0) w in
          let w := stop_spinner current_tab false w in
          let w := set_status_message_label "Query Cancelled" w in
          let w := set_running_queries (delete current_tab) w in
          Ok (disable_cancel_when_idle w)
      end
  end.

(** ** The event loop *)

(** What reaches the window: the user's actions, the timers' [timeout]
    signals and the signals of the runnables. *)
Inductive Event :=
| execute_triggered (now : float)
| cancel_triggered
| tabCloseRequested (index : nat)
| new_tab_clicked
| tab_selected (index : nat)
| text_edited (tab : Tab) (text : string)
| connection_chosen (tab : Tab) (conn : option ConnData)
| editor_view_switched (tab : Tab) (index : nat)
| timer_timeout (t : TimerId) (now : float)
| finished (r : Runnable) (results : list (list string))
    (columns : list string) (row_count : Z) (elapsed_time : float)
    (is_select_query : bool)
| error (r : Runnable) (error_message : string)
| store_writable (b : bool).

(** A running timer calls its slot; a single-shot timer stops when it
    fires.  A stopped timer emits nothing. *)
Definition on_timer_timeout (t : TimerId) (now : float) (w : MainWindow) : Result MainWindow :=
  let q := timers w t in
  if active q then
    let w := if single_shot q then on_timer t timer_stop w else w in
    match slot q with
    | Some (update_timer_label_slot tab) => Ok (update_timer_label now tab w)
    | Some (handle_query_timeout_slot tab runnable) =>
        handle_query_timeout tab runnable w
    | None => Ok w
    end
  else Ok w.

(** Modelled from the spec: core/query_worker.py is missing.  A started
    runnable reports through the signals [execute_query] connected: its
    [finished] signal carries the connection and the text of its request
    with the executor's result, and is queued for [handle_query_result]
    of the tab it was connected with. *)
Definition on_finished (r : Runnable) (results : list (list string))
    (columns : list string) (row_count : Z) (elapsed_time : float)
    (is_select_query : bool) (w : MainWindow) : MainWindow :=
  if decide (r ∈ thread_pool w) then
    let q := runnables w r in
    handle_query_result (r_tab q) (r_conn q) (r_query q) results columns
      row_count elapsed_time is_select_query w
  else w.

(** Modelled from the spec: core/query_worker.py is missing.  The
    [error] signal of a started runnable carries the executor's message
    to [handle_query_error] of the tab it was connected with. *)
Definition on_error (r : Runnable) (error_message : string) (w : MainWindow) : Result MainWindow :=
  if decide (r ∈ thread_pool w) then
    handle_query_error (r_tab (runnables w r)) error_message w
  else Ok w.

Definition set_writable (b : bool) (db : DatabaseManager) : DatabaseManager :=
  {| connections := connections db; appends := appends db; writable := b |}.

Definition step (w : MainWindow) (e : Event) : Result MainWindow :=
  match e with
  | execute_triggered now => Ok (execute_query now w)
  | cancel_triggered => cancel_current_query w
  | tabCloseRequested index => Ok (close_tab index w)
  | new_tab_clicked => Ok (add_tab w)
  | tab_selected index =>
      Ok (if decide (index < count (tab_widget w))%nat
          then set_tab_widget (setCurrentIndex index) w else w)
  | text_edited tab text => Ok (on_page tab (set_query_editor text) w)
  | connection_chosen tab conn => Ok (on_page tab (set_db_combo_box conn) w)
  | editor_view_switched tab index => Ok (on_page tab (set_editor_stack index) w)
  | timer_timeout t now => on_timer_timeout t now w
  | finished r results columns row_count elapsed_time is_select_query =>
      Ok (on_finished r results columns row_count elapsed_time is_select_query w)
  | error r error_message => on_error r error_message w
  | store_writable b => Ok (set_db_manager (set_writable b) w)
  end.

Fixpoint run (w : MainWindow) (es : list Event) : Result MainWindow :=
  match es with
  | [] => Ok w
  | e :: es => w' ← step w e; run w' es
  end.

(** [MainWindow.__init__]: empty dictionaries, the cancel action
    disabled, and one tab. *)
Definition init (db : DatabaseManager) : MainWindow :=
  add_tab
    {| db_manager := db; thread_pool := [];
       tab_timers := ∅; running_queries := ∅;
       tab_widget := {| tab_pages := []; currentIndex := 0 |};
       pages := fun _ => new_page db;
       timers := fun _ => new_timer;
       runnables := fun _ =>
         {| r_conn := {| conn_id := 0; conn_name := "" |}; r_query := "";
            r_cancelled := false; r_tab := 0 |};
       next_object := 0;
       cancel_action := false; status := None;
       status_message_label := "Ready"; dialogs := [] |}.

Definition reachable (w : MainWindow) : Prop :=
  ∃ db es, run (init db) es = Ok w.

(** The phase of a tab: running when it is a key of [running_queries]. *)
Definition Running (w : MainWindow) (tab : Tab) : Prop :=
  is_Some (running_queries w !! tab).

Definition Idle (w : MainWindow) (tab : Tab) : Prop :=
  running_queries w !! tab = None.

(** ** States used in the examples *)

Definition example_conn : ConnData := {| conn_id := 7; conn_name := "local" |}.

Definition example_db : DatabaseManager :=
  {| connections := [example_conn]; appends := []; writable := true |}.

(** One tab, idle, with a complete statement in its editor. *)
Definition example_idle : MainWindow :=
  on_page 0 (set_query_editor "SELECT 1;") (init example_db).

(** The same tab after [execute_query]: runnable 3 with timers 1 and 2. *)
Definition example_running : MainWindow := execute_query 0 example_idle.

(** Two tabs, the first one running, the second one current. *)
Definition example_two_tabs : MainWindow := add_tab example_running.

(** The three dialogs with which [execute_query] turns a request down. *)
Definition history_view_notice : Dialog :=
  {| d_kind := Information; d_title := "Info";
     d_text := Str "Cannot execute from History view. Switch to the Query view." |}.

Definition already_running_warning : Dialog :=
  {| d_kind := Warning; d_title := "Query in Progress";
     d_text := Str "A query is already running in this tab." |}.

Definition missing_semicolon_warning : Dialog :=
  {| d_kind := Warning; d_title := "Missing Semicolon";
     d_text := Str "Query must end with a semicolon (;) to execute." |}.

(** [w'] differs from [w] in the dialogs shown and the status bar only. *)
Definition only_notified (w w' : MainWindow) : Prop :=
  db_manager w' = db_manager w ∧ thread_pool w' = thread_pool w
  ∧ tab_timers w' = tab_timers w ∧ running_queries w' = running_queries w
  ∧ tab_widget w' = tab_widget w ∧ pages w' = pages w
  ∧ timers w' = timers w ∧ runnables w' = runnables w
  ∧ next_object w' = next_object w ∧ cancel_action w' = cancel_action w
  ∧ status_message_label w' = status_message_label w.

(** * Properties *)

Arguments truediv : simpl never.
Arguments strip : simpl never.
Arguments endswith : simpl never.

Lemma disable_cancel_when_idle_eq (w : MainWindow) :
  disable_cancel_when_idle w =
  set_cancel_action
    (if decide (size (running_queries w) = 0)%nat then false
     else cancel_action w) w.
Proof.
  unfold disable_cancel_when_idle. case_decide; [done|]. by destruct w.
Qed.

Lemma timeout_seconds : truediv QUERY_TIMEOUT 1000 = 60%float.
Proof. reflexivity. Qed.

Lemma endswith_empty : endswith "" ";" = false.
Proof. reflexivity. Qed.

(** ** Submission *)

(** A request without its terminator never gets past the checks, in
    whatever state the window is. *)
Lemma execute_query_unterminated_notifies (now : float) (w : MainWindow) (tab : Tab) :
  currentWidget (tab_widget w) = Some tab →
  endswith (strip (query_editor (pages w tab))) ";" = false →
  only_notified w (execute_query now w).
Proof.
  intros Hcur Hend. unfold execute_query. rewrite Hcur.
  case_decide; [by repeat split|].
  destruct (running_queries w !! tab); [by repeat split|].
  rewrite Hend. by repeat split.
Qed.

(** C4, as the code has it.  A request whose trimmed text is empty or
    lacks the final [;] is turned down before anything is dispatched: the
    thread pool, both dictionaries, the timers, the runnables and the
    history store are as before, so an idle tab stays idle.  On an idle
    tab showing its query view the dialog is the missing-semicolon
    warning; a tab showing its history view gets the history-view notice
    and a running tab the already-running warning, both of which are
    checked first. *)
Theorem execute_query_unterminated (now : float) (w : MainWindow) (tab : Tab) :
  currentWidget (tab_widget w) = Some tab →
  strip (query_editor (pages w tab)) = ""
    ∨ endswith (strip (query_editor (pages w tab))) ";" = false →
  let w' := execute_query now w in
  only_notified w w'
  ∧ (Idle w tab → Idle w' tab)
  ∧ (editor_stack (pages w tab) ≠ 1%nat → Idle w tab →
       dialogs w' = dialogs w ++ [missing_semicolon_warning]
       ∧ status w' = Some ("Execution aborted: Missing semicolon.", 3000%Z))
  ∧ (editor_stack (pages w tab) = 1%nat →
       dialogs w' = dialogs w ++ [history_view_notice])
  ∧ (editor_stack (pages w tab) ≠ 1%nat → Running w tab →
       dialogs w' = dialogs w ++ [already_running_warning]).
Proof.
  intros Hcur Htext.
  assert (endswith (strip (query_editor (pages w tab))) ";" = false) as Hend.
  { destruct Htext as [-> | ->]; [apply endswith_empty | done]. }
  pose proof (execute_query_unterminated_notifies now w tab Hcur Hend) as Hsame.
  cbv zeta. split; [done|]. split.
  { unfold Idle. destruct Hsame as (_ & _ & _ & -> & _). done. }
  unfold execute_query. rewrite Hcur.
  split; [|split].
  - intros Hview Hidle. rewrite decide_False by done.
    unfold Idle in Hidle. rewrite Hidle, Hend. done.
  - intros Hview. rewrite decide_True by done. done.
  - intros Hview [r Hrun]. rewrite decide_False by done. rewrite Hrun. done.
Qed.

Lemma execute_query_unterminated_witness :
  let w := on_page 0 (set_query_editor "SELECT 1") (init example_db) in
  let w' := execute_query 0 w in
  only_notified w w'
  ∧ (Idle w 0 → Idle w' 0)
  ∧ (editor_stack (pages w 0) ≠ 1%nat → Idle w 0 →
       dialogs w' = dialogs w ++ [missing_semicolon_warning]
       ∧ status w' = Some ("Execution aborted: Missing semicolon.", 3000%Z))
  ∧ (editor_stack (pages w 0) = 1%nat →
       dialogs w' = dialogs w ++ [history_view_notice])
  ∧ (editor_stack (pages w 0) ≠ 1%nat → Running w 0 →
       dialogs w' = dialogs w ++ [already_running_warning]).
Proof.
  apply (execute_query_unterminated 0
           (on_page 0 (set_query_editor "SELECT 1") (init example_db)) 0).
  - reflexivity.
  - right. reflexivity.
Defined.

(** C4 as stated fails on a tab that shows its history view: the request
    without terminator is turned down with the history-view notice, not
    with the missing-semicolon warning. *)
Lemma unterminated_in_history_view :
  let w := on_page 0 (set_editor_stack 1)
             (on_page 0 (set_query_editor "SELECT 1") (init example_db)) in
  currentWidget (tab_widget w) = Some 0%nat
  ∧ Idle w 0
  ∧ endswith (strip (query_editor (pages w 0))) ";" = false
  ∧ dialogs (execute_query 0 w) = [history_view_notice]
  ∧ missing_semicolon_warning ∉ dialogs (execute_query 0 w).
Proof.
  cbv zeta. repeat split; try reflexivity.
  change (missing_semicolon_warning ∉ [history_view_notice]).
  rewrite list_elem_of_singleton. discriminate.
Qed.

(** C5, as the code has it.  On a tab whose query is running,
    [execute_query] dispatches nothing and changes nothing but the list
    of dialogs shown: the running task stays the tab's current one, the
    pool, the timers and the history store are as before.  The dialog is
    the already-running warning when the tab shows its query view, and
    the history-view notice when it shows its history view, which is
    checked first. *)
Theorem execute_query_while_running (now : float) (w : MainWindow) (tab : Tab) (r : Runnable) :
  currentWidget (tab_widget w) = Some tab →
  running_queries w !! tab = Some r →
  let w' := execute_query now w in
  only_notified w w'
  ∧ status w' = status w
  ∧ running_queries w' !! tab = Some r
  ∧ runnables w' r = runnables w r
  ∧ dialogs w' =
      dialogs w ++ [if decide (editor_stack (pages w tab) = 1%nat)
                    then history_view_notice else already_running_warning].
Proof.
  intros Hcur Hrun. cbv zeta. unfold execute_query. rewrite Hcur.
  case_decide.
  - by repeat split.
  - rewrite Hrun. by repeat split.
Qed.

Lemma execute_query_while_running_witness :
  let w' := execute_query 1 example_running in
  only_notified example_running w'
  ∧ status w' = status example_running
  ∧ running_queries w' !! 0%nat = Some 3%nat
  ∧ runnables w' 3%nat = runnables example_running 3%nat
  ∧ dialogs w' =
      dialogs example_running
      ++ [if decide (editor_stack (pages example_running 0) = 1%nat)
          then history_view_notice else already_running_warning].
Proof.
  apply (execute_query_while_running 1 example_running 0 3); reflexivity.
Defined.

(** C5 as stated fails on a running tab that shows its history view: the
    new request is turned down with the history-view notice, not with the
    already-running warning. *)
Lemma running_in_history_view :
  let w := on_page 0 (set_editor_stack 1) example_running in
  currentWidget (tab_widget w) = Some 0%nat
  ∧ Running w 0
  ∧ dialogs (execute_query 1 w) = [history_view_notice]
  ∧ already_running_warning ∉ dialogs (execute_query 1 w).
Proof.
  cbv zeta. repeat split; try reflexivity.
  - by exists 3%nat.
  - change (already_running_warning ∉ [history_view_notice]).
    rewrite list_elem_of_singleton. discriminate.
Qed.

(** ** The timeout watchdog *)



(** ** What each handler does *)

Lemma stop_both (ts : nat → QTimer) (a b : nat) (q : QTimer) :
  active ((<[b := timer_stop q]> (<[a := timer_stop (ts a)]> ts)) a) = false
  ∧ active ((<[b := timer_stop q]> (<[a := timer_stop (ts a)]> ts)) b) = false.
Proof.
  split; [|by rewrite fn_lookup_insert].
  destruct (decide (a = b)) as [->|Hne].
  - by rewrite fn_lookup_insert.
  - rewrite fn_lookup_insert_ne by done. by rewrite fn_lookup_insert.
Qed.

(** The entries of a tab in both dictionaries go, whatever the state. *)
Lemma handle_query_result_dicts target_tab conn_data query results columns
    row_count elapsed_time is_select_query (w : MainWindow) :
  let w' := handle_query_result target_tab conn_data query results columns
              row_count elapsed_time is_select_query w in
  tab_timers w' = delete target_tab (tab_timers w)
  ∧ running_queries w' = delete target_tab (running_queries w).
Proof.
  cbv zeta. unfold handle_query_result.
  rewrite disable_cancel_when_idle_eq.
  destruct is_select_query, (tab_timers w !! target_tab) eqn:Htimers; simpl;
    rewrite ?Htimers; simpl; (split; [|done]); try done;
    symmetry; by apply delete_id.
Qed.

(** [handle_query_result] is not guarded: it records a success and shows
    the result whether or not the tab still has a current runnable. *)
Lemma handle_query_result_effects target_tab conn_data query results columns
    row_count elapsed_time is_select_query (w : MainWindow) :
  let w' := handle_query_result target_tab conn_data query results columns
              row_count elapsed_time is_select_query w in
  db_manager w' =
    save_query_to_history (conn_id conn_data) query "Success" row_count
      elapsed_time (db_manager w)
  ∧ thread_pool w' = thread_pool w
  ∧ tab_widget w' = tab_widget w
  ∧ runnables w' = runnables w
  ∧ dialogs w' = dialogs w
  ∧ message_view (pages w' target_tab) =
      (if is_select_query then SelectMessage row_count elapsed_time
       else CommandMessage row_count elapsed_time)
  ∧ (∀ entry, tab_timers w !! target_tab = Some entry →
       active (timers w' (timer entry)) = false
       ∧ active (timers w' (timeout_timer entry)) = false).
Proof.
  cbv zeta. unfold handle_query_result.
  rewrite disable_cancel_when_idle_eq.
  destruct is_select_query, (tab_timers w !! target_tab) eqn:Htimers; simpl;
    rewrite ?fn_lookup_insert; simpl; repeat split; try done;
    intros; simplify_eq; apply stop_both.
Qed.

Lemma handle_query_error_effects target_tab error_message (w : MainWindow) (c : ConnData) :
  db_combo_box (pages w target_tab) = Some c →
  ∃ w', handle_query_error target_tab error_message w = Ok w'
    ∧ tab_timers w' = delete target_tab (tab_timers w)
    ∧ running_queries w' = delete target_tab (running_queries w)
    ∧ db_manager w' =
        save_query_to_history (conn_id c)
          (strip (query_editor (pages w target_tab))) "Failed" 0 0
          (db_manager w)
    ∧ thread_pool w' = thread_pool w
    ∧ tab_widget w' = tab_widget w
    ∧ runnables w' = runnables w
    ∧ dialogs w' = dialogs w
    ∧ message_view (pages w' target_tab) =
        Str ("Error:" +:+ nl +:+ nl +:+ error_message)
    ∧ (∀ entry, tab_timers w !! target_tab = Some entry →
         active (timers w' (timer entry)) = false
         ∧ active (timers w' (timeout_timer entry)) = false).
Proof.
  intros Hconn. unfold handle_query_error, currentData_id.
  destruct (tab_timers w !! target_tab) eqn:Htimers; simpl;
    rewrite ?fn_lookup_insert; simpl; rewrite Hconn; simpl;
    (eexists; split; [reflexivity|]);
    rewrite disable_cancel_when_idle_eq; simpl;
    rewrite ?fn_lookup_insert; simpl; repeat split; try done;
    try (intros; simplify_eq; apply stop_both).
  symmetry. by apply delete_id.
Qed.

Lemma handle_query_error_raises target_tab error_message (w : MainWindow) :
  db_combo_box (pages w target_tab) = None →
  ∃ e, handle_query_error target_tab error_message w = Raise e.
Proof.
  intros Hconn. unfold handle_query_error, currentData_id.
  destruct (tab_timers w !! target_tab); simpl;
    rewrite ?fn_lookup_insert; simpl; rewrite Hconn; simpl; eauto.
Qed.

(** The watchdog of a runnable that is no longer the tab's current one
    does nothing. *)
Lemma handle_query_timeout_stale tab runnable (w : MainWindow) :
  running_queries w !! tab ≠ Some runnable →
  handle_query_timeout tab runnable w = Ok w.
Proof. intros Hne. unfold handle_query_timeout. by rewrite decide_False. Qed.

Lemma handle_query_timeout_effects tab runnable (w : MainWindow) (c : ConnData) :
  running_queries w !! tab = Some runnable →
  db_combo_box (pages w tab) = Some c →
  ∃ w', handle_query_timeout tab runnable w = Ok w'
    ∧ tab_timers w' = delete tab (tab_timers w)
    ∧ running_queries w' = delete tab (running_queries w)
    ∧ db_manager w' =
        save_query_to_history (conn_id c)
          (strip (query_editor (pages w tab))) "Timed Out" 0
          (truediv QUERY_TIMEOUT 1000) (db_manager w)
    ∧ thread_pool w' = thread_pool w
    ∧ tab_widget w' = tab_widget w
    ∧ runnables w' = <[runnable := runnable_cancel (runnables w runnable)]> (runnables w)
    ∧ message_view (pages w' tab) = TimedOutMessage (truediv QUERY_TIMEOUT 1000)
    ∧ (∀ entry, tab_timers w !! tab = Some entry →
         active (timers w' (timer entry)) = false).
Proof.
  intros Hrun Hconn. unfold handle_query_timeout, currentData_id.
  rewrite decide_True by done. simpl.
  rewrite !fn_lookup_insert. simpl. rewrite Hconn. simpl.
  eexists; split; [reflexivity|].
  rewrite disable_cancel_when_idle_eq.
  destruct (tab_timers w !! tab) eqn:Htimers; simpl;
    rewrite ?fn_lookup_insert; simpl; repeat split; try done;
    try (intros; simplify_eq; by rewrite fn_lookup_insert).
  symmetry. by apply delete_id.
Qed.

(** With no current runnable in the current tab [cancel_current_query]
    does nothing. *)
Lemma cancel_current_query_idle (w : MainWindow) (tab : Tab) :
  currentWidget (tab_widget w) = Some tab →
  running_queries w !! tab = None →
  cancel_current_query w = Ok w.
Proof. intros Hcur Hidle. unfold cancel_current_query. by rewrite Hcur, Hidle. Qed.

Lemma cancel_current_query_effects (w : MainWindow) (tab : Tab) (runnable : Runnable) (c : ConnData) :
  currentWidget (tab_widget w) = Some tab →
  running_queries w !! tab = Some runnable →
  db_combo_box (pages w tab) = Some c →
  ∃ w', cancel_current_query w = Ok w'
    ∧ tab_timers w' = delete tab (tab_timers w)
    ∧ running_queries w' = delete tab (running_queries w)
    ∧ db_manager w' =
        save_query_to_history (conn_id c)
          (strip (query_editor (pages w tab))) "Cancelled" 0 0 (db_manager w)
    ∧ thread_pool w' = thread_pool w
    ∧ tab_widget w' = tab_widget w
    ∧ runnables w' = <[runnable := runnable_cancel (runnables w runnable)]> (runnables w)
    ∧ dialogs w' = dialogs w
    ∧ message_view (pages w' tab) = Str "Query cancelled by user."
    ∧ (∀ entry, tab_timers w !! tab = Some entry →
         active (timers w' (timer entry)) = false
         ∧ active (timers w' (timeout_timer entry)) = false).
Proof.
  intros Hcur Hrun Hconn. unfold cancel_current_query, currentData_id.
  rewrite Hcur, Hrun. simpl.
  destruct (tab_timers w !! tab) eqn:Htimers; simpl;
    rewrite ?fn_lookup_insert; simpl; rewrite Hconn; simpl;
    (eexists; split; [reflexivity|]);
    rewrite disable_cancel_when_idle_eq; simpl;
    rewrite ?fn_lookup_insert; simpl; repeat split; try done;
    try (intros; simplify_eq; apply stop_both).
  symmetry. by apply delete_id.
Qed.

(** [close_tab] on the page [tab] at [index]. *)
Lemma close_tab_effects (index : nat) (w : MainWindow) (tab : Tab) :
  widget index (tab_widget w) = Some tab →
  let w' := close_tab index w in
  tab_timers w' = delete tab (tab_timers w)
  ∧ running_queries w' = delete tab (running_queries w)
  ∧ db_manager w' = db_manager w
  ∧ thread_pool w' = thread_pool w
  ∧ pages w' = pages w
  ∧ dialogs w' = dialogs w
  ∧ status_message_label w' = status_message_label w
  ∧ tab_widget w' =
      (if decide (1 < count (tab_widget w))%nat
       then removeTab index (tab_widget w) else tab_widget w)
  ∧ (∀ runnable, running_queries w !! tab = Some runnable →
       r_cancelled (runnables w' runnable) = true)
  ∧ (∀ entry, tab_timers w !! tab = Some entry →
       active (timers w' (timer entry)) = false
       ∧ active (timers w' (timeout_timer entry)) = false)
  ∧ status w' =
      (if decide (1 < count (tab_widget w))%nat then status w
       else Some ("Must keep at least one tab", 3000%Z)).
Proof.
  intros Hwidget. cbv zeta. unfold close_tab. rewrite Hwidget.
  destruct (running_queries w !! tab) eqn:Hrun;
    rewrite ?disable_cancel_when_idle_eq; simpl;
    destruct (tab_timers w !! tab) eqn:Htimers; simpl;
    case_decide; simpl; rewrite ?fn_lookup_insert;
    repeat split; try done;
    try (intros; simplify_eq; apply stop_both);
    try (intros; simplify_eq; by rewrite fn_lookup_insert);
    try (symmetry; by apply delete_id).
Qed.

(** [close_tab] on an index with no page leaves the queries alone. *)
Lemma close_tab_no_page (index : nat) (w : MainWindow) :
  widget index (tab_widget w) = None →
  let w' := close_tab index w in
  tab_timers w' = tab_timers w ∧ running_queries w' = running_queries w
  ∧ db_manager w' = db_manager w
  ∧ tab_widget w' = tab_widget w.
Proof.
  intros Hwidget. cbv zeta. unfold close_tab. rewrite Hwidget.
  case_decide; simpl; repeat split; try done.
  unfold removeTab. rewrite decide_False; [done|].
  unfold widget in Hwidget. apply lookup_ge_None in Hwidget.
  unfold count. lia.
Qed.

Lemma handle_query_timeout_raises tab runnable (w : MainWindow) :
  running_queries w !! tab = Some runnable →
  db_combo_box (pages w tab) = None →
  ∃ e, handle_query_timeout tab runnable w = Raise e.
Proof.
  intros Hrun Hconn. unfold handle_query_timeout, currentData_id.
  rewrite decide_True by done. simpl.
  rewrite !fn_lookup_insert. simpl. rewrite Hconn. simpl. eauto.
Qed.

Lemma cancel_current_query_raises (w : MainWindow) (tab : Tab) (runnable : Runnable) :
  currentWidget (tab_widget w) = Some tab →
  running_queries w !! tab = Some runnable →
  db_combo_box (pages w tab) = None →
  ∃ e, cancel_current_query w = Raise e.
Proof.
  intros Hcur Hrun Hconn. unfold cancel_current_query, currentData_id.
  rewrite Hcur, Hrun. simpl.
  destruct (tab_timers w !! tab); simpl;
    rewrite ?fn_lookup_insert; simpl; rewrite Hconn; simpl; eauto.
Qed.

Lemma endswith_not_falsy (s suffix : string) :
  suffix ≠ "" → endswith s suffix = true → falsy s = false.
Proof. intros Hne. destruct s; [|done]. by destruct suffix. Qed.

(** An accepted request: the tab gets its two timers and its runnable,
    and the runnable goes to the thread pool. *)
Lemma execute_query_accepted (now : float) (w : MainWindow) (tab : Tab) (c : ConnData) :
  currentWidget (tab_widget w) = Some tab →
  editor_stack (pages w tab) ≠ 1%nat →
  running_queries w !! tab = None →
  endswith (strip (query_editor (pages w tab))) ";" = true →
  db_combo_box (pages w tab) = Some c →
  let w' := execute_query now w in
  let n := next_object w in
  tab_timers w' =
    <[tab := {| timer := n; start_time := now; timeout_timer := S n |}]>
      (tab_timers w)
  ∧ running_queries w' = <[tab := S (S n)]> (running_queries w)
  ∧ thread_pool w' = thread_pool w ++ [S (S n)]
  ∧ db_manager w' = db_manager w
  ∧ tab_widget w' = tab_widget w
  ∧ dialogs w' = dialogs w
  ∧ cancel_action w' = true.
Proof.
  intros Hcur Hview Hidle Hend Hconn. cbv zeta. unfold execute_query.
  rewrite Hcur, decide_False by done. rewrite Hidle, Hend, Hconn.
  rewrite (endswith_not_falsy _ ";") by done. simpl. done.
Qed.

(** ** How one event changes the two dictionaries *)

Inductive dicts_change (w w' : MainWindow) : Prop :=
| dicts_kept :
    tab_timers w' = tab_timers w →
    running_queries w' = running_queries w →
    dicts_change w w'
| dicts_dropped (tab : Tab) :
    tab_timers w' = delete tab (tab_timers w) →
    running_queries w' = delete tab (running_queries w) →
    dicts_change w w'
| dicts_added (tab : Tab) (entry : TimerEntry) (runnable : Runnable) :
    tab_timers w' = <[tab := entry]> (tab_timers w) →
    running_queries w' = <[tab := runnable]> (running_queries w) →
    dicts_change w w'.

Lemma execute_query_dicts (now : float) (w : MainWindow) :
  dicts_change w (execute_query now w).
Proof.
  destruct (currentWidget (tab_widget w)) as [tab|] eqn:Hcur;
    [|unfold execute_query; rewrite Hcur; by apply dicts_kept].
  destruct (decide (editor_stack (pages w tab) = 1%nat)) as [Hview|Hview];
    [unfold execute_query; rewrite Hcur, decide_True by done;
     by apply dicts_kept|].
  destruct (running_queries w !! tab) eqn:Hrun;
    [unfold execute_query; rewrite Hcur, decide_False, Hrun by done;
     by apply dicts_kept|].
  destruct (endswith (strip (query_editor (pages w tab))) ";") eqn:Hend;
    [|unfold execute_query; rewrite Hcur, decide_False, Hrun, Hend by done;
      by apply dicts_kept].
  destruct (db_combo_box (pages w tab)) as [c|] eqn:Hconn;
    [|unfold execute_query;
      rewrite Hcur, decide_False, Hrun, Hend, Hconn by done;
      by apply dicts_kept].
  destruct (execute_query_accepted now w tab c) as (Ht & Hr & _); try done.
  by eapply dicts_added.
Qed.

Lemma handle_query_error_dicts target_tab error_message (w w' : MainWindow) :
  handle_query_error target_tab error_message w = Ok w' →
  dicts_change w w'
  ∧ tab_widget w' = tab_widget w.
Proof.
  intros Hok. destruct (db_combo_box (pages w target_tab)) as [c|] eqn:Hconn.
  - destruct (handle_query_error_effects target_tab error_message w c Hconn)
      as (w'' & Heq & Ht & Hr & _ & _ & Htw & _).
    rewrite Heq in Hok. injection Hok as <-.
    split; [by eapply dicts_dropped|done].
  - destruct (handle_query_error_raises target_tab error_message w Hconn)
      as [e He]. congruence.
Qed.

Lemma handle_query_timeout_dicts tab runnable (w w' : MainWindow) :
  handle_query_timeout tab runnable w = Ok w' →
  dicts_change w w'
  ∧ tab_widget w' = tab_widget w.
Proof.
  intros Hok.
  destruct (decide (running_queries w !! tab = Some runnable)) as [Hrun|Hrun].
  - destruct (db_combo_box (pages w tab)) as [c|] eqn:Hconn.
    + destruct (handle_query_timeout_effects tab runnable w c Hrun Hconn)
        as (w'' & Heq & Ht & Hr & _ & _ & Htw & _).
      rewrite Heq in Hok. injection Hok as <-.
      split; [by eapply dicts_dropped|done].
    + destruct (handle_query_timeout_raises tab runnable w Hrun Hconn)
        as [e He]. congruence.
  - rewrite handle_query_timeout_stale in Hok by done.
    injection Hok as <-. split; [by apply dicts_kept|done].
Qed.

Lemma cancel_current_query_dicts (w w' : MainWindow) :
  cancel_current_query w = Ok w' →
  dicts_change w w'
  ∧ tab_widget w' = tab_widget w.
Proof.
  intros Hok.
  destruct (currentWidget (tab_widget w)) as [tab|] eqn:Hcur;
    [|unfold cancel_current_query in Hok; rewrite Hcur in Hok;
      injection Hok as <-; split; [by apply dicts_kept|done]].
  destruct (running_queries w !! tab) as [runnable|] eqn:Hrun.
  - destruct (db_combo_box (pages w tab)) as [c|] eqn:Hconn.
    + destruct (cancel_current_query_effects w tab runnable c Hcur Hrun Hconn)
        as (w'' & Heq & Ht & Hr & _ & _ & Htw & _).
      rewrite Heq in Hok. injection Hok as <-.
      split; [by eapply dicts_dropped|done].
    + destruct (cancel_current_query_raises w tab runnable Hcur Hrun Hconn)
        as [e He]. congruence.
  - rewrite (cancel_current_query_idle w tab) in Hok by done.
    injection Hok as <-. split; [by apply dicts_kept|done].
Qed.

Lemma close_tab_dicts (index : nat) (w : MainWindow) :
  dicts_change w (close_tab index w).
Proof.
  destruct (widget index (tab_widget w)) as [tab|] eqn:Hwidget.
  - destruct (close_tab_effects index w tab Hwidget) as (Ht & Hr & _).
    by eapply dicts_dropped.
  - destruct (close_tab_no_page index w Hwidget) as (Ht & Hr & _).
    by apply dicts_kept.
Qed.

Lemma step_dicts (w w' : MainWindow) (e : Event) :
  step w e = Ok w' → dicts_change w w'.
Proof.
  destruct e; simpl; intros Hok.
  - injection Hok as <-. apply execute_query_dicts.
  - by apply cancel_current_query_dicts.
  - injection Hok as <-. apply close_tab_dicts.
  - injection Hok as <-. by apply dicts_kept.
  - injection Hok as <-. case_decide; by apply dicts_kept.
  - injection Hok as <-. by apply dicts_kept.
  - injection Hok as <-. by apply dicts_kept.
  - injection Hok as <-. by apply dicts_kept.
  - unfold on_timer_timeout in Hok.
    destruct (active (timers w t)); [|injection Hok as <-; by apply dicts_kept].
    destruct (slot (timers w t)) as [[tab|tab runnable]|].
    + injection Hok as <-. unfold update_timer_label.
      destruct (single_shot (timers w t)); simpl;
        destruct (tab_timers w !! tab); by apply dicts_kept.
    + apply handle_query_timeout_dicts in Hok as [Hok _].
      destruct (single_shot (timers w t)); [|done].
      destruct Hok; [by apply dicts_kept|by eapply dicts_dropped
                    |by eapply dicts_added].
    + injection Hok as <-.
      destruct (single_shot (timers w t)); by apply dicts_kept.
  - injection Hok as <-. unfold on_finished. case_decide; [|by apply dicts_kept].
    edestruct handle_query_result_dicts as [Ht Hr].
    eapply dicts_dropped; [apply Ht|apply Hr].
  - unfold on_error in Hok. case_decide.
    + by eapply handle_query_error_dicts.
    + injection Hok as <-. by apply dicts_kept.
  - injection Hok as <-. by apply dicts_kept.
Qed.

(** ** The timers of a tab and its running query *)

(** A tab has an entry in [tab_timers], with its progress timer and its
    timeout timer, exactly when it has a current runnable. *)
Definition timers_iff_running (w : MainWindow) : Prop :=
  ∀ tab, is_Some (tab_timers w !! tab) ↔ Running w tab.

Lemma timers_iff_running_dom (w : MainWindow) :
  timers_iff_running w ↔ dom (tab_timers w) = dom (running_queries w).
Proof.
  unfold timers_iff_running, Running. split.
  - intros H. apply set_eq. intros tab. rewrite !elem_of_dom. apply H.
  - intros H tab. rewrite <- !elem_of_dom. by rewrite H.
Qed.

Lemma dicts_change_timers_iff_running (w w' : MainWindow) :
  dicts_change w w' → timers_iff_running w → timers_iff_running w'.
Proof.
  rewrite !timers_iff_running_dom.
  intros [Ht Hr | tab Ht Hr | tab entry runnable Ht Hr] Hinv;
    rewrite Ht, Hr.
  - done.
  - by rewrite !dom_delete_L, Hinv.
  - by rewrite !dom_insert_L, Hinv.
Qed.

(** C7.  Every operation of the window (a submission, a result or an
    error of the executor, a cancel, a timer firing, a tab closing, and
    the user's other actions) keeps the invariant: a tab holds its
    progress timer and its timeout timer exactly when it is running. *)
Theorem step_timers_iff_running (w w' : MainWindow) (e : Event) :
  timers_iff_running w →
  step w e = Ok w' →
  timers_iff_running w'.
Proof.
  intros Hinv Hstep. eapply dicts_change_timers_iff_running; [|done].
  by eapply step_dicts.
Qed.

Lemma init_timers_iff_running (db : DatabaseManager) :
  timers_iff_running (init db).
Proof. apply timers_iff_running_dom. done. Qed.

Lemma step_timers_iff_running_witness :
  timers_iff_running example_running.
Proof.
  apply (step_timers_iff_running example_idle example_running
           (execute_triggered 0)).
  - apply dicts_change_timers_iff_running with (init example_db).
    + by apply dicts_kept.
    + apply init_timers_iff_running.
  - reflexivity.
Defined.

Lemma run_timers_iff_running (es : list Event) (w w' : MainWindow) :
  timers_iff_running w → run w es = Ok w' → timers_iff_running w'.
Proof.
  revert w. induction es as [|e es IH]; simpl; intros w Hinv Hrun.
  - by injection Hrun as <-.
  - destruct (step w e) as [w1|] eqn:Hstep; [|done].
    eapply IH; [|done].
    eapply dicts_change_timers_iff_running; [|done]. by eapply step_dicts.
Qed.

Lemma reachable_timers_iff_running (w : MainWindow) :
  reachable w → timers_iff_running w.
Proof.
  intros (db & es & Hrun).
  eapply run_timers_iff_running; [|done]. apply init_timers_iff_running.
Qed.

(** ** Tabs *)

Lemma execute_query_frame (now : float) (w : MainWindow) :
  db_manager (execute_query now w) = db_manager w
  ∧ tab_widget (execute_query now w) = tab_widget w.
Proof.
  unfold execute_query.
  destruct (currentWidget (tab_widget w)) as [tab|]; [|done].
  case_decide; [done|].
  destruct (running_queries w !! tab); [done|].
  destruct (endswith _ _); [|done].
  destruct (db_combo_box _); [|done].
  destruct (falsy _); done.
Qed.

Lemma removeTab_count (index : nat) (tw : QTabWidget) :
  (1 < count tw)%nat → (1 ≤ count (removeTab index tw))%nat.
Proof.
  unfold removeTab, count. intros Hmany.
  case_decide as Hin; simpl; [|lia].
  rewrite length_delete; [lia|].
  by apply lookup_lt_is_Some_2.
Qed.

Lemma close_tab_count (index : nat) (w : MainWindow) :
  (1 ≤ count (tab_widget w))%nat →
  (1 ≤ count (tab_widget (close_tab index w)))%nat.
Proof.
  intros Hone. destruct (widget index (tab_widget w)) as [tab|] eqn:Hwidget.
  - destruct (close_tab_effects index w tab Hwidget)
      as (_ & _ & _ & _ & _ & _ & _ & -> & _).
    case_decide; [by apply removeTab_count|done].
  - by destruct (close_tab_no_page index w Hwidget) as (_ & _ & _ & ->).
Qed.

Lemma step_count (w w' : MainWindow) (e : Event) :
  step w e = Ok w' →
  (1 ≤ count (tab_widget w))%nat → (1 ≤ count (tab_widget w'))%nat.
Proof.
  destruct e; simpl; intros Hok Hone.
  - injection Hok as <-. by rewrite (proj2 (execute_query_frame _ _)).
  - apply cancel_current_query_dicts in Hok as [_ ->]. done.
  - injection Hok as <-. by apply close_tab_count.
  - injection Hok as <-. unfold add_tab, count. simpl.
    rewrite length_app. simpl. lia.
  - injection Hok as <-. by case_decide.
  - by injection Hok as <-.
  - by injection Hok as <-.
  - by injection Hok as <-.
  - unfold on_timer_timeout in Hok.
    destruct (active (timers w t)); [|by injection Hok as <-].
    destruct (slot (timers w t)) as [[tab|tab runnable]|].
    + injection Hok as <-. unfold update_timer_label.
      destruct (single_shot (timers w t)); simpl;
        by destruct (tab_timers w !! tab).
    + apply handle_query_timeout_dicts in Hok as [_ ->].
      by destruct (single_shot (timers w t)).
    + injection Hok as <-. by destruct (single_shot (timers w t)).
  - injection Hok as <-. unfold on_finished. case_decide; [|done].
    edestruct handle_query_result_effects as (_ & _ & Htw & _).
    by rewrite Htw.
  - unfold on_error in Hok. case_decide.
    + apply handle_query_error_dicts in Hok as [_ ->]. done.
    + by injection Hok as <-.
  - by injection Hok as <-.
Qed.

Lemma reachable_count (w : MainWindow) :
  reachable w → (1 ≤ count (tab_widget w))%nat.
Proof.
  intros (db & es & Hrun).
  assert (1 ≤ count (tab_widget (init db)))%nat as Hinit
    by (unfold init, add_tab, count; simpl; lia).
  revert Hrun Hinit. generalize (init db).
  induction es as [|e es IH]; simpl; intros w0 Hrun Hone.
  - by injection Hrun as <-.
  - destruct (step w0 e) as [w1|] eqn:Hstep; [|done].
    eapply IH; [done|]. by eapply step_count.
Qed.

(** C10.  The window never has fewer than one tab.  A close request for
    the only tab still cancels that tab's runnable, stops its two timers
    and removes its entries from both dictionaries, but the tab itself
    stays, with a status-bar message. *)
Theorem at_least_one_tab (w : MainWindow) :
  reachable w →
  (1 ≤ count (tab_widget w))%nat
  ∧ (∀ tab, tab_pages (tab_widget w) = [tab] →
       let w' := close_tab 0 w in
       tab_pages (tab_widget w') = [tab]
       ∧ status w' = Some ("Must keep at least one tab", 3000%Z)
       ∧ Idle w' tab
       ∧ tab_timers w' !! tab = None
       ∧ (∀ runnable, running_queries w !! tab = Some runnable →
            r_cancelled (runnables w' runnable) = true)
       ∧ (∀ entry, tab_timers w !! tab = Some entry →
            active (timers w' (timer entry)) = false
            ∧ active (timers w' (timeout_timer entry)) = false)).
Proof.
  intros Hreach. split; [by apply reachable_count|].
  intros tab Hpages. cbv zeta.
  assert (widget 0 (tab_widget w) = Some tab) as Hwidget
    by (unfold widget; by rewrite Hpages).
  destruct (close_tab_effects 0 w tab Hwidget)
    as (Ht & Hr & _ & _ & _ & _ & _ & Htw & Hcancel & Hstop & Hstatus).
  assert (¬ (1 < count (tab_widget w))%nat) as Hone
    by (unfold count; rewrite Hpages; simpl; lia).
  rewrite decide_False in Htw by done.
  rewrite decide_False in Hstatus by done.
  repeat split.
  - by rewrite Htw.
  - done.
  - unfold Idle. rewrite Hr. apply lookup_delete_eq.
  - rewrite Ht. apply lookup_delete_eq.
  - done.
  - by apply Hstop.
  - by apply Hstop.
Qed.

Lemma at_least_one_tab_witness :
  (1 ≤ count (tab_widget example_running))%nat
  ∧ (∀ tab, tab_pages (tab_widget example_running) = [tab] →
       let w' := close_tab 0 example_running in
       tab_pages (tab_widget w') = [tab]
       ∧ status w' = Some ("Must keep at least one tab", 3000%Z)
       ∧ Idle w' tab
       ∧ tab_timers w' !! tab = None
       ∧ (∀ runnable, running_queries example_running !! tab = Some runnable →
            r_cancelled (runnables w' runnable) = true)
       ∧ (∀ entry, tab_timers example_running !! tab = Some entry →
            active (timers w' (timer entry)) = false
            ∧ active (timers w' (timeout_timer entry)) = false)).
Proof.
  apply (at_least_one_tab example_running).
  exists example_db, [text_edited 0 "SELECT 1;"; execute_triggered 0].
  vm_compute. reflexivity.
Defined.

(** ** Closing a tab *)

(** Every append the history store received, written or not. *)
Definition recorded (w : MainWindow) : list HistoryEntry :=
  (appends (db_manager w)).*1.

(** C3, as the code has it.  Closing a tab whose query is running tells
    the runnable to cancel, stops the progress timer and the timeout
    timer, and removes the tab's entries from both dictionaries (and the
    tab itself, unless it is the only one).  It shows no cancelled
    outcome and records nothing in the history. *)
Theorem close_tab_running (index : nat) (w : MainWindow) (tab : Tab)
    (runnable : Runnable) (entry : TimerEntry) :
  widget index (tab_widget w) = Some tab →
  running_queries w !! tab = Some runnable →
  tab_timers w !! tab = Some entry →
  let w' := close_tab index w in
  r_cancelled (runnables w' runnable) = true
  ∧ active (timers w' (timer entry)) = false
  ∧ active (timers w' (timeout_timer entry)) = false
  ∧ Idle w' tab
  ∧ tab_timers w' !! tab = None
  ∧ ((1 < count (tab_widget w))%nat →
       tab_pages (tab_widget w') = delete index (tab_pages (tab_widget w)))
  ∧ db_manager w' = db_manager w
  ∧ pages w' = pages w
  ∧ dialogs w' = dialogs w.
Proof.
  intros Hwidget Hrun Htimers. cbv zeta.
  destruct (close_tab_effects index w tab Hwidget)
    as (Ht & Hr & Hdb & _ & Hpages & Hdialogs & _ & Htw & Hcancel & Hstop & _).
  repeat split; try done.
  - by apply Hcancel.
  - by apply Hstop.
  - by apply Hstop.
  - unfold Idle. rewrite Hr. apply lookup_delete_eq.
  - rewrite Ht. apply lookup_delete_eq.
  - intros Hmany. rewrite Htw, decide_True by done.
    unfold removeTab. rewrite decide_True; [done|].
    unfold widget in Hwidget. by apply lookup_lt_Some in Hwidget.
Qed.

Lemma close_tab_running_witness :
  let w' := close_tab 0 example_two_tabs in
  r_cancelled (runnables w' 3%nat) = true
  ∧ active (timers w' 1%nat) = false
  ∧ active (timers w' 2%nat) = false
  ∧ Idle w' 0
  ∧ tab_timers w' !! 0%nat = None
  ∧ ((1 < count (tab_widget example_two_tabs))%nat →
       tab_pages (tab_widget w') =
       delete 0%nat (tab_pages (tab_widget example_two_tabs)))
  ∧ db_manager w' = db_manager example_two_tabs
  ∧ pages w' = pages example_two_tabs
  ∧ dialogs w' = dialogs example_two_tabs.
Proof.
  apply (close_tab_running 0 example_two_tabs 0 3
           {| timer := 1; start_time := 0; timeout_timer := 2 |});
    reflexivity.
Defined.

(** C3 as stated fails: after closing the running first tab of two, the
    history store has received nothing, and the page of the closed tab
    does not show the cancelled message. *)
Lemma close_running_tab_is_silent :
  let w' := close_tab 0 example_two_tabs in
  Running example_two_tabs 0
  ∧ tab_pages (tab_widget w') = [4%nat]
  ∧ recorded w' = []
  ∧ message_view (pages w' 0%nat) ≠ Str "Query cancelled by user.".
Proof.
  cbv zeta. repeat split; try reflexivity.
  - by exists 3%nat.
  - discriminate.
Qed.

(** ** History *)

Lemma appends_save (conn : Z) (query status : string) (row_count : Z)
    (elapsed : float) (db : DatabaseManager) :
  appends (save_query_to_history conn query status row_count elapsed db) =
  appends db
  ++ [({| h_conn := conn; h_query := query; h_status := status;
          h_rows := row_count; h_elapsed := elapsed |}, writable db)].
Proof. done. Qed.

(** C2, as the code has it.  For a tab whose query is running, each of
    the four handlers that end the query (result, error, cancel, timeout
    of the current runnable) sends the history store exactly one append,
    whose status is ["Success"], ["Failed"], ["Cancelled"] and
    ["Timed Out"] in turn, and leaves the tab idle; the submission itself
    sends none.  Closing the tab while the query runs also ends the
    query, and sends the store nothing. *)
Theorem one_append_per_handler (w : MainWindow) (tab : Tab)
    (runnable : Runnable) (c : ConnData) :
  running_queries w !! tab = Some runnable →
  db_combo_box (pages w tab) = Some c →
  (∀ conn_data query results columns row_count elapsed_time is_select_query,
     let w' := handle_query_result tab conn_data query results columns
                 row_count elapsed_time is_select_query w in
     Idle w' tab
     ∧ ∃ e, appends (db_manager w') =
              appends (db_manager w) ++ [(e, writable (db_manager w))]
            ∧ h_status e = "Success")
  ∧ (∀ error_message,
       ∃ w' e, handle_query_error tab error_message w = Ok w'
         ∧ Idle w' tab
         ∧ appends (db_manager w') =
             appends (db_manager w) ++ [(e, writable (db_manager w))]
         ∧ h_status e = "Failed")
  ∧ (currentWidget (tab_widget w) = Some tab →
       ∃ w' e, cancel_current_query w = Ok w'
         ∧ Idle w' tab
         ∧ appends (db_manager w') =
             appends (db_manager w) ++ [(e, writable (db_manager w))]
         ∧ h_status e = "Cancelled")
  ∧ (∃ w' e, handle_query_timeout tab runnable w = Ok w'
       ∧ Idle w' tab
       ∧ appends (db_manager w') =
           appends (db_manager w) ++ [(e, writable (db_manager w))]
       ∧ h_status e = "Timed Out")
  ∧ (∀ index, widget index (tab_widget w) = Some tab →
       Idle (close_tab index w) tab
       ∧ appends (db_manager (close_tab index w)) = appends (db_manager w))
  ∧ (∀ now, appends (db_manager (execute_query now w)) =
            appends (db_manager w)).
Proof.
  intros Hrun Hconn. unfold Idle. repeat split.
  - edestruct handle_query_result_dicts as [_ Hr]. rewrite Hr.
    apply lookup_delete_eq.
  - edestruct handle_query_result_effects as (Hdb & _). rewrite Hdb.
    eexists. by rewrite appends_save.
  - intros error_message.
    destruct (handle_query_error_effects tab error_message w c Hconn)
      as (w' & Hok & _ & Hr & Hdb & _).
    exists w'. eexists. split; [done|]. rewrite Hr, Hdb, appends_save.
    split; [apply lookup_delete_eq|done].
  - intros Hcur.
    destruct (cancel_current_query_effects w tab runnable c Hcur Hrun Hconn)
      as (w' & Hok & _ & Hr & Hdb & _).
    exists w'. eexists. split; [done|]. rewrite Hr, Hdb, appends_save.
    split; [apply lookup_delete_eq|done].
  - destruct (handle_query_timeout_effects tab runnable w c Hrun Hconn)
      as (w' & Hok & _ & Hr & Hdb & _).
    exists w'. eexists. split; [done|]. rewrite Hr, Hdb, appends_save.
    split; [apply lookup_delete_eq|done].
  - destruct (close_tab_effects index w tab H) as (_ & -> & _).
    apply lookup_delete_eq.
  - by destruct (close_tab_effects index w tab H) as (_ & _ & -> & _).
  - intros now. by rewrite (proj1 (execute_query_frame now w)).
Qed.

Lemma one_append_per_handler_witness :
  (∀ conn_data query results columns row_count elapsed_time is_select_query,
     let w' := handle_query_result 0 conn_data query results columns
                 row_count elapsed_time is_select_query example_running in
     Idle w' 0
     ∧ ∃ e, appends (db_manager w') =
              appends (db_manager example_running)
              ++ [(e, writable (db_manager example_running))]
            ∧ h_status e = "Success")
  ∧ (∀ error_message,
       ∃ w' e, handle_query_error 0 error_message example_running = Ok w'
         ∧ Idle w' 0
         ∧ appends (db_manager w') =
             appends (db_manager example_running)
             ++ [(e, writable (db_manager example_running))]
         ∧ h_status e = "Failed")
  ∧ (currentWidget (tab_widget example_running) = Some 0%nat →
       ∃ w' e, cancel_current_query example_running = Ok w'
         ∧ Idle w' 0
         ∧ appends (db_manager w') =
             appends (db_manager example_running)
             ++ [(e, writable (db_manager example_running))]
         ∧ h_status e = "Cancelled")
  ∧ (∃ w' e, handle_query_timeout 0 3 example_running = Ok w'
       ∧ Idle w' 0
       ∧ appends (db_manager w') =
           appends (db_manager example_running)
           ++ [(e, writable (db_manager example_running))]
       ∧ h_status e = "Timed Out")
  ∧ (∀ index, widget index (tab_widget example_running) = Some 0%nat →
       Idle (close_tab index example_running) 0
       ∧ appends (db_manager (close_tab index example_running)) =
         appends (db_manager example_running))
  ∧ (∀ now, appends (db_manager (execute_query now example_running)) =
            appends (db_manager example_running)).
Proof.
  apply (one_append_per_handler example_running 0 3 example_conn);
    reflexivity.
Defined.

(** C2 as stated fails when the only tab is closed while its query runs:
    the query is over (the tab is idle again), and the history store has
    received no append for it. *)
Lemma close_running_tab_records_nothing :
  let w' := close_tab 0 example_running in
  Running example_running 0
  ∧ Idle w' 0
  ∧ ¬ (∃ e, appends (db_manager w') =
            appends (db_manager example_running) ++ [e]).
Proof.
  cbv zeta. repeat split; try reflexivity.
  - by exists 3%nat.
  - intros [e He]. vm_compute in He. discriminate.
Qed.

(** C9.  The entry that the error, cancel and timeout handlers send to
    the history store is built from the tab's widgets at that moment:
    the connection selected in the combo box and the trimmed text of the
    editor, whatever request the runnable was built with.  The success
    entry alone carries the connection and the text of the runnable's
    request, which come back with its [finished] signal. *)
Theorem unsuccessful_entries_read_the_widgets (w : MainWindow) (tab : Tab)
    (runnable : Runnable) (c : ConnData) :
  running_queries w !! tab = Some runnable →
  db_combo_box (pages w tab) = Some c →
  let text := strip (query_editor (pages w tab)) in
  let entry status elapsed :=
    {| h_conn := conn_id c; h_query := text; h_status := status;
       h_rows := 0; h_elapsed := elapsed |} in
  (∀ error_message,
     ∃ w', handle_query_error tab error_message w = Ok w'
       ∧ recorded w' = recorded w ++ [entry "Failed" 0%float])
  ∧ (currentWidget (tab_widget w) = Some tab →
       ∃ w', cancel_current_query w = Ok w'
         ∧ recorded w' = recorded w ++ [entry "Cancelled" 0%float])
  ∧ (∃ w', handle_query_timeout tab runnable w = Ok w'
       ∧ recorded w' = recorded w ++ [entry "Timed Out" 60%float])
  ∧ (∀ results columns row_count elapsed_time is_select_query,
       runnable ∈ thread_pool w →
       recorded (on_finished runnable results columns row_count elapsed_time
                   is_select_query w) =
       recorded w
       ++ [{| h_conn := conn_id (r_conn (runnables w runnable));
              h_query := r_query (runnables w runnable);
              h_status := "Success"; h_rows := row_count;
              h_elapsed := elapsed_time |}])
  ∧ (text ≠ r_query (runnables w runnable) →
       ∀ status elapsed,
         h_query (entry status elapsed) ≠ r_query (runnables w runnable))
  ∧ (conn_id c ≠ conn_id (r_conn (runnables w runnable)) →
       ∀ status elapsed,
         h_conn (entry status elapsed) ≠ conn_id (r_conn (runnables w runnable))).
Proof.
  intros Hrun Hconn. cbv zeta. unfold recorded. repeat split; try done.
  - intros error_message.
    destruct (handle_query_error_effects tab error_message w c Hconn)
      as (w' & Hok & _ & _ & Hdb & _).
    exists w'. split; [done|].
    by rewrite Hdb, appends_save, fmap_app.
  - intros Hcur.
    destruct (cancel_current_query_effects w tab runnable c Hcur Hrun Hconn)
      as (w' & Hok & _ & _ & Hdb & _).
    exists w'. split; [done|].
    by rewrite Hdb, appends_save, fmap_app.
  - destruct (handle_query_timeout_effects tab runnable w c Hrun Hconn)
      as (w' & Hok & _ & _ & Hdb & _).
    exists w'. split; [done|].
    by rewrite Hdb, appends_save, fmap_app, timeout_seconds.
  - intros results columns row_count elapsed_time is_select_query Hpool.
    unfold on_finished. rewrite decide_True by done.
    edestruct handle_query_result_effects as (Hdb & _). rewrite Hdb.
    by rewrite appends_save, fmap_app.
Qed.

(** The query of [example_running] after the user has typed another
    statement and picked another connection. *)
Definition example_edited : MainWindow :=
  on_page 0 (set_db_combo_box (Some {| conn_id := 8; conn_name := "other" |}))
    (on_page 0 (set_query_editor "DELETE FROM t;") example_running).

Lemma unsuccessful_entries_read_the_widgets_witness :
  let w := example_edited in
  let c := {| conn_id := 8; conn_name := "other" |} in
  let text := strip (query_editor (pages w 0)) in
  let entry status elapsed :=
    {| h_conn := conn_id c; h_query := text; h_status := status;
       h_rows := 0; h_elapsed := elapsed |} in
  (∀ error_message,
     ∃ w', handle_query_error 0 error_message w = Ok w'
       ∧ recorded w' = recorded w ++ [entry "Failed" 0%float])
  ∧ (currentWidget (tab_widget w) = Some 0%nat →
       ∃ w', cancel_current_query w = Ok w'
         ∧ recorded w' = recorded w ++ [entry "Cancelled" 0%float])
  ∧ (∃ w', handle_query_timeout 0 3 w = Ok w'
       ∧ recorded w' = recorded w ++ [entry "Timed Out" 60%float])
  ∧ (∀ results columns row_count elapsed_time is_select_query,
       3%nat ∈ thread_pool w →
       recorded (on_finished 3 results columns row_count elapsed_time
                   is_select_query w) =
       recorded w
       ++ [{| h_conn := conn_id (r_conn (runnables w 3%nat));
              h_query := r_query (runnables w 3%nat);
              h_status := "Success"; h_rows := row_count;
              h_elapsed := elapsed_time |}])
  ∧ (text ≠ r_query (runnables w 3%nat) →
       ∀ status elapsed,
         h_query (entry status elapsed) ≠ r_query (runnables w 3%nat))
  ∧ (conn_id c ≠ conn_id (r_conn (runnables w 3%nat)) →
       ∀ status elapsed,
         h_conn (entry status elapsed) ≠ conn_id (r_conn (runnables w 3%nat))).
Proof.
  apply (unsuccessful_entries_read_the_widgets example_edited 0 3
           {| conn_id := 8; conn_name := "other" |});
    reflexivity.
Defined.

(** The request was [SELECT 1;] on connection 7; the failure is recorded
    with what the widgets hold when the error arrives. *)
Example edited_request_is_recorded :
  ∃ w', handle_query_error 0 "no such table" example_edited = Ok w'
    ∧ r_query (runnables w' 3%nat) = "SELECT 1;"
    ∧ conn_id (r_conn (runnables w' 3%nat)) = 7%Z
    ∧ recorded w' =
        [{| h_conn := 8; h_query := "DELETE FROM t;"; h_status := "Failed";
            h_rows := 0; h_elapsed := 0 |}].
Proof.
  eexists. split; [vm_compute; reflexivity|].
  repeat split; vm_compute; reflexivity.
Qed.

(** ** A history store that cannot be written *)

(** Two windows that differ at most in what the history store did with
    the appends it received. *)
Definition same_but_store (w1 w2 : MainWindow) : Prop :=
  thread_pool w1 = thread_pool w2 ∧ tab_timers w1 = tab_timers w2
  ∧ running_queries w1 = running_queries w2 ∧ tab_widget w1 = tab_widget w2
  ∧ pages w1 = pages w2 ∧ timers w1 = timers w2
  ∧ runnables w1 = runnables w2 ∧ next_object w1 = next_object w2
  ∧ cancel_action w1 = cancel_action w2 ∧ status w1 = status w2
  ∧ status_message_label w1 = status_message_label w2
  ∧ dialogs w1 = dialogs w2 ∧ recorded w1 = recorded w2.

(** The query of [tab] is over in [w']: the tab is idle, its entry in
    [tab_timers] is gone and its progress timer is stopped. *)
Definition settled (w w' : MainWindow) (tab : Tab) : Prop :=
  Idle w' tab
  ∧ tab_timers w' !! tab = None
  ∧ ∀ entry, tab_timers w !! tab = Some entry →
      active (timers w' (timer entry)) = false.

Lemma history_save_failed (conn : Z) (query status : string) (row_count : Z)
    (elapsed : float) (db : DatabaseManager) :
  writable db = false →
  history (save_query_to_history conn query status row_count elapsed db) =
  history db.
Proof.
  intros Hw. unfold history. rewrite appends_save, Hw.
  rewrite list.filter_app.
  rewrite filter_cons_False by (simpl; congruence).
  by rewrite filter_nil, app_nil_r.
Qed.

Section store.

Variable w : MainWindow.
Variable b : bool.

Let w2 := set_db_manager (set_writable b) w.

Lemma handle_query_result_store target_tab conn_data query results columns
    row_count elapsed_time is_select_query :
  same_but_store
    (handle_query_result target_tab conn_data query results columns
       row_count elapsed_time is_select_query w)
    (handle_query_result target_tab conn_data query results columns
       row_count elapsed_time is_select_query w2).
Proof.
  unfold handle_query_result, w2, same_but_store, recorded.
  rewrite !disable_cancel_when_idle_eq. simpl.
  destruct is_select_query, (tab_timers w !! target_tab); simpl;
    rewrite ?fmap_app; repeat split; done.
Qed.

Lemma handle_query_error_store target_tab error_message (c : ConnData) :
  db_combo_box (pages w target_tab) = Some c →
  ∃ w' w2', handle_query_error target_tab error_message w = Ok w'
    ∧ handle_query_error target_tab error_message w2 = Ok w2'
    ∧ same_but_store w' w2'.
Proof.
  intros Hconn.
  unfold handle_query_error, currentData_id, w2, same_but_store, recorded.
  simpl.
  destruct (tab_timers w !! target_tab); simpl;
    rewrite ?fn_lookup_insert; simpl; rewrite Hconn; simpl;
    (do 2 eexists; split; [reflexivity|split; [reflexivity|]]);
    rewrite !disable_cancel_when_idle_eq; simpl;
    rewrite ?fmap_app; repeat split; done.
Qed.

Lemma handle_query_timeout_store tab runnable (c : ConnData) :
  running_queries w !! tab = Some runnable →
  db_combo_box (pages w tab) = Some c →
  ∃ w' w2', handle_query_timeout tab runnable w = Ok w'
    ∧ handle_query_timeout tab runnable w2 = Ok w2'
    ∧ same_but_store w' w2'.
Proof.
  intros Hrun Hconn.
  unfold handle_query_timeout, currentData_id, w2, same_but_store, recorded.
  simpl. rewrite !decide_True by done. simpl.
  rewrite !fn_lookup_insert. simpl. rewrite Hconn. simpl.
  do 2 eexists; split; [reflexivity|split; [reflexivity|]].
  rewrite !disable_cancel_when_idle_eq. simpl.
  destruct (tab_timers w !! tab); simpl;
    rewrite ?fmap_app; repeat split; done.
Qed.

Lemma cancel_current_query_store tab runnable (c : ConnData) :
  currentWidget (tab_widget w) = Some tab →
  running_queries w !! tab = Some runnable →
  db_combo_box (pages w tab) = Some c →
  ∃ w' w2', cancel_current_query w = Ok w'
    ∧ cancel_current_query w2 = Ok w2'
    ∧ same_but_store w' w2'.
Proof.
  intros Hcur Hrun Hconn.
  unfold cancel_current_query, currentData_id, w2, same_but_store, recorded.
  simpl. rewrite Hcur, Hrun. simpl.
  destruct (tab_timers w !! tab); simpl;
    rewrite ?fn_lookup_insert; simpl; rewrite Hconn; simpl;
    (do 2 eexists; split; [reflexivity|split; [reflexivity|]]);
    rewrite !disable_cancel_when_idle_eq; simpl;
    rewrite ?fmap_app; repeat split; done.
Qed.

End store.

Lemma settled_of_dicts (w w' : MainWindow) (tab : Tab) :
  tab_timers w' = delete tab (tab_timers w) →
  running_queries w' = delete tab (running_queries w) →
  (∀ entry, tab_timers w !! tab = Some entry →
     active (timers w' (timer entry)) = false) →
  settled w w' tab.
Proof.
  intros Ht Hr Hstop. unfold settled, Idle. rewrite Ht, Hr.
  by rewrite !lookup_delete_eq.
Qed.

(** C8.  When the history store cannot be written, each handler that
    ends the query of a running tab still returns, the append it sent is
    not in the stored history, the tab is idle with its timers entry
    gone and its progress timer stopped, and the window it leaves is the
    one it leaves with a working store, the store apart: same messages,
    same dialogs, same dictionaries, same timers. *)
Theorem history_failure_is_not_fatal (w : MainWindow) (tab : Tab)
    (runnable : Runnable) (c : ConnData) :
  running_queries w !! tab = Some runnable →
  db_combo_box (pages w tab) = Some c →
  writable (db_manager w) = false →
  let working := set_db_manager (set_writable true) w in
  (∀ conn_data query results columns row_count elapsed_time is_select_query,
     let w' := handle_query_result tab conn_data query results columns
                 row_count elapsed_time is_select_query w in
     history (db_manager w') = history (db_manager w)
     ∧ settled w w' tab
     ∧ same_but_store w'
         (handle_query_result tab conn_data query results columns
            row_count elapsed_time is_select_query working))
  ∧ (∀ error_message,
       ∃ w' w2', handle_query_error tab error_message w = Ok w'
         ∧ handle_query_error tab error_message working = Ok w2'
         ∧ history (db_manager w') = history (db_manager w)
         ∧ settled w w' tab
         ∧ same_but_store w' w2')
  ∧ (currentWidget (tab_widget w) = Some tab →
       ∃ w' w2', cancel_current_query w = Ok w'
         ∧ cancel_current_query working = Ok w2'
         ∧ history (db_manager w') = history (db_manager w)
         ∧ settled w w' tab
         ∧ same_but_store w' w2')
  ∧ (∃ w' w2', handle_query_timeout tab runnable w = Ok w'
       ∧ handle_query_timeout tab runnable working = Ok w2'
       ∧ history (db_manager w') = history (db_manager w)
       ∧ settled w w' tab
       ∧ same_but_store w' w2').
Proof.
  intros Hrun Hconn Hfail. cbv zeta. split; [|split; [|split]].
  - intros. split; [|split].
    + edestruct handle_query_result_effects as (-> & _).
      by apply history_save_failed.
    + edestruct handle_query_result_dicts as [Ht Hr].
      edestruct handle_query_result_effects as (_ & _ & _ & _ & _ & _ & Hstop).
      apply settled_of_dicts; [done..|]. intros entry He. by apply Hstop.
    + apply handle_query_result_store.
  - intros error_message.
    destruct (handle_query_error_store w true tab error_message c Hconn)
      as (w' & w2' & Hok & Hok2 & Hsame).
    destruct (handle_query_error_effects tab error_message w c Hconn)
      as (w'' & Hok' & Ht & Hr & Hdb & _ & _ & _ & _ & _ & Hstop).
    rewrite Hok in Hok'. injection Hok' as <-.
    exists w', w2'. split; [done|]. split; [done|].
    split; [rewrite Hdb; by apply history_save_failed|].
    split; [|done].
    apply settled_of_dicts; [done..|]. intros entry He. by apply Hstop.
  - intros Hcur.
    destruct (cancel_current_query_store w true tab runnable c Hcur Hrun Hconn)
      as (w' & w2' & Hok & Hok2 & Hsame).
    destruct (cancel_current_query_effects w tab runnable c Hcur Hrun Hconn)
      as (w'' & Hok' & Ht & Hr & Hdb & _ & _ & _ & _ & _ & Hstop).
    rewrite Hok in Hok'. injection Hok' as <-.
    exists w', w2'. split; [done|]. split; [done|].
    split; [rewrite Hdb; by apply history_save_failed|].
    split; [|done].
    apply settled_of_dicts; [done..|]. intros entry He. by apply Hstop.
  - destruct (handle_query_timeout_store w true tab runnable c Hrun Hconn)
      as (w' & w2' & Hok & Hok2 & Hsame).
    destruct (handle_query_timeout_effects tab runnable w c Hrun Hconn)
      as (w'' & Hok' & Ht & Hr & Hdb & _ & _ & _ & _ & Hstop).
    rewrite Hok in Hok'. injection Hok' as <-.
    exists w', w2'. split; [done|]. split; [done|].
    split; [rewrite Hdb; by apply history_save_failed|].
    split; [|done]. by apply settled_of_dicts.
Qed.

(** The running query of [example_running], with a store that fails. *)
Definition example_failing : MainWindow :=
  set_db_manager (set_writable false) example_running.

Lemma history_failure_is_not_fatal_witness :
  let w := example_failing in
  let working := set_db_manager (set_writable true) w in
  (∀ conn_data query results columns row_count elapsed_time is_select_query,
     let w' := handle_query_result 0 conn_data query results columns
                 row_count elapsed_time is_select_query w in
     history (db_manager w') = history (db_manager w)
     ∧ settled w w' 0
     ∧ same_but_store w'
         (handle_query_result 0 conn_data query results columns
            row_count elapsed_time is_select_query working))
  ∧ (∀ error_message,
       ∃ w' w2', handle_query_error 0 error_message w = Ok w'
         ∧ handle_query_error 0 error_message working = Ok w2'
         ∧ history (db_manager w') = history (db_manager w)
         ∧ settled w w' 0
         ∧ same_but_store w' w2')
  ∧ (currentWidget (tab_widget w) = Some 0%nat →
       ∃ w' w2', cancel_current_query w = Ok w'
         ∧ cancel_current_query working = Ok w2'
         ∧ history (db_manager w') = history (db_manager w)
         ∧ settled w w' 0
         ∧ same_but_store w' w2')
  ∧ (∃ w' w2', handle_query_timeout 0 3 w = Ok w'
       ∧ handle_query_timeout 0 3 working = Ok w2'
       ∧ history (db_manager w') = history (db_manager w)
       ∧ settled w w' 0
       ∧ same_but_store w' w2').
Proof.
  apply (history_failure_is_not_fatal example_failing 0 3 example_conn);
    reflexivity.
Defined.

(** ** Late results *)

(** What a run shows of the window it ends with. *)
Definition observe {A : Type} (f : MainWindow → A) (r : Result MainWindow) : option A :=
  match r with
  | Ok w => Some (f w)
  | Raise _ => None
  end.

(** C1 fails on the code.  [handle_query_result] has no guard of the kind
    [handle_query_timeout] has.  A result that arrives after the query
    was cancelled is recorded and shown as a success, so the one query
    has two outcomes.  And the result of a cancelled runnable that
    arrives while the next query of the tab is running (runnable 6, with
    timers 4 and 5) removes that query's entries and stops its timeout
    timer, although runnable 6 is in the pool and not cancelled. *)
Theorem late_result_is_honoured :
  let submitted := [text_edited 0 "SELECT 1;"; execute_triggered 0] in
  let late := finished 3 [["1"]] ["?column?"] 1 0.5 true in
  observe (fun w => h_status <$> recorded w)
    (run (init example_db) (submitted ++ [cancel_triggered; late]))
    = Some ["Cancelled"; "Success"]
  ∧ observe (fun w => message_view (pages w 0))
      (run (init example_db) (submitted ++ [cancel_triggered; late]))
    = Some (SelectMessage 1 0.5)
  ∧ observe (fun w => (map_to_list (running_queries w), active (timers w 5)))
      (run (init example_db)
         (submitted ++ [cancel_triggered; execute_triggered 1]))
    = Some ([(0%nat, 6%nat)], true)
  ∧ observe (fun w => (map_to_list (running_queries w),
                       map_to_list (tab_timers w),
                       active (timers w 5),
                       r_cancelled (runnables w 6),
                       thread_pool w))
      (run (init example_db)
         (submitted ++ [cancel_triggered; execute_triggered 1; late]))
    = Some ([], [], false, false, [3%nat; 6%nat]).
Proof. cbv zeta. repeat split; vm_compute; reflexivity. Qed.

(** * More of the window *)

(** ** Cancelling *)

(** X1.  [cancel_current_query] does something once: when it has
    cancelled the query of the current tab, a second call returns the
    window as the first one left it.  With no current tab or an idle
    current tab it returns the window unchanged. *)
Theorem cancel_current_query_twice (w : MainWindow) :
  (∀ w', cancel_current_query w = Ok w' → cancel_current_query w' = Ok w')
  ∧ (∀ tab, currentWidget (tab_widget w) = Some tab → Idle w tab →
       cancel_current_query w = Ok w)
  ∧ (currentWidget (tab_widget w) = None → cancel_current_query w = Ok w).
Proof.
  split; [|split].
  - intros w' Hok.
    destruct (currentWidget (tab_widget w)) as [tab|] eqn:Hcur;
      [|unfold cancel_current_query in Hok |- *; rewrite Hcur in Hok;
        injection Hok as <-; by rewrite Hcur].
    destruct (running_queries w !! tab) as [runnable|] eqn:Hrun.
    + destruct (db_combo_box (pages w tab)) as [c|] eqn:Hconn.
      * destruct (cancel_current_query_effects w tab runnable c Hcur Hrun Hconn)
          as (w'' & Heq & _ & Hr & _ & _ & Htw & _).
        rewrite Heq in Hok. injection Hok as <-.
        apply (cancel_current_query_idle w'' tab); [by rewrite Htw|].
        rewrite Hr. apply lookup_delete_eq.
      * destruct (cancel_current_query_raises w tab runnable Hcur Hrun Hconn)
          as [e He]. congruence.
    + rewrite (cancel_current_query_idle w tab) in Hok by done.
      injection Hok as <-. by apply (cancel_current_query_idle w tab).
  - intros tab Hcur Hidle. by apply (cancel_current_query_idle w tab).
  - intros Hcur. unfold cancel_current_query. by rewrite Hcur.
Qed.

(** ** Dispatch *)

(** An accepted request, field by field: a progress timer (running,
    every 100 ms), a single-shot timeout timer (running, 60000 ms, bound
    to the tab and the new runnable), a runnable with the trimmed text
    and the selected connection, appended to the thread pool. *)
Lemma execute_query_dispatch_fields (now : float) (w : MainWindow) (tab : Tab) (c : ConnData) :
  currentWidget (tab_widget w) = Some tab →
  editor_stack (pages w tab) ≠ 1%nat →
  Idle w tab →
  endswith (strip (query_editor (pages w tab))) ";" = true →
  db_combo_box (pages w tab) = Some c →
  let w' := execute_query now w in
  let n := next_object w in
  running_queries w' !! tab = Some (S (S n))
  ∧ tab_timers w' !! tab =
      Some {| timer := n; start_time := now; timeout_timer := S n |}
  ∧ thread_pool w' = thread_pool w ++ [S (S n)]
  ∧ runnables w' (S (S n)) =
      {| r_conn := c; r_query := strip (query_editor (pages w tab));
         r_cancelled := false; r_tab := tab |}
  ∧ timers w' n =
      {| active := true; single_shot := false; interval := 100;
         slot := Some (update_timer_label_slot tab) |}
  ∧ timers w' (S n) =
      {| active := true; single_shot := true; interval := QUERY_TIMEOUT;
         slot := Some (handle_query_timeout_slot tab (S (S n))) |}
  ∧ next_object w' = S (S (S n))
  ∧ cancel_action w' = true
  ∧ spinner (pages w' tab) = true
  ∧ results_stacked_widget (pages w' tab) = 3%nat
  ∧ status_message_label w' = "Executing query..."
  ∧ db_manager w' = db_manager w
  ∧ dialogs w' = dialogs w.
Proof.
  intros Hcur Hview Hidle Hend Hconn. cbv zeta. unfold execute_query.
  unfold Idle in Hidle.
  rewrite Hcur, decide_False by done. rewrite Hidle, Hend, Hconn.
  rewrite (endswith_not_falsy _ ";") by done. simpl.
  repeat split;
    repeat first [done | rewrite lookup_insert_eq | rewrite fn_lookup_insert
                 | rewrite fn_lookup_insert_ne by lia | progress simpl].
Qed.

(** ** What the handlers do to the timers, the runnables and the cancel action *)

(** [ts'] is [ts] with some timers stopped. *)
Definition stops (ts ts' : nat → QTimer) : Prop :=
  ∀ t, ts' t = ts t ∨ ts' t = timer_stop (ts t).

(** [rs'] is [rs] with some runnables told to cancel. *)
Definition cancels (rs rs' : nat → RunnableQuery) : Prop :=
  ∀ r, rs' r = rs r ∨ rs' r = runnable_cancel (rs r).

Lemma stops_refl (ts : nat → QTimer) : stops ts ts.
Proof. intros t. by left. Qed.

Lemma stops_stop (ts ts' : nat → QTimer) (a : nat) :
  stops ts ts' → stops ts (<[a := timer_stop (ts' a)]> ts').
Proof.
  intros H t. destruct (decide (a = t)) as [->|Hne].
  - rewrite fn_lookup_insert. right. by destruct (H t) as [-> | ->].
  - rewrite fn_lookup_insert_ne by done. apply H.
Qed.

Lemma stops_trans (ts1 ts2 ts3 : nat → QTimer) :
  stops ts1 ts2 → stops ts2 ts3 → stops ts1 ts3.
Proof.
  intros H12 H23 t. destruct (H23 t) as [-> | ->]; [apply H12|].
  right. by destruct (H12 t) as [-> | ->].
Qed.

Lemma stops_active (ts ts' : nat → QTimer) (t : nat) :
  stops ts ts' → active (ts' t) = true → ts' t = ts t.
Proof. intros H Hact. destruct (H t) as [-> | Heq]; [done|]. by rewrite Heq in Hact. Qed.

Lemma cancels_refl (rs : nat → RunnableQuery) : cancels rs rs.
Proof. intros r. by left. Qed.

Lemma cancels_cancel (rs : nat → RunnableQuery) (a : nat) :
  cancels rs (<[a := runnable_cancel (rs a)]> rs).
Proof.
  intros r. destruct (decide (a = r)) as [->|Hne].
  - rewrite fn_lookup_insert. by right.
  - rewrite fn_lookup_insert_ne by done. by left.
Qed.

(** What is common to the handlers that end the query of [tab]. *)
Definition ends_query (tab : Tab) (w w' : MainWindow) : Prop :=
  tab_timers w' = delete tab (tab_timers w)
  ∧ running_queries w' = delete tab (running_queries w)
  ∧ thread_pool w' = thread_pool w
  ∧ next_object w' = next_object w
  ∧ tab_widget w' = tab_widget w
  ∧ cancel_action w' =
      (if decide (size (running_queries w') = 0)%nat then false
       else cancel_action w)
  ∧ stops (timers w) (timers w')
  ∧ cancels (runnables w) (runnables w')
  ∧ (∀ tab', tab' ≠ tab → pages w' tab' = pages w tab').

Ltac other_pages :=
  intros; repeat first [done | rewrite fn_lookup_insert_ne by done].

Lemma handle_query_result_ends target_tab conn_data query results columns
    row_count elapsed_time is_select_query (w : MainWindow) :
  ends_query target_tab w
    (handle_query_result target_tab conn_data query results columns
       row_count elapsed_time is_select_query w).
Proof.
  unfold ends_query, handle_query_result.
  rewrite disable_cancel_when_idle_eq.
  destruct is_select_query, (tab_timers w !! target_tab) eqn:Htimers; simpl;
    repeat split; try done;
    try (symmetry; by apply delete_id);
    try (apply stops_stop, stops_stop, stops_refl);
    try apply stops_refl; try apply cancels_refl; other_pages.
Qed.

Lemma handle_query_error_ends target_tab error_message (w w' : MainWindow) :
  handle_query_error target_tab error_message w = Ok w' →
  ends_query target_tab w w'.
Proof.
  unfold handle_query_error, currentData_id, ends_query.
  destruct (tab_timers w !! target_tab) eqn:Htimers; simpl;
    rewrite ?fn_lookup_insert; simpl;
    (destruct (db_combo_box (pages w target_tab)); simpl; [|done]);
    intros [= <-]; rewrite disable_cancel_when_idle_eq; simpl;
    repeat split; try done;
    try (symmetry; by apply delete_id);
    try (apply stops_stop, stops_stop, stops_refl);
    try apply stops_refl; try apply cancels_refl; other_pages.
Qed.

Lemma cancel_current_query_ends (w w' : MainWindow) (tab : Tab) (runnable : Runnable) :
  currentWidget (tab_widget w) = Some tab →
  running_queries w !! tab = Some runnable →
  cancel_current_query w = Ok w' →
  ends_query tab w w'.
Proof.
  intros Hcur Hrun. unfold cancel_current_query, currentData_id, ends_query.
  rewrite Hcur, Hrun. simpl.
  destruct (tab_timers w !! tab) eqn:Htimers; simpl;
    rewrite ?fn_lookup_insert; simpl;
    (destruct (db_combo_box (pages w tab)); simpl; [|done]);
    intros [= <-]; rewrite disable_cancel_when_idle_eq; simpl;
    repeat split; try done;
    try (symmetry; by apply delete_id);
    try (apply stops_stop, stops_stop, stops_refl);
    try apply stops_refl; try apply cancels_cancel; other_pages.
Qed.

Lemma handle_query_timeout_ends tab runnable (w w' : MainWindow) :
  running_queries w !! tab = Some runnable →
  handle_query_timeout tab runnable w = Ok w' →
  ends_query tab w w'.
Proof.
  intros Hrun. unfold handle_query_timeout, currentData_id, ends_query.
  rewrite decide_True by done. simpl. rewrite !fn_lookup_insert. simpl.
  destruct (db_combo_box (pages w tab)); simpl; [|done].
  intros [= <-]. rewrite disable_cancel_when_idle_eq.
  destruct (tab_timers w !! tab) eqn:Htimers; simpl;
    repeat split; try done;
    try (symmetry; by apply delete_id);
    try (apply stops_stop, stops_refl);
    try apply stops_refl; try apply cancels_cancel; other_pages.
Qed.

(** [close_tab] ends the query of the tab it closes; the cancel action
    is looked at only when the tab had a runnable. *)
Lemma close_tab_ends (index : nat) (w : MainWindow) (tab : Tab) :
  widget index (tab_widget w) = Some tab →
  let w' := close_tab index w in
  tab_timers w' = delete tab (tab_timers w)
  ∧ running_queries w' = delete tab (running_queries w)
  ∧ thread_pool w' = thread_pool w
  ∧ next_object w' = next_object w
  ∧ cancel_action w' =
      match running_queries w !! tab with
      | Some _ =>
          if decide (size (running_queries w') = 0)%nat then false
          else cancel_action w
      | None => cancel_action w
      end
  ∧ stops (timers w) (timers w')
  ∧ cancels (runnables w) (runnables w')
  ∧ pages w' = pages w.
Proof.
  intros Hwidget. cbv zeta. unfold close_tab. rewrite Hwidget.
  destruct (running_queries w !! tab) eqn:Hrun;
    rewrite ?disable_cancel_when_idle_eq; simpl;
    destruct (tab_timers w !! tab) eqn:Htimers; simpl;
    case_decide; simpl; repeat split; try done;
    try (symmetry; by apply delete_id);
    try (apply stops_stop, stops_stop, stops_refl);
    try apply stops_refl; try apply cancels_cancel; try apply cancels_refl.
Qed.

(** The stores after an accepted request: the three new objects, and
    every other timer and runnable as before. *)
Lemma execute_query_accepted_stores (now : float) (w : MainWindow) (tab : Tab) (c : ConnData) :
  currentWidget (tab_widget w) = Some tab →
  editor_stack (pages w tab) ≠ 1%nat →
  running_queries w !! tab = None →
  endswith (strip (query_editor (pages w tab))) ";" = true →
  db_combo_box (pages w tab) = Some c →
  let w' := execute_query now w in
  let n := next_object w in
  next_object w' = S (S (S n))
  ∧ (∀ t, t ≠ n → t ≠ S n → timers w' t = timers w t)
  ∧ (∀ r, r ≠ S (S n) → runnables w' r = runnables w r)
  ∧ (∀ tab', tab' ≠ tab → pages w' tab' = pages w tab').
Proof.
  intros Hcur Hview Hidle Hend Hconn. cbv zeta. unfold execute_query.
  rewrite Hcur, decide_False by done. rewrite Hidle, Hend, Hconn.
  rewrite (endswith_not_falsy _ ";") by done. simpl.
  repeat split; intros;
    repeat first [done | rewrite fn_lookup_insert_ne by done].
Qed.

(** A request that is turned down changes none of the fields the
    queries live in. *)
Lemma execute_query_cases (now : float) (w : MainWindow) :
  only_notified w (execute_query now w)
  ∨ ∃ tab c,
      currentWidget (tab_widget w) = Some tab
      ∧ editor_stack (pages w tab) ≠ 1%nat
      ∧ running_queries w !! tab = None
      ∧ endswith (strip (query_editor (pages w tab))) ";" = true
      ∧ db_combo_box (pages w tab) = Some c.
Proof.
  unfold execute_query.
  destruct (currentWidget (tab_widget w)) as [tab|] eqn:Hcur;
    [|left; by repeat split].
  case_decide as Hview; [left; by repeat split|].
  destruct (running_queries w !! tab) eqn:Hrun; [left; by repeat split|].
  destruct (endswith _ _) eqn:Hend; [|left; by repeat split].
  destruct (db_combo_box _) as [c|] eqn:Hconn; [|left; by repeat split].
  right. by exists tab, c.
Qed.

(** ** What holds in every state the window can reach *)

Record consistent (w : MainWindow) : Prop := {
  (** a tab has its timers exactly when it has a runnable *)
  c_timers : timers_iff_running w;
  (** the cancel action is enabled exactly when some query is running *)
  c_cancel : cancel_action w = true ↔ running_queries w ≠ ∅;
  (** a current runnable has been given to the thread pool *)
  c_started : ∀ tab r, running_queries w !! tab = Some r → r ∈ thread_pool w;
  (** identities are handed out once *)
  c_fresh : ∀ r, r ∈ thread_pool w → (r < next_object w)%nat;
  (** no runnable is started twice *)
  c_once : NoDup (thread_pool w);
  (** no two tabs share a runnable *)
  c_own : ∀ tab1 tab2 r,
    running_queries w !! tab1 = Some r → running_queries w !! tab2 = Some r →
    tab1 = tab2;
  (** the text of a started runnable ends with the terminator *)
  c_text : ∀ r, r ∈ thread_pool w → endswith (r_query (runnables w r)) ";" = true;
  (** the timers and the runnable of a tab were created together *)
  c_entry : ∀ tab e, tab_timers w !! tab = Some e →
    running_queries w !! tab = Some (S (timeout_timer e))
    ∧ timeout_timer e = S (timer e);
  (** a timeout timer is single-shot and bound to the runnable created
      after it *)
  c_slot : ∀ t tab r,
    slot (timers w t) = Some (handle_query_timeout_slot tab r) →
    r = S t ∧ single_shot (timers w t) = true;
  (** a running timer belongs to a tab with a running query *)
  c_active : ∀ t, active (timers w t) = true →
    ∃ tab e, tab_timers w !! tab = Some e ∧ (t = timer e ∨ t = timeout_timer e);
  (** the pages of the tab widget and the running tabs are objects that
      exist *)
  c_pages : ∀ tab, tab ∈ tab_pages (tab_widget w) → (tab < next_object w)%nat;
  c_tabs : ∀ tab r, running_queries w !! tab = Some r → (tab < next_object w)%nat
}.

(** The pages of [w'] are pages of [w], or the object created last. *)
Definition pages_from (w w' : MainWindow) : Prop :=
  ∀ tab, tab ∈ tab_pages (tab_widget w') →
    tab ∈ tab_pages (tab_widget w)
    ∨ (tab = next_object w ∧ (next_object w < next_object w')%nat).

Lemma pages_from_same (w w' : MainWindow) :
  tab_pages (tab_widget w') = tab_pages (tab_widget w) → pages_from w w'.
Proof. intros Heq tab. rewrite Heq. by left. Qed.

Lemma stops_slot (ts ts' : nat → QTimer) (t : nat) :
  stops ts ts' →
  slot (ts' t) = slot (ts t) ∧ single_shot (ts' t) = single_shot (ts t)
  ∧ (active (ts' t) = true → active (ts t) = true).
Proof. intros H. by destruct (H t) as [-> | ->]. Qed.

Lemma cancels_query (rs rs' : nat → RunnableQuery) (r : nat) :
  cancels rs rs' → r_query (rs' r) = r_query (rs r).
Proof. intros H. by destruct (H r) as [-> | ->]. Qed.

(** Nothing about the queries changes: timers may stop, runnables may
    be cancelled, identities may be handed out. *)
Lemma consistent_quiet (w w' : MainWindow) :
  tab_timers w' = tab_timers w →
  running_queries w' = running_queries w →
  thread_pool w' = thread_pool w →
  cancel_action w' = cancel_action w →
  (next_object w ≤ next_object w')%nat →
  stops (timers w) (timers w') →
  cancels (runnables w) (runnables w') →
  pages_from w w' →
  consistent w → consistent w'.
Proof.
  intros Ht Hr Hp Hc Hn Hs Hrs Hpg [].
  split; unfold timers_iff_running, Running in *; rewrite ?Ht, ?Hr, ?Hp, ?Hc;
    try done.
  - intros r Hin. specialize (c_fresh0 r Hin). lia.
  - intros r Hin. rewrite (cancels_query _ _ r Hrs). by apply c_text0.
  - intros t tab r. destruct (stops_slot _ _ t Hs) as (-> & -> & _).
    apply c_slot0.
  - intros t Hact. apply c_active0. by apply (stops_slot _ _ t Hs).
  - intros tab Hin. destruct (Hpg tab Hin) as [Hold | [-> Hlt]]; [|done].
    specialize (c_pages0 tab Hold). lia.
  - intros tab r Hrun. specialize (c_tabs0 tab r Hrun). lia.
Qed.

(** The query of [tab] ends, and both timers of the tab are stopped. *)
Lemma consistent_ends (tab : Tab) (w w' : MainWindow) :
  tab_timers w' = delete tab (tab_timers w) →
  running_queries w' = delete tab (running_queries w) →
  thread_pool w' = thread_pool w →
  next_object w' = next_object w →
  (cancel_action w' =
     (if decide (size (running_queries w') = 0)%nat then false
      else cancel_action w)
   ∨ (running_queries w !! tab = None ∧ cancel_action w' = cancel_action w)) →
  stops (timers w) (timers w') →
  cancels (runnables w) (runnables w') →
  (∀ e, tab_timers w !! tab = Some e →
     active (timers w' (timer e)) = false
     ∧ active (timers w' (timeout_timer e)) = false) →
  pages_from w w' →
  consistent w → consistent w'.
Proof.
  intros Ht Hr Hp Hn Hc Hs Hrs Hoff Hpg [].
  split; rewrite ?Hp, ?Hn; try done.
  - apply timers_iff_running_dom. rewrite Ht, Hr, !dom_delete_L.
    by rewrite (proj1 (timers_iff_running_dom w) c_timers0).
  - destruct Hc as [-> | [Hidle ->]].
    + case_decide as Hsize.
      * apply map_size_empty_iff in Hsize. by rewrite Hsize.
      * rewrite c_cancel0. split; [intros _ Hempty; by rewrite Hempty in Hsize|].
        intros _ Hempty. rewrite Hr in Hsize. rewrite Hempty in Hsize.
        by rewrite delete_empty in Hsize.
    + rewrite Hr, delete_id by done. done.
  - intros tab1 r. rewrite Hr. intros [_ H]%lookup_delete_Some. by eapply c_started0.
  - intros tab1 tab2 r. rewrite Hr.
    intros [_ H1]%lookup_delete_Some [_ H2]%lookup_delete_Some.
    by eapply c_own0.
  - intros r Hin. rewrite (cancels_query _ _ r Hrs). by apply c_text0.
  - intros tab1 e. rewrite Ht, Hr. intros [Hne H]%lookup_delete_Some.
    rewrite lookup_delete_ne by done. by apply c_entry0.
  - intros t tab1 r. destruct (stops_slot _ _ t Hs) as (-> & -> & _).
    apply c_slot0.
  - intros t Hact. pose proof (proj2 (proj2 (stops_slot _ _ t Hs)) Hact) as Hold.
    destruct (c_active0 t Hold) as (tab1 & e & He & Hor).
    destruct (decide (tab1 = tab)) as [->|Hne].
    + destruct (Hoff e He) as [Hoff1 Hoff2].
      destruct Hor as [-> | ->]; congruence.
    + exists tab1, e. rewrite Ht, lookup_delete_ne by done. done.
  - intros tab1 Hin. destruct (Hpg tab1 Hin) as [Hold | [_ Hlt]]; [|lia].
    by apply c_pages0.
  - intros tab1 r. rewrite Hr. intros [_ H]%lookup_delete_Some.
    by eapply c_tabs0.
Qed.

Lemma consistent_dispatch (now : float) (w : MainWindow) (tab : Tab) (c : ConnData) :
  currentWidget (tab_widget w) = Some tab →
  editor_stack (pages w tab) ≠ 1%nat →
  running_queries w !! tab = None →
  endswith (strip (query_editor (pages w tab))) ";" = true →
  db_combo_box (pages w tab) = Some c →
  consistent w → consistent (execute_query now w).
Proof.
  intros Hcur Hview Hidle Hend Hconn Hw.
  destruct (execute_query_dispatch_fields now w tab c Hcur Hview Hidle Hend Hconn)
    as (Hr & Ht & Hp & Hrun & Htn & Hts & _ & Hc & _).
  destruct (execute_query_accepted now w tab c Hcur Hview Hidle Hend Hconn)
    as (Hts' & Hrs' & _ & _ & Htw & _).
  destruct (execute_query_accepted_stores now w tab c Hcur Hview Hidle Hend Hconn)
    as (Hn & Hto & Hro & _).
  destruct Hw. set (n := next_object w) in *.
  assert (tab_timers w !! tab = None) as Hnoentry.
  { destruct (tab_timers w !! tab) eqn:He; [|done].
    destruct (proj1 (c_timers0 tab)) as [r Hr0]; [by eexists|].
    unfold Idle in *. congruence. }
  assert (∀ r, r ∈ thread_pool w → r ≠ S (S n)) as Hold.
  { intros r Hin ->. specialize (c_fresh0 _ Hin). lia. }
  split.
  - apply timers_iff_running_dom. rewrite Hts', Hrs', !dom_insert_L.
    by rewrite (proj1 (timers_iff_running_dom w) c_timers0).
  - rewrite Hc, Hrs'. split; [|done]. intros _ Hempty.
    by apply insert_non_empty in Hempty.
  - intros tab1 r. rewrite Hrs', Hp.
    destruct (decide (tab = tab1)) as [->|Hne].
    + rewrite lookup_insert_eq. intros [= Heq]. subst r.
      apply elem_of_app. right. by apply list_elem_of_singleton.
    + rewrite lookup_insert_ne by done. intros H.
      apply elem_of_app. left. by eapply c_started0.
  - intros r. rewrite Hp, Hn.
    intros [Hin | Heq%list_elem_of_singleton]%elem_of_app.
    + specialize (c_fresh0 _ Hin). lia.
    + lia.
  - rewrite Hp. apply list.NoDup_app. split; [done|]. split; [|apply list.NoDup_singleton].
    intros r Hin Heq%list_elem_of_singleton. by apply (Hold _ Hin).
  - intros tab1 tab2 r. rewrite Hrs'.
    destruct (decide (tab = tab1)) as [<-|Hne1],
             (decide (tab = tab2)) as [<-|Hne2];
      rewrite ?lookup_insert_eq, ?lookup_insert_ne by done; try done.
    + intros [= <-] H. apply c_started0 in H. by destruct (Hold _ H).
    + intros H [= <-]. apply c_started0 in H. by destruct (Hold _ H).
    + by apply c_own0.
  - intros r. rewrite Hp.
    intros [Hin | Heq%list_elem_of_singleton]%elem_of_app.
    + rewrite Hro by (by apply Hold). by apply c_text0.
    + by rewrite Heq, Hrun.
  - intros tab1 e. rewrite Hts', Hrs'.
    destruct (decide (tab = tab1)) as [->|Hne].
    + rewrite !lookup_insert_eq. by intros [= <-].
    + rewrite !lookup_insert_ne by done. by apply c_entry0.
  - intros t tab1 r.
    destruct (decide (t = n)) as [->|Hn1]; [by rewrite Htn|].
    destruct (decide (t = S n)) as [->|Hn2];
      [rewrite Hts; simpl; by intros [= <- <-]|].
    rewrite Hto by done. apply c_slot0.
  - intros t Hact. rewrite Hts'.
    destruct (decide (t = n)) as [->|Hn1].
    { eexists tab, _. rewrite lookup_insert_eq. split; [done|]. by left. }
    destruct (decide (t = S n)) as [->|Hn2].
    { eexists tab, _. rewrite lookup_insert_eq. split; [done|]. by right. }
    rewrite Hto in Hact by done.
    destruct (c_active0 t Hact) as (tab1 & e & He & Hor).
    exists tab1, e. split; [|done].
    rewrite lookup_insert_ne; [done|]. intros <-. congruence.
  - intros tab1. rewrite Htw, Hn. intros Hin. specialize (c_pages0 _ Hin). lia.
  - intros tab1 r. rewrite Hrs', Hn.
    destruct (decide (tab = tab1)) as [<-|Hne].
    + intros _. unfold currentWidget, widget in Hcur.
      apply list_elem_of_lookup_2 in Hcur. specialize (c_pages0 _ Hcur). lia.
    + rewrite lookup_insert_ne by done. intros H.
      specialize (c_tabs0 _ _ H). lia.
Qed.

Lemma consistent_execute_query (now : float) (w : MainWindow) :
  consistent w → consistent (execute_query now w).
Proof.
  intros Hw. destruct (execute_query_cases now w)
    as [(_ & Hp & Ht & Hr & Htw & _ & Hts & Hrs & Hn & Hc & _)
       | (tab & c & Hcur & Hview & Hidle & Hend & Hconn)].
  - apply (consistent_quiet w (execute_query now w)); try done.
    + by rewrite Hn.
    + rewrite Hts. apply stops_refl.
    + rewrite Hrs. apply cancels_refl.
    + apply pages_from_same. by rewrite Htw.
  - by eapply consistent_dispatch.
Qed.

Lemma consistent_ends_query (tab : Tab) (w w' : MainWindow) :
  ends_query tab w w' →
  (∀ e, tab_timers w !! tab = Some e →
     active (timers w' (timer e)) = false
     ∧ active (timers w' (timeout_timer e)) = false) →
  consistent w → consistent w'.
Proof.
  intros (Ht & Hr & Hp & Hn & Htw & Hc & Hs & Hrs & _) Hoff.
  apply (consistent_ends tab w w'); try done.
  - by left.
  - apply pages_from_same. by rewrite Htw.
Qed.

Lemma close_tab_no_page_quiet (index : nat) (w : MainWindow) :
  widget index (tab_widget w) = None →
  let w' := close_tab index w in
  thread_pool w' = thread_pool w ∧ cancel_action w' = cancel_action w
  ∧ next_object w' = next_object w ∧ timers w' = timers w
  ∧ runnables w' = runnables w ∧ pages w' = pages w
  ∧ dialogs w' = dialogs w.
Proof.
  intros Hwidget. cbv zeta. unfold close_tab. rewrite Hwidget.
  case_decide; simpl; by repeat split.
Qed.

Lemma consistent_close_tab (index : nat) (w : MainWindow) :
  consistent w → consistent (close_tab index w).
Proof.
  intros Hw. destruct (widget index (tab_widget w)) as [tab|] eqn:Hwidget.
  - destruct (close_tab_ends index w tab Hwidget)
      as (Ht & Hr & Hp & Hn & Hc & Hs & Hrs & _).
    destruct (close_tab_effects index w tab Hwidget)
      as (_ & _ & _ & _ & _ & _ & _ & _ & _ & Hoff & _).
    destruct (close_tab_effects index w tab Hwidget)
      as (_ & _ & _ & _ & _ & _ & _ & Htw & _).
    apply (consistent_ends tab w (close_tab index w)); try done.
    + destruct (running_queries w !! tab); [by left|by right].
    + intros tab1 Hin. left. rewrite Htw in Hin. case_decide; [|done].
      unfold removeTab in Hin. case_decide; simpl in Hin; [|done].
      by eapply list_elem_of_delete_inv.
  - destruct (close_tab_no_page index w Hwidget) as (Ht & Hr & _ & Htw).
    destruct (close_tab_no_page_quiet index w Hwidget)
      as (Hp & Hc & Hn & Hts & Hrs & _).
    apply (consistent_quiet w (close_tab index w)); try done.
    + by rewrite Hn.
    + rewrite Hts. apply stops_refl.
    + rewrite Hrs. apply cancels_refl.
    + apply pages_from_same. by rewrite Htw.
Qed.

Lemma consistent_handle_query_result target_tab conn_data query results
    columns row_count elapsed_time is_select_query (w : MainWindow) :
  consistent w →
  consistent (handle_query_result target_tab conn_data query results columns
                row_count elapsed_time is_select_query w).
Proof.
  intros Hw. eapply consistent_ends_query; [|  |done].
  - apply handle_query_result_ends.
  - edestruct handle_query_result_effects as (_ & _ & _ & _ & _ & _ & Hoff).
    apply Hoff.
Qed.

Lemma consistent_handle_query_error target_tab error_message (w w' : MainWindow) :
  handle_query_error target_tab error_message w = Ok w' →
  consistent w → consistent w'.
Proof.
  intros Hok Hw. eapply consistent_ends_query; [| |done].
  - by eapply handle_query_error_ends.
  - destruct (db_combo_box (pages w target_tab)) as [c|] eqn:Hconn.
    + destruct (handle_query_error_effects target_tab error_message w c Hconn)
        as (w'' & Heq & _ & _ & _ & _ & _ & _ & _ & _ & Hoff).
      rewrite Heq in Hok. by injection Hok as <-.
    + destruct (handle_query_error_raises target_tab error_message w Hconn)
        as [e He]. congruence.
Qed.

Lemma consistent_cancel_current_query (w w' : MainWindow) :
  cancel_current_query w = Ok w' →
  consistent w → consistent w'.
Proof.
  intros Hok Hw.
  destruct (currentWidget (tab_widget w)) as [tab|] eqn:Hcur;
    [|unfold cancel_current_query in Hok; rewrite Hcur in Hok;
      by injection Hok as <-].
  destruct (running_queries w !! tab) as [runnable|] eqn:Hrun;
    [|rewrite (cancel_current_query_idle w tab) in Hok by done;
      by injection Hok as <-].
  eapply consistent_ends_query; [| |done].
  - by eapply cancel_current_query_ends.
  - destruct (db_combo_box (pages w tab)) as [c|] eqn:Hconn.
    + destruct (cancel_current_query_effects w tab runnable c Hcur Hrun Hconn)
        as (w'' & Heq & _ & _ & _ & _ & _ & _ & _ & _ & Hoff).
      rewrite Heq in Hok. by injection Hok as <-.
    + destruct (cancel_current_query_raises w tab runnable Hcur Hrun Hconn)
        as [e He]. congruence.
Qed.

(** The timeout timer [t] fires: it is single-shot, so it stops, and its
    slot runs [handle_query_timeout]. *)
Lemma consistent_timeout_fired (t : nat) (tab : Tab) (runnable : Runnable)
    (w w' : MainWindow) :
  slot (timers w t) = Some (handle_query_timeout_slot tab runnable) →
  handle_query_timeout tab runnable (on_timer t timer_stop w) = Ok w' →
  consistent w → consistent w'.
Proof.
  intros Hslot Hok Hw. set (w1 := on_timer t timer_stop w) in *.
  assert (consistent w1) as Hw1.
  { apply (consistent_quiet w w1); unfold w1; simpl; try done.
    - apply (stops_stop (timers w) (timers w) t), stops_refl.
    - apply cancels_refl.
    - by apply pages_from_same. }
  destruct (decide (running_queries w1 !! tab = Some runnable)) as [Hrun|Hrun];
    [|rewrite handle_query_timeout_stale in Hok by done; by injection Hok as <-].
  pose proof (handle_query_timeout_ends tab runnable w1 w' Hrun Hok) as Hends.
  eapply consistent_ends_query; [done| |done].
  intros e He. split.
  - destruct (db_combo_box (pages w1 tab)) as [c|] eqn:Hconn.
    + destruct (handle_query_timeout_effects tab runnable w1 c Hrun Hconn)
        as (w'' & Heq & _ & _ & _ & _ & _ & _ & _ & Hoff).
      rewrite Heq in Hok. injection Hok as <-. by apply Hoff.
    + destruct (handle_query_timeout_raises tab runnable w1 Hrun Hconn)
        as [x Hx]. congruence.
  - destruct (c_entry w1 Hw1 tab e He) as [Hrun' _].
    rewrite Hrun in Hrun'. injection Hrun' as ->.
    destruct (c_slot w Hw t tab _ Hslot) as [[= <-] _].
    destruct Hends as (_ & _ & _ & _ & _ & _ & Hs & _).
    destruct (Hs (timeout_timer e)) as [-> | ->]; [|done].
    unfold w1. simpl. by rewrite fn_lookup_insert.
Qed.

Lemma pages_from_add_tab (w : MainWindow) : pages_from w (add_tab w).
Proof.
  intros tab. unfold add_tab. simpl.
  intros [Hin | Heq%list_elem_of_singleton]%elem_of_app; [by left|].
  right. split; [done|lia].
Qed.

Ltac quiet w w' :=
  apply (consistent_quiet w w');
  first [apply pages_from_add_tab | by apply pages_from_same | idtac];
  unfold add_tab; simpl;
  first [done | lia | apply stops_refl | apply cancels_refl
        | apply (stops_stop _ _ _), stops_refl].

Lemma consistent_step (w w' : MainWindow) (e : Event) :
  step w e = Ok w' → consistent w → consistent w'.
Proof.
  destruct e; simpl; intros Hok Hw.
  - injection Hok as <-. by apply consistent_execute_query.
  - by eapply consistent_cancel_current_query.
  - injection Hok as <-. by apply consistent_close_tab.
  - injection Hok as <-. quiet w (add_tab w).
  - injection Hok as <-. case_decide; [|done].
    quiet w (set_tab_widget (setCurrentIndex index) w).
  - injection Hok as <-. quiet w (on_page tab (set_query_editor text) w).
  - injection Hok as <-. quiet w (on_page tab (set_db_combo_box conn) w).
  - injection Hok as <-. quiet w (on_page tab (set_editor_stack index) w).
  - unfold on_timer_timeout in Hok.
    destruct (active (timers w t)); [|by injection Hok as <-].
    destruct (slot (timers w t)) as [[tab|tab runnable]|] eqn:Hslot.
    + injection Hok as <-. unfold update_timer_label.
      destruct (single_shot (timers w t)); simpl;
        destruct (tab_timers w !! tab); simpl.
      * quiet w (on_page tab (set_tab_status_label
                   (RunningStatus (PrimFloat.sub now (start_time t0))))
                   (on_timer t timer_stop w)).
      * quiet w (on_timer t timer_stop w).
      * quiet w (on_page tab (set_tab_status_label
                   (RunningStatus (PrimFloat.sub now (start_time t0)))) w).
      * done.
    + destruct (c_slot w Hw t tab runnable Hslot) as [_ Hshot].
      rewrite Hshot in Hok. by eapply consistent_timeout_fired.
    + injection Hok as <-.
      destruct (single_shot (timers w t)); [|done].
      quiet w (on_timer t timer_stop w).
  - injection Hok as <-. unfold on_finished. case_decide; [|done].
    by apply consistent_handle_query_result.
  - unfold on_error in Hok. case_decide.
    + by eapply consistent_handle_query_error.
    + by injection Hok as <-.
  - injection Hok as <-. quiet w (set_db_manager (set_writable b) w).
Qed.

Lemma consistent_init (db : DatabaseManager) : consistent (init db).
Proof.
  split; try done.
  - by apply init_timers_iff_running.
  - intros r Hin. by apply elem_of_nil in Hin.
  - apply NoDup_nil_2.
  - intros r Hin. by apply elem_of_nil in Hin.
  - intros tab. unfold init, add_tab. simpl.
    intros Heq%list_elem_of_singleton. lia.
Qed.

Lemma consistent_run (es : list Event) (w w' : MainWindow) :
  run w es = Ok w' → consistent w → consistent w'.
Proof.
  revert w. induction es as [|e es IH]; simpl; intros w Hrun Hw.
  - by injection Hrun as <-.
  - destruct (step w e) as [w1|] eqn:Hstep; [|done].
    eapply IH; [done|]. by eapply consistent_step.
Qed.

Lemma reachable_consistent (w : MainWindow) : reachable w → consistent w.
Proof.
  intros (db & es & Hrun). eapply consistent_run; [done|].
  apply consistent_init.
Qed.

(** ** Reachable states *)

(** X2.  In every state the window can reach, the cancel action is
    enabled exactly when at least one tab has a running query. *)
Theorem cancel_action_tracks_running (w : MainWindow) :
  reachable w →
  cancel_action w = true ↔ running_queries w ≠ ∅.
Proof. intros Hw. by apply c_cancel, reachable_consistent. Qed.

Lemma cancel_action_tracks_running_witness :
  cancel_action example_running = true ↔ running_queries example_running ≠ ∅.
Proof.
  apply (cancel_action_tracks_running example_running).
  exists example_db, [text_edited 0 "SELECT 1;"; execute_triggered 0].
  vm_compute. reflexivity.
Defined.

(** X3.  In every state the window can reach, the current runnable of a
    tab has been given to the thread pool, no runnable was given to it
    twice, no two tabs share a runnable, and every started runnable is
    an object created before. *)
Theorem runnables_started_once (w : MainWindow) :
  reachable w →
  NoDup (thread_pool w)
  ∧ (∀ tab r, running_queries w !! tab = Some r → r ∈ thread_pool w)
  ∧ (∀ tab1 tab2 r,
       running_queries w !! tab1 = Some r →
       running_queries w !! tab2 = Some r → tab1 = tab2)
  ∧ (∀ r, r ∈ thread_pool w → (r < next_object w)%nat).
Proof.
  intros Hw. apply reachable_consistent in Hw. destruct Hw. by repeat split.
Qed.

Lemma runnables_started_once_witness :
  NoDup (thread_pool example_running)
  ∧ (∀ tab r, running_queries example_running !! tab = Some r →
       r ∈ thread_pool example_running)
  ∧ (∀ tab1 tab2 r,
       running_queries example_running !! tab1 = Some r →
       running_queries example_running !! tab2 = Some r → tab1 = tab2)
  ∧ (∀ r, r ∈ thread_pool example_running →
       (r < next_object example_running)%nat).
Proof.
  apply (runnables_started_once example_running).
  exists example_db, [text_edited 0 "SELECT 1;"; execute_triggered 0].
  vm_compute. reflexivity.
Defined.

(** X4.  Whatever reached the thread pool is a terminated statement: the
    text of every started runnable ends with [;], also after the
    runnable was cancelled. *)
Theorem started_text_is_terminated (w : MainWindow) (r : Runnable) :
  reachable w →
  r ∈ thread_pool w →
  endswith (r_query (runnables w r)) ";" = true.
Proof. intros Hw. by apply c_text, reachable_consistent. Qed.

Lemma started_text_is_terminated_witness :
  endswith (r_query (runnables example_running 3%nat)) ";" = true.
Proof.
  apply (started_text_is_terminated example_running 3).
  - exists example_db, [text_edited 0 "SELECT 1;"; execute_triggered 0].
    vm_compute. reflexivity.
  - vm_compute. apply list_elem_of_singleton. reflexivity.
Defined.



(** X6.  A tab that is added is a new object: in every state the window
    can reach, [add_tab] makes a page that was not a page before,
    current, idle, in the query view with an empty editor, and leaves
    the queries of the other tabs alone. *)
Theorem add_tab_is_fresh (w : MainWindow) :
  reachable w →
  let w' := add_tab w in
  let tab := next_object w in
  (tab ∉ tab_pages (tab_widget w))
  ∧ tab_pages (tab_widget w') = tab_pages (tab_widget w) ++ [tab]
  ∧ currentWidget (tab_widget w') = Some tab
  ∧ Idle w' tab
  ∧ tab_timers w' !! tab = None
  ∧ editor_stack (pages w' tab) = 0%nat
  ∧ query_editor (pages w' tab) = ""
  ∧ db_combo_box (pages w' tab) = head (connections (db_manager w))
  ∧ running_queries w' = running_queries w
  ∧ tab_timers w' = tab_timers w
  ∧ thread_pool w' = thread_pool w.
Proof.
  intros Hw. apply reachable_consistent in Hw. cbv zeta.
  assert (running_queries w !! next_object w = None) as Hidle.
  { destruct (running_queries w !! next_object w) eqn:Hr; [|done].
    pose proof (c_tabs w Hw _ _ Hr). lia. }
  unfold add_tab, Idle, currentWidget, widget, count. simpl.
  rewrite fn_lookup_insert. simpl.
  repeat split; try done.
  - intros Hin. pose proof (c_pages w Hw _ Hin). lia.
  - rewrite lookup_app_r by done. by rewrite Nat.sub_diag.
  - destruct (tab_timers w !! next_object w) eqn:He; [|done].
    destruct (proj1 (c_timers w Hw (next_object w))) as [r Hr]; [by eexists|].
    congruence.
Qed.

Lemma add_tab_is_fresh_witness :
  let w := example_running in
  let w' := add_tab w in
  let tab := next_object w in
  (tab ∉ tab_pages (tab_widget w))
  ∧ tab_pages (tab_widget w') = tab_pages (tab_widget w) ++ [tab]
  ∧ currentWidget (tab_widget w') = Some tab
  ∧ Idle w' tab
  ∧ tab_timers w' !! tab = None
  ∧ editor_stack (pages w' tab) = 0%nat
  ∧ query_editor (pages w' tab) = ""
  ∧ db_combo_box (pages w' tab) = head (connections (db_manager w))
  ∧ running_queries w' = running_queries w
  ∧ tab_timers w' = tab_timers w
  ∧ thread_pool w' = thread_pool w.
Proof.
  apply (add_tab_is_fresh example_running).
  exists example_db, [text_edited 0 "SELECT 1;"; execute_triggered 0].
  vm_compute. reflexivity.
Defined.

(** ** One tab at a time *)

Lemma ends_query_other (tab other : Tab) (w w' : MainWindow) :
  other ≠ tab → ends_query tab w w' →
  running_queries w' !! other = running_queries w !! other
  ∧ tab_timers w' !! other = tab_timers w !! other
  ∧ pages w' other = pages w other.
Proof.
  intros Hne (Ht & Hr & _ & _ & _ & _ & _ & _ & Hpages).
  rewrite Ht, Hr, !lookup_delete_ne by done. split; [done|]. split; [done|].
  by apply Hpages.
Qed.

(** X7.  What happens to the query of one tab leaves every other tab as
    it was: its runnable and its timers stay registered and its page is
    unchanged, whether the query of the first tab is submitted, gets its
    result or an error, times out, is cancelled, or the tab is closed. *)
Theorem other_tabs_keep_their_state (w : MainWindow) (tab other : Tab) :
  other ≠ tab →
  let kept w' :=
    running_queries w' !! other = running_queries w !! other
    ∧ tab_timers w' !! other = tab_timers w !! other
    ∧ pages w' other = pages w other in
  (∀ now, currentWidget (tab_widget w) = Some tab → kept (execute_query now w))
  ∧ (∀ conn_data query results columns row_count elapsed_time is_select_query,
       kept (handle_query_result tab conn_data query results columns
               row_count elapsed_time is_select_query w))
  ∧ (∀ error_message w',
       handle_query_error tab error_message w = Ok w' → kept w')
  ∧ (∀ runnable w', handle_query_timeout tab runnable w = Ok w' → kept w')
  ∧ (∀ w', currentWidget (tab_widget w) = Some tab →
       cancel_current_query w = Ok w' → kept w')
  ∧ (∀ index, widget index (tab_widget w) = Some tab →
       kept (close_tab index w)).
Proof.
  intros Hne. cbv zeta. split; [|split; [|split; [|split; [|split]]]].
  - intros now Hcur.
    destruct (execute_query_cases now w)
      as [(_ & _ & Ht & Hr & _ & Hp & _)
         | (tab1 & c & Hcur1 & Hview & Hidle & Hend & Hconn)].
    + by rewrite Ht, Hr, Hp.
    + rewrite Hcur in Hcur1. injection Hcur1 as <-.
      destruct (execute_query_accepted now w tab c Hcur Hview Hidle Hend Hconn)
        as (Ht & Hr & _).
      destruct (execute_query_accepted_stores now w tab c
                  Hcur Hview Hidle Hend Hconn) as (_ & _ & _ & Hp).
      rewrite Ht, Hr, !lookup_insert_ne by done. split; [done|].
      split; [done|]. by apply Hp.
  - intros. apply (ends_query_other tab); [done|].
    apply handle_query_result_ends.
  - intros error_message w' Hok. apply (ends_query_other tab); [done|].
    by eapply handle_query_error_ends.
  - intros runnable w' Hok.
    destruct (decide (running_queries w !! tab = Some runnable)) as [Hrun|Hrun].
    + apply (ends_query_other tab); [done|].
      by eapply handle_query_timeout_ends.
    + rewrite handle_query_timeout_stale in Hok by done. by injection Hok as <-.
  - intros w' Hcur Hok.
    destruct (running_queries w !! tab) as [runnable|] eqn:Hrun.
    + apply (ends_query_other tab); [done|].
      by eapply cancel_current_query_ends.
    + rewrite (cancel_current_query_idle w tab) in Hok by done.
      by injection Hok as <-.
  - intros index Hwidget.
    destruct (close_tab_ends index w tab Hwidget)
      as (Ht & Hr & _ & _ & _ & _ & _ & Hp).
    by rewrite Ht, Hr, Hp, !lookup_delete_ne.
Qed.

Lemma other_tabs_keep_their_state_witness :
  let w := example_two_tabs in
  let kept w' :=
    running_queries w' !! 0%nat = running_queries w !! 0%nat
    ∧ tab_timers w' !! 0%nat = tab_timers w !! 0%nat
    ∧ pages w' 0%nat = pages w 0%nat in
  (∀ now, currentWidget (tab_widget w) = Some 4%nat → kept (execute_query now w))
  ∧ (∀ conn_data query results columns row_count elapsed_time is_select_query,
       kept (handle_query_result 4 conn_data query results columns
               row_count elapsed_time is_select_query w))
  ∧ (∀ error_message w',
       handle_query_error 4 error_message w = Ok w' → kept w')
  ∧ (∀ runnable w', handle_query_timeout 4 runnable w = Ok w' → kept w')
  ∧ (∀ w', currentWidget (tab_widget w) = Some 4%nat →
       cancel_current_query w = Ok w' → kept w')
  ∧ (∀ index, widget index (tab_widget w) = Some 4%nat →
       kept (close_tab index w)).
Proof. apply (other_tabs_keep_their_state example_two_tabs 4 0). lia. Defined.

(** ** Progress ticks *)

(** X8.  A progress tick writes the elapsed time on the status label of
    a running tab and touches nothing else of the queries; a tick that
    arrives when the tab has no timers any more, as after a result, does
    nothing, so it cannot overwrite the outcome shown. *)
Theorem update_timer_label_effect (now : float) (tab : Tab) (w : MainWindow) :
  (∀ e, tab_timers w !! tab = Some e →
     tab_status_label (pages (update_timer_label now tab w) tab) =
       RunningStatus (PrimFloat.sub now (start_time e)))
  ∧ (tab_timers w !! tab = None → update_timer_label now tab w = w)
  ∧ (∀ conn_data query results columns row_count elapsed_time is_select_query,
       let w' := handle_query_result tab conn_data query results columns
                   row_count elapsed_time is_select_query w in
       update_timer_label now tab w' = w')
  ∧ tab_timers (update_timer_label now tab w) = tab_timers w
  ∧ running_queries (update_timer_label now tab w) = running_queries w
  ∧ timers (update_timer_label now tab w) = timers w
  ∧ db_manager (update_timer_label now tab w) = db_manager w
  ∧ message_view (pages (update_timer_label now tab w) tab) =
      message_view (pages w tab).
Proof.
  unfold update_timer_label. repeat split.
  - intros e ->. simpl. by rewrite fn_lookup_insert.
  - by intros ->.
  - intros. edestruct handle_query_result_dicts as [-> _].
    by rewrite lookup_delete_eq.
  - by destruct (tab_timers w !! tab).
  - by destruct (tab_timers w !! tab).
  - by destruct (tab_timers w !! tab).
  - by destruct (tab_timers w !! tab).
  - destruct (tab_timers w !! tab); [|done]. simpl. by rewrite fn_lookup_insert.
Qed.

(** ** Requests that are turned down *)

(** X9.  With a terminated text but no connection selected in the combo
    box, an idle tab in its query view gets the status-bar message that
    the connection or the query is empty, and nothing else changes: no
    dialog, no runnable, no timers. *)
Theorem execute_query_no_connection (now : float) (w : MainWindow) (tab : Tab) :
  currentWidget (tab_widget w) = Some tab →
  editor_stack (pages w tab) ≠ 1%nat →
  Idle w tab →
  endswith (strip (query_editor (pages w tab))) ";" = true →
  db_combo_box (pages w tab) = None →
  execute_query now w =
    set_status (Some ("Connection or query is empty", 3000%Z)) w.
Proof.
  intros Hcur Hview Hidle Hend Hconn. unfold execute_query, Idle in *.
  rewrite Hcur, decide_False by done. by rewrite Hidle, Hend, Hconn.
Qed.

Lemma execute_query_no_connection_witness :
  let w := on_page 0 (set_db_combo_box None) example_idle in
  execute_query 0 w =
    set_status (Some ("Connection or query is empty", 3000%Z)) w.
Proof.
  apply (execute_query_no_connection 0
           (on_page 0 (set_db_combo_box None) example_idle) 0);
    try reflexivity.
  vm_compute. discriminate.
Defined.

(** X10.  A close request for an index that has no page changes nothing
    of the tabs and of the queries; when the window has one tab at most,
    the status bar still says that one tab must be kept. *)
Theorem close_tab_out_of_range (index : nat) (w : MainWindow) :
  (count (tab_widget w) ≤ index)%nat →
  let w' := close_tab index w in
  tab_widget w' = tab_widget w
  ∧ tab_timers w' = tab_timers w ∧ running_queries w' = running_queries w
  ∧ thread_pool w' = thread_pool w ∧ timers w' = timers w
  ∧ runnables w' = runnables w ∧ pages w' = pages w
  ∧ db_manager w' = db_manager w ∧ dialogs w' = dialogs w
  ∧ cancel_action w' = cancel_action w
  ∧ status w' =
      (if decide (1 < count (tab_widget w))%nat then status w
       else Some ("Must keep at least one tab", 3000%Z)).
Proof.
  intros Hrange. cbv zeta.
  assert (widget index (tab_widget w) = None) as Hwidget
    by (by apply lookup_ge_None_2).
  destruct (close_tab_no_page index w Hwidget) as (Ht & Hr & Hdb & Htw).
  destruct (close_tab_no_page_quiet index w Hwidget)
    as (Hp & Hc & _ & Hts & Hrs & Hpg & Hd).
  repeat split; try done.
  unfold close_tab. rewrite Hwidget. by case_decide.
Qed.

Lemma close_tab_out_of_range_witness :
  let w := example_two_tabs in
  let w' := close_tab 2 w in
  tab_widget w' = tab_widget w
  ∧ tab_timers w' = tab_timers w ∧ running_queries w' = running_queries w
  ∧ thread_pool w' = thread_pool w ∧ timers w' = timers w
  ∧ runnables w' = runnables w ∧ pages w' = pages w
  ∧ db_manager w' = db_manager w ∧ dialogs w' = dialogs w
  ∧ cancel_action w' = cancel_action w
  ∧ status w' =
      (if decide (1 < count (tab_widget w))%nat then status w
       else Some ("Must keep at least one tab", 3000%Z)).
Proof.
  apply (close_tab_out_of_range 2 example_two_tabs). vm_compute. lia.
Defined.

(** ** What the user entered *)

(** The input widgets of every page: the view of the editor stack, the
    text of the editor and the selection of the combo box. *)
Definition same_inputs (w w' : MainWindow) : Prop :=
  ∀ tab,
    editor_stack (pages w' tab) = editor_stack (pages w tab)
    ∧ query_editor (pages w' tab) = query_editor (pages w tab)
    ∧ db_combo_box (pages w' tab) = db_combo_box (pages w tab).

Ltac inputs tab :=
  let t := fresh "t" in
  intros t; destruct (decide (t = tab)) as [->|];
  repeat first [ done | rewrite fn_lookup_insert
               | rewrite fn_lookup_insert_ne by done | progress simpl ].

Lemma execute_query_inputs (now : float) (w : MainWindow) :
  same_inputs w (execute_query now w).
Proof.
  unfold execute_query.
  destruct (currentWidget (tab_widget w)) as [tab|]; [|done].
  case_decide; [done|].
  destruct (running_queries w !! tab); [done|].
  destruct (endswith _ _); [|done].
  destruct (db_combo_box _); [|done].
  destruct (falsy _); [done|]. simpl. inputs tab.
Qed.

Lemma handle_query_result_inputs target_tab conn_data query results columns
    row_count elapsed_time is_select_query (w : MainWindow) :
  same_inputs w
    (handle_query_result target_tab conn_data query results columns
       row_count elapsed_time is_select_query w).
Proof.
  unfold handle_query_result. rewrite disable_cancel_when_idle_eq.
  destruct is_select_query, (tab_timers w !! target_tab); simpl;
    inputs target_tab.
Qed.

Lemma handle_query_error_inputs target_tab error_message (w w' : MainWindow) :
  handle_query_error target_tab error_message w = Ok w' → same_inputs w w'.
Proof.
  unfold handle_query_error, currentData_id.
  destruct (tab_timers w !! target_tab); simpl;
    rewrite ?fn_lookup_insert; simpl;
    (destruct (db_combo_box (pages w target_tab)); simpl; [|done]);
    intros [= <-]; rewrite disable_cancel_when_idle_eq; simpl;
    inputs target_tab.
Qed.

Lemma handle_query_timeout_inputs tab runnable (w w' : MainWindow) :
  handle_query_timeout tab runnable w = Ok w' → same_inputs w w'.
Proof.
  unfold handle_query_timeout, currentData_id.
  case_decide; [|by intros [= <-]].
  simpl. rewrite !fn_lookup_insert. simpl.
  destruct (db_combo_box (pages w tab)); simpl; [|done].
  intros [= <-]. rewrite disable_cancel_when_idle_eq.
  destruct (tab_timers w !! tab); simpl; inputs tab.
Qed.

Lemma cancel_current_query_inputs (w w' : MainWindow) :
  cancel_current_query w = Ok w' → same_inputs w w'.
Proof.
  unfold cancel_current_query, currentData_id.
  destruct (currentWidget (tab_widget w)) as [tab|]; [|by intros [= <-]].
  destruct (running_queries w !! tab); [|by intros [= <-]].
  simpl.
  destruct (tab_timers w !! tab); simpl;
    rewrite ?fn_lookup_insert; simpl;
    (destruct (db_combo_box (pages w tab)); simpl; [|done]);
    intros [= <-]; rewrite disable_cancel_when_idle_eq; simpl;
    inputs tab.
Qed.

Lemma close_tab_pages (index : nat) (w : MainWindow) :
  pages (close_tab index w) = pages w.
Proof.
  destruct (widget index (tab_widget w)) as [tab|] eqn:Hwidget.
  - by destruct (close_tab_effects index w tab Hwidget) as (_ & _ & _ & _ & -> & _).
  - by destruct (close_tab_no_page_quiet index w Hwidget)
      as (_ & _ & _ & _ & _ & Hpg & _).
Qed.

(** X11.  The handlers write on the output widgets only.  Whatever
    [execute_query], the three outcome handlers, [cancel_current_query],
    [close_tab] and the progress tick do, every page keeps the text of
    its editor, the view of its editor stack and the connection selected
    in its combo box. *)
Theorem handlers_keep_the_input (w : MainWindow) :
  (∀ now, same_inputs w (execute_query now w))
  ∧ (∀ tab conn_data query results columns row_count elapsed_time
       is_select_query,
       same_inputs w
         (handle_query_result tab conn_data query results columns
            row_count elapsed_time is_select_query w))
  ∧ (∀ tab error_message w',
       handle_query_error tab error_message w = Ok w' → same_inputs w w')
  ∧ (∀ tab runnable w',
       handle_query_timeout tab runnable w = Ok w' → same_inputs w w')
  ∧ (∀ w', cancel_current_query w = Ok w' → same_inputs w w')
  ∧ (∀ index, same_inputs w (close_tab index w))
  ∧ (∀ now tab, same_inputs w (update_timer_label now tab w)).
Proof.
  split; [intros; apply execute_query_inputs|].
  split; [intros; apply handle_query_result_inputs|].
  split; [intros; by eapply handle_query_error_inputs|].
  split; [intros; by eapply handle_query_timeout_inputs|].
  split; [intros; by eapply cancel_current_query_inputs|].
  split.
  - intros index tab. by rewrite close_tab_pages.
  - intros now tab. unfold update_timer_label.
    destruct (tab_timers w !! tab); [|done]. simpl. inputs tab.
Qed.

(** ** Cancel, then run again *)

(** X12.  A cancelled query can be replaced at once.  In a state the
    window can reach, when the query of the current tab is cancelled
    and the same tab (in its query view, with a terminated text) is
    executed again, the request is accepted with a runnable that was
    never started before; the old runnable stays cancelled, the new one
    is not, and the timeout of the old runnable, should it still fire,
    leaves the new query alone. *)
Theorem resubmitted_query_is_new (w w1 : MainWindow) (tab : Tab)
    (r : Runnable) (now : float) :
  reachable w →
  currentWidget (tab_widget w) = Some tab →
  running_queries w !! tab = Some r →
  editor_stack (pages w tab) ≠ 1%nat →
  endswith (strip (query_editor (pages w tab))) ";" = true →
  cancel_current_query w = Ok w1 →
  let w2 := execute_query now w1 in
  ∃ r',
    running_queries w2 !! tab = Some r'
    ∧ r' ≠ r
    ∧ (r' ∉ thread_pool w)
    ∧ thread_pool w2 = thread_pool w ++ [r']
    ∧ r_cancelled (runnables w2 r) = true
    ∧ r_cancelled (runnables w2 r') = false
    ∧ r_query (runnables w2 r') = strip (query_editor (pages w tab))
    ∧ handle_query_timeout tab r w2 = Ok w2.
Proof.
  intros Hw Hcur Hrun Hview Hend Hok. cbv zeta.
  apply reachable_consistent in Hw.
  destruct (db_combo_box (pages w tab)) as [c|] eqn:Hconn;
    [|destruct (cancel_current_query_raises w tab r Hcur Hrun Hconn);
      congruence].
  destruct (cancel_current_query_effects w tab r c Hcur Hrun Hconn)
    as (w' & Heq & _ & _ & _ & _ & _ & Hrs & _).
  rewrite Heq in Hok. injection Hok as ->.
  destruct (cancel_current_query_ends w w1 tab r Hcur Hrun Heq)
    as (_ & Hr1 & Hp1 & Hn1 & Htw1 & _).
  destruct (cancel_current_query_inputs w w1 Heq tab) as (Hv1 & Hq1 & Hc1).
  assert (running_queries w1 !! tab = None) as Hidle
    by (rewrite Hr1; apply lookup_delete_eq).
  assert (r < next_object w)%nat as Hold
    by (eapply c_fresh, c_started; done).
  destruct (execute_query_dispatch_fields now w1 tab c)
    as (Hr2 & _ & Hp2 & Hq2 & _ & _ & _ & _ & _ & _ & _ & _ & _);
    [by rewrite Htw1 | by rewrite Hv1 | done | by rewrite Hq1
    | by rewrite Hc1 |].
  destruct (execute_query_accepted_stores now w1 tab c)
    as (_ & _ & Hrs2 & _);
    [by rewrite Htw1 | by rewrite Hv1 | done | by rewrite Hq1
    | by rewrite Hc1 |].
  rewrite Hn1 in *. rewrite Hp1 in Hp2.
  exists (S (S (next_object w))). repeat split.
  - done.
  - lia.
  - intros Hin. pose proof (c_fresh w Hw _ Hin). lia.
  - done.
  - rewrite Hrs2 by lia. rewrite Hrs. by rewrite fn_lookup_insert.
  - by rewrite Hq2.
  - rewrite Hq2. simpl. by rewrite Hq1.
  - apply handle_query_timeout_stale. rewrite Hr2. intros [= ?]. lia.
Qed.

Lemma resubmitted_query_is_new_witness :
  ∃ w1, cancel_current_query example_running = Ok w1
    ∧ ∃ r',
        running_queries (execute_query 5 w1) !! 0%nat = Some r'
        ∧ r' ≠ 3%nat
        ∧ (r' ∉ thread_pool example_running)
        ∧ thread_pool (execute_query 5 w1) = thread_pool example_running ++ [r']
        ∧ r_cancelled (runnables (execute_query 5 w1) 3%nat) = true
        ∧ r_cancelled (runnables (execute_query 5 w1) r') = false
        ∧ r_query (runnables (execute_query 5 w1) r') =
            strip (query_editor (pages example_running 0%nat))
        ∧ handle_query_timeout 0 3 (execute_query 5 w1) = Ok (execute_query 5 w1).
Proof.
  destruct (cancel_current_query example_running) as [w1|] eqn:Hok;
    [|vm_compute in Hok; discriminate].
  exists w1. split; [reflexivity|].
  apply (resubmitted_query_is_new example_running w1 0 3 5).
  - exists example_db, [text_edited 0 "SELECT 1;"; execute_triggered 0].
    vm_compute. reflexivity.
  - vm_compute. reflexivity.
  - vm_compute. reflexivity.
  - vm_compute. discriminate.
  - vm_compute. reflexivity.
  - exact Hok.
Defined.

(** ** The tab bar *)

(** The current index names a page, and no page is listed twice. *)
Definition tabs_ok (tw : QTabWidget) : Prop :=
  (currentIndex tw < count tw)%nat ∧ NoDup (tab_pages tw).

Lemma removeTab_ok (index : nat) (tw : QTabWidget) :
  (1 < count tw)%nat → tabs_ok tw → tabs_ok (removeTab index tw).
Proof.
  unfold tabs_ok, removeTab, count. intros Hmany [Hcur Hnodup].
  case_decide as Hin; simpl; [|done]. split.
  - rewrite length_delete by (by apply lookup_lt_is_Some_2).
    repeat case_decide; lia.
  - eapply sublist_NoDup; [done|apply sublist_delete].
Qed.

Lemma close_tab_tab_widget (index : nat) (w : MainWindow) :
  tab_widget (close_tab index w) =
    if decide (1 < count (tab_widget w))%nat
    then removeTab index (tab_widget w) else tab_widget w.
Proof.
  destruct (widget index (tab_widget w)) as [tab|] eqn:Hwidget.
  - by destruct (close_tab_effects index w tab Hwidget)
      as (_ & _ & _ & _ & _ & _ & _ & -> & _).
  - destruct (close_tab_no_page index w Hwidget) as (_ & _ & _ & ->).
    case_decide; [|done]. unfold removeTab. rewrite decide_False; [done|].
    apply lookup_ge_None in Hwidget. unfold count. lia.
Qed.

Lemma tabs_ok_step (w w' : MainWindow) (e : Event) :
  consistent w → step w e = Ok w' →
  tabs_ok (tab_widget w) → tabs_ok (tab_widget w').
Proof.
  intros Hw. destruct e; simpl; intros Hok Htabs.
  - injection Hok as <-. by rewrite (proj2 (execute_query_frame _ _)).
  - apply cancel_current_query_dicts in Hok as [_ ->]. done.
  - injection Hok as <-. rewrite close_tab_tab_widget.
    case_decide; [by apply removeTab_ok|done].
  - injection Hok as <-. destruct Htabs as [Hcur Hnodup].
    unfold add_tab, tabs_ok, count. simpl. rewrite length_app. simpl.
    split; [lia|]. apply list.NoDup_app. split; [done|].
    split; [|apply list.NoDup_singleton].
    intros tab Hin ->%list_elem_of_singleton.
    pose proof (c_pages w Hw _ Hin). lia.
  - injection Hok as <-. case_decide; [|done].
    destruct Htabs as [Hcur Hnodup]. by split.
  - by injection Hok as <-.
  - by injection Hok as <-.
  - by injection Hok as <-.
  - unfold on_timer_timeout in Hok.
    destruct (active (timers w t)); [|by injection Hok as <-].
    destruct (slot (timers w t)) as [[tab|tab runnable]|].
    + injection Hok as <-. unfold update_timer_label.
      destruct (single_shot (timers w t)); simpl;
        by destruct (tab_timers w !! tab).
    + apply handle_query_timeout_dicts in Hok as [_ ->].
      by destruct (single_shot (timers w t)).
    + injection Hok as <-. by destruct (single_shot (timers w t)).
  - injection Hok as <-. unfold on_finished. case_decide; [|done].
    edestruct handle_query_result_effects as (_ & _ & Htw & _).
    by rewrite Htw.
  - unfold on_error in Hok. case_decide.
    + apply handle_query_error_dicts in Hok as [_ ->]. done.
    + by injection Hok as <-.
  - by injection Hok as <-.
Qed.

Lemma tabs_ok_run (es : list Event) (w w' : MainWindow) :
  consistent w → tabs_ok (tab_widget w) → run w es = Ok w' →
  tabs_ok (tab_widget w').
Proof.
  revert w. induction es as [|e es IH]; simpl; intros w Hw Htabs Hrun.
  - by injection Hrun as <-.
  - destruct (step w e) as [w1|] eqn:Hstep; [|done].
    apply (IH w1); [by eapply consistent_step|by eapply tabs_ok_step|done].
Qed.

Lemma reachable_tabs_ok (w : MainWindow) : reachable w → tabs_ok (tab_widget w).
Proof.
  intros (db & es & Hrun).
  apply (tabs_ok_run es (init db)); [apply consistent_init| |done].
  unfold init, add_tab, tabs_ok, count. simpl. split; [lia|].
  apply list.NoDup_singleton.
Qed.

(** X13.  There is always a current tab.  In every state the window can
    reach, the current index of the tab widget names one of its pages,
    so [execute_query] and [cancel_current_query] always find a tab, and
    no page is listed twice. *)
Theorem current_tab_exists (w : MainWindow) :
  reachable w →
  (∃ tab, currentWidget (tab_widget w) = Some tab)
  ∧ NoDup (tab_pages (tab_widget w)).
Proof.
  intros [Hcur Hnodup]%reachable_tabs_ok. split; [|done].
  by apply lookup_lt_is_Some_2.
Qed.

Lemma current_tab_exists_witness :
  (∃ tab, currentWidget (tab_widget example_two_tabs) = Some tab)
  ∧ NoDup (tab_pages (tab_widget example_two_tabs)).
Proof.
  apply (current_tab_exists example_two_tabs).
  exists example_db,
    [text_edited 0 "SELECT 1;"; execute_triggered 0; new_tab_clicked].
  vm_compute. reflexivity.
Defined.

(** X14.  A closed tab is gone and leaves nothing behind.  In a state
    the window can reach with more than one tab, after [close_tab] on
    the index of a page that page is no page of the tab widget any more
    and every other page still is one; the closed page has no runnable
    and no timers registered, its two timers are stopped, and the window
    still has a current tab. *)
Theorem closed_tab_is_gone (index : nat) (w : MainWindow) (tab : Tab) :
  reachable w →
  widget index (tab_widget w) = Some tab →
  (1 < count (tab_widget w))%nat →
  let w' := close_tab index w in
  (tab ∉ tab_pages (tab_widget w'))
  ∧ (∀ other, other ≠ tab →
       other ∈ tab_pages (tab_widget w') ↔ other ∈ tab_pages (tab_widget w))
  ∧ count (tab_widget w') = Nat.pred (count (tab_widget w))
  ∧ Idle w' tab
  ∧ tab_timers w' !! tab = None
  ∧ (∀ e, tab_timers w !! tab = Some e →
       active (timers w' (timer e)) = false
       ∧ active (timers w' (timeout_timer e)) = false)
  ∧ (∃ current, currentWidget (tab_widget w') = Some current).
Proof.
  intros Hw Hwidget Hmany. cbv zeta.
  pose proof (reachable_tabs_ok w Hw) as Htabs.
  destruct (close_tab_effects index w tab Hwidget)
    as (Ht & Hr & _ & _ & _ & _ & _ & Htw & _ & Hoff & _).
  rewrite decide_True in Htw by done.
  assert (index < count (tab_widget w))%nat as Hin
    by (by eapply lookup_lt_Some).
  pose proof (removeTab_ok index _ Hmany Htabs) as [Hcur' _].
  destruct Htabs as [_ Hnodup].
  rewrite Htw. unfold removeTab. rewrite decide_True by done. simpl.
  unfold widget in Hwidget.
  pose proof (take_drop_middle _ _ _ Hwidget) as Hsplit.
  rewrite <- Hsplit in Hnodup.
  apply list.NoDup_app in Hnodup as (_ & Hleft & Hright).
  apply list.NoDup_cons in Hright as [Hright _].
  rewrite delete_take_drop.
  split; [|split; [|split; [|split; [|split; [|split]]]]].
  - intros [Hl | Hr']%elem_of_app; [|done].
    apply (Hleft tab Hl). left.
  - intros other Hne. split.
    + intros [Hl | Hr']%elem_of_app; rewrite <- Hsplit, elem_of_app;
        [by left | right; by right].
    + intros Hold. rewrite <- Hsplit in Hold.
      apply elem_of_app in Hold as [Hl | Hr']; rewrite elem_of_app;
        [by left|]. apply elem_of_cons in Hr' as [-> | Hr']; [done|by right].
  - unfold count. simpl. rewrite <- delete_take_drop.
    rewrite length_delete by (by eexists). lia.
  - unfold Idle. rewrite Hr. apply lookup_delete_eq.
  - rewrite Ht. apply lookup_delete_eq.
  - done.
  - unfold currentWidget, widget. apply lookup_lt_is_Some_2.
    unfold removeTab, count in Hcur'. rewrite decide_True in Hcur' by done.
    simpl in Hcur'. by rewrite delete_take_drop in Hcur'.
Qed.

Lemma closed_tab_is_gone_witness :
  let w := example_two_tabs in
  let w' := close_tab 0 w in
  (0%nat ∉ tab_pages (tab_widget w'))
  ∧ (∀ other, other ≠ 0%nat →
       other ∈ tab_pages (tab_widget w') ↔ other ∈ tab_pages (tab_widget w))
  ∧ count (tab_widget w') = Nat.pred (count (tab_widget w))
  ∧ Idle w' 0%nat
  ∧ tab_timers w' !! 0%nat = None
  ∧ (∀ e, tab_timers w !! 0%nat = Some e →
       active (timers w' (timer e)) = false
       ∧ active (timers w' (timeout_timer e)) = false)
  ∧ (∃ current, currentWidget (tab_widget w') = Some current).
Proof.
  apply (closed_tab_is_gone 0 example_two_tabs 0).
  - exists example_db,
      [text_edited 0 "SELECT 1;"; execute_triggered 0; new_tab_clicked].
    vm_compute. reflexivity.
  - vm_compute. reflexivity.
  - vm_compute. lia.
Defined.

(** Every tab with a query is a page of the tab widget. *)
Definition running_on_pages (w : MainWindow) : Prop :=
  ∀ tab r, running_queries w !! tab = Some r → tab ∈ tab_pages (tab_widget w).

Lemma running_on_pages_ends (tab : Tab) (w w' : MainWindow) :
  ends_query tab w w' → running_on_pages w → running_on_pages w'.
Proof.
  intros (_ & Hr & _ & _ & Htw & _) Hw tab1 r. rewrite Hr, Htw.
  intros [_ H]%lookup_delete_Some. by eapply Hw.
Qed.

Lemma running_on_pages_same (w w' : MainWindow) :
  running_queries w' = running_queries w →
  tab_widget w' = tab_widget w →
  running_on_pages w → running_on_pages w'.
Proof. intros Hr Htw Hw tab r. rewrite Hr, Htw. apply Hw. Qed.

Lemma elem_of_delete_other {A : Type} (l : list A) (i : nat) (x y : A) :
  l !! i = Some x → y ≠ x → y ∈ l → y ∈ delete i l.
Proof.
  intros Hi Hne Hin. rewrite <- (take_drop_middle _ _ _ Hi) in Hin.
  rewrite delete_take_drop.
  apply elem_of_app in Hin as [Hl | Hr]; apply elem_of_app; [by left|].
  apply elem_of_cons in Hr as [-> | Hr]; [done|by right].
Qed.

Lemma running_on_pages_step (w w' : MainWindow) (e : Event) :
  step w e = Ok w' → running_on_pages w → running_on_pages w'.
Proof.
  destruct e; simpl; intros Hok Hw.
  - injection Hok as <-.
    destruct (execute_query_cases now w)
      as [(_ & _ & _ & Hr & Htw & _)
         | (tab & c & Hcur & Hview & Hidle & Hend & Hconn)].
    + by apply (running_on_pages_same w).
    + destruct (execute_query_accepted now w tab c Hcur Hview Hidle Hend Hconn)
        as (_ & Hr & _ & _ & Htw & _).
      intros tab1 r. rewrite Hr, Htw.
      intros [[<- _] | [_ H]]%lookup_insert_Some; [|by eapply Hw].
      by eapply list_elem_of_lookup_2.
  - destruct (currentWidget (tab_widget w)) as [tab|] eqn:Hcur;
      [|unfold cancel_current_query in Hok; rewrite Hcur in Hok;
        by injection Hok as <-].
    destruct (running_queries w !! tab) as [r|] eqn:Hrun.
    + eapply running_on_pages_ends; [|done].
      by eapply cancel_current_query_ends.
    + rewrite (cancel_current_query_idle w tab) in Hok by done.
      by injection Hok as <-.
  - injection Hok as <-.
    destruct (widget index (tab_widget w)) as [tab|] eqn:Hwidget.
    + destruct (close_tab_ends index w tab Hwidget) as (_ & Hr & _).
      intros tab1 r. rewrite Hr, close_tab_tab_widget.
      intros [Hne H]%lookup_delete_Some.
      case_decide; [|by eapply Hw].
      unfold removeTab. case_decide; simpl; [|by eapply Hw].
      apply (elem_of_delete_other _ _ tab); [done|done|by eapply Hw].
    + destruct (close_tab_no_page index w Hwidget) as (_ & Hr & _ & Htw).
      by apply (running_on_pages_same w).
  - injection Hok as <-. intros tab r Hrun. unfold add_tab. simpl.
    apply elem_of_app. left. by eapply Hw.
  - injection Hok as <-. by case_decide.
  - by injection Hok as <-.
  - by injection Hok as <-.
  - by injection Hok as <-.
  - unfold on_timer_timeout in Hok.
    destruct (active (timers w t)); [|by injection Hok as <-].
    assert (running_on_pages
              (if single_shot (timers w t) then on_timer t timer_stop w else w))
      as Hw1 by (by destruct (single_shot (timers w t))).
    revert Hok Hw1.
    generalize (if single_shot (timers w t) then on_timer t timer_stop w else w).
    intros w1 Hok Hw1.
    destruct (slot (timers w t)) as [[tab|tab runnable]|].
    + injection Hok as <-. unfold update_timer_label.
      by destruct (tab_timers w1 !! tab).
    + destruct (decide (running_queries w1 !! tab = Some runnable)) as [Hrun|Hrun].
      * eapply running_on_pages_ends; [|done].
        by eapply handle_query_timeout_ends.
      * rewrite handle_query_timeout_stale in Hok by done.
        by injection Hok as <-.
    + by injection Hok as <-.
  - injection Hok as <-. unfold on_finished. case_decide; [|done].
    eapply running_on_pages_ends; [|done]. apply handle_query_result_ends.
  - unfold on_error in Hok. case_decide.
    + eapply running_on_pages_ends; [|done]. by eapply handle_query_error_ends.
    + by injection Hok as <-.
  - by injection Hok as <-.
Qed.

Lemma running_on_pages_run (es : list Event) (w w' : MainWindow) :
  run w es = Ok w' → running_on_pages w → running_on_pages w'.
Proof.
  revert w. induction es as [|e es IH]; simpl; intros w Hrun Hw.
  - by injection Hrun as <-.
  - destruct (step w e) as [w1|] eqn:Hstep; [|done].
    apply (IH w1); [done|by eapply running_on_pages_step].
Qed.

(** X15.  No query runs for a tab that is not there.  In every state the
    window can reach, a tab with a current runnable, and so a tab with
    timers, is a page of the tab widget: closing a tab is the only way a
    page goes, and it takes the page's runnable and timers with it. *)
Theorem running_tabs_are_pages (w : MainWindow) (tab : Tab) :
  reachable w →
  Running w tab ∨ is_Some (tab_timers w !! tab) →
  tab ∈ tab_pages (tab_widget w).
Proof.
  intros Hw Hor.
  assert (Running w tab) as [r Hrun].
  { destruct Hor as [H|H]; [done|].
    by apply (reachable_timers_iff_running w Hw tab). }
  destruct Hw as (db & es & Hrun').
  apply (running_on_pages_run es (init db) w Hrun') with r; [|done].
  intros tab1 r1 H. unfold init, add_tab in H. simpl in H.
  by rewrite lookup_empty in H.
Qed.

Lemma running_tabs_are_pages_witness :
  0%nat ∈ tab_pages (tab_widget example_two_tabs).
Proof.
  apply (running_tabs_are_pages example_two_tabs 0).
  - exists example_db,
      [text_edited 0 "SELECT 1;"; execute_triggered 0; new_tab_clicked].
    vm_compute. reflexivity.
  - left. exists 3%nat. vm_compute. reflexivity.
Defined.

(** ** The slots of the timers *)

(** The timers of a tab call the slots of that tab: the progress timer
    the label update, the timeout timer the timeout of the runnable
    created with it. *)
Definition slots_bound (w : MainWindow) : Prop :=
  ∀ tab e, tab_timers w !! tab = Some e →
    slot (timers w (timer e)) = Some (update_timer_label_slot tab)
    ∧ slot (timers w (timeout_timer e)) =
        Some (handle_query_timeout_slot tab (S (timeout_timer e))).

Lemma slots_bound_quiet (w w' : MainWindow) :
  tab_timers w' = tab_timers w → stops (timers w) (timers w') →
  slots_bound w → slots_bound w'.
Proof.
  intros Ht Hs Hw tab e. rewrite Ht. intros He.
  destruct (stops_slot _ _ (timer e) Hs) as (-> & _).
  destruct (stops_slot _ _ (timeout_timer e) Hs) as (-> & _).
  by apply Hw.
Qed.

Lemma slots_bound_deleted (tab : Tab) (w w' : MainWindow) :
  tab_timers w' = delete tab (tab_timers w) → stops (timers w) (timers w') →
  slots_bound w → slots_bound w'.
Proof.
  intros Ht Hs Hw tab1 e. rewrite Ht. intros [_ He]%lookup_delete_Some.
  destruct (stops_slot _ _ (timer e) Hs) as (-> & _).
  destruct (stops_slot _ _ (timeout_timer e) Hs) as (-> & _).
  by apply Hw.
Qed.

Lemma slots_bound_ends (tab : Tab) (w w' : MainWindow) :
  ends_query tab w w' → slots_bound w → slots_bound w'.
Proof.
  intros (Ht & _ & _ & _ & _ & _ & Hs & _). by apply (slots_bound_deleted tab).
Qed.

Lemma slots_bound_step (w w' : MainWindow) (e : Event) :
  consistent w → step w e = Ok w' → slots_bound w → slots_bound w'.
Proof.
  intros Hc. destruct e; simpl; intros Hok Hw.
  - injection Hok as <-.
    destruct (execute_query_cases now w)
      as [(_ & _ & Ht & _ & _ & _ & Hts & _)
         | (tab & c & Hcur & Hview & Hidle & Hend & Hconn)].
    + apply (slots_bound_quiet w); [done| |done]. rewrite Hts. apply stops_refl.
    + destruct (execute_query_dispatch_fields now w tab c Hcur Hview Hidle Hend Hconn)
        as (_ & _ & _ & _ & Hn & HSn & _).
      destruct (execute_query_accepted now w tab c Hcur Hview Hidle Hend Hconn)
        as (Ht & _).
      destruct (execute_query_accepted_stores now w tab c
                  Hcur Hview Hidle Hend Hconn) as (_ & Hts & _).
      intros tab1 e. rewrite Ht.
      intros [[<- <-] | [Hne He]]%lookup_insert_Some.
      * simpl. by rewrite Hn, HSn.
      * destruct (c_entry w Hc tab1 e He) as [Hrun Hsucc].
        pose proof (c_fresh w Hc _ (c_started w Hc _ _ Hrun)) as Hlt.
        rewrite !Hts by lia. by apply Hw.
  - destruct (currentWidget (tab_widget w)) as [tab|] eqn:Hcur;
      [|unfold cancel_current_query in Hok; rewrite Hcur in Hok;
        by injection Hok as <-].
    destruct (running_queries w !! tab) as [r|] eqn:Hrun.
    + eapply slots_bound_ends; [|done].
      by eapply cancel_current_query_ends.
    + rewrite (cancel_current_query_idle w tab) in Hok by done.
      by injection Hok as <-.
  - injection Hok as <-.
    destruct (widget index (tab_widget w)) as [tab|] eqn:Hwidget.
    + destruct (close_tab_ends index w tab Hwidget)
        as (Ht & _ & _ & _ & _ & Hs & _).
      by apply (slots_bound_deleted tab w).
    + destruct (close_tab_no_page index w Hwidget) as (Ht & _).
      destruct (close_tab_no_page_quiet index w Hwidget)
        as (_ & _ & _ & Hts & _).
      apply (slots_bound_quiet w); [done| |done]. rewrite Hts. apply stops_refl.
  - injection Hok as <-.
    apply (slots_bound_quiet w); [done|apply stops_refl|done].
  - injection Hok as <-. by case_decide.
  - by injection Hok as <-.
  - by injection Hok as <-.
  - by injection Hok as <-.
  - unfold on_timer_timeout in Hok.
    destruct (active (timers w t)); [|by injection Hok as <-].
    assert (slots_bound
              (if single_shot (timers w t) then on_timer t timer_stop w else w))
      as Hw1.
    { destruct (single_shot (timers w t)); [|done].
      apply (slots_bound_quiet w); [done| |done].
      apply (stops_stop (timers w) (timers w) t), stops_refl. }
    revert Hok Hw1.
    generalize (if single_shot (timers w t) then on_timer t timer_stop w else w).
    intros w1 Hok Hw1.
    destruct (slot (timers w t)) as [[tab|tab runnable]|].
    + injection Hok as <-. unfold update_timer_label.
      by destruct (tab_timers w1 !! tab).
    + destruct (decide (running_queries w1 !! tab = Some runnable)) as [Hrun|Hrun].
      * eapply slots_bound_ends; [|done].
        by eapply handle_query_timeout_ends.
      * rewrite handle_query_timeout_stale in Hok by done.
        by injection Hok as <-.
    + by injection Hok as <-.
  - injection Hok as <-. unfold on_finished. case_decide; [|done].
    eapply slots_bound_ends; [|done]. apply handle_query_result_ends.
  - unfold on_error in Hok. case_decide.
    + eapply slots_bound_ends; [|done]. by eapply handle_query_error_ends.
    + by injection Hok as <-.
  - by injection Hok as <-.
Qed.

Lemma slots_bound_run (es : list Event) (w w' : MainWindow) :
  consistent w → run w es = Ok w' → slots_bound w → slots_bound w'.
Proof.
  revert w. induction es as [|e es IH]; simpl; intros w Hc Hrun Hw.
  - by injection Hrun as <-.
  - destruct (step w e) as [w1|] eqn:Hstep; [|done].
    apply (IH w1); [by eapply consistent_step|done
                   |by eapply slots_bound_step].
Qed.

(** X16.  A timeout never fires for an old query.  In every state the
    window can reach, a running timer whose slot is the timeout of a
    tab and a runnable is the timeout timer of that tab, and the
    runnable is the tab's current one: the handlers that end a query
    stop its timeout timer, so the test of [handle_query_timeout] for a
    runnable that is no longer current never fails for a timer that
    fires.  With a connection selected in the tab, the timeout then
    ends the query: the tab is idle, its timers are gone and stopped,
    and the history store gets one entry [Timed Out]. *)
Theorem timeout_fires_for_the_current_runnable (w : MainWindow)
    (t : TimerId) (tab : Tab) (r : Runnable) :
  reachable w →
  active (timers w t) = true →
  slot (timers w t) = Some (handle_query_timeout_slot tab r) →
  running_queries w !! tab = Some r
  ∧ (∃ e, tab_timers w !! tab = Some e ∧ timeout_timer e = t)
  ∧ (∀ c now, db_combo_box (pages w tab) = Some c →
       ∃ w', step w (timer_timeout t now) = Ok w'
         ∧ Idle w' tab
         ∧ tab_timers w' !! tab = None
         ∧ active (timers w' t) = false
         ∧ r_cancelled (runnables w' r) = true
         ∧ db_manager w' =
             save_query_to_history (conn_id c)
               (strip (query_editor (pages w tab))) "Timed Out" 0
               (truediv QUERY_TIMEOUT 1000) (db_manager w)).
Proof.
  intros Hreach Hact Hslot.
  pose proof (reachable_consistent w Hreach) as Hc.
  assert (slots_bound w) as Hw.
  { destruct Hreach as (db & es & Hrun).
    apply (slots_bound_run es (init db)); [apply consistent_init|done|].
    intros tab1 e He. unfold init, add_tab in He. simpl in He.
    by rewrite lookup_empty in He. }
  destruct (c_active w Hc t Hact) as (tab1 & e & He & Hor).
  destruct (Hw tab1 e He) as [Hprogress Htimeout].
  destruct (c_entry w Hc tab1 e He) as [Hrun Hsucc].
  destruct Hor as [-> | ->]; [congruence|].
  rewrite Hslot in Htimeout. injection Htimeout as -> ->.
  split; [done|]. split; [by exists e|].
  intros c now Hconn. simpl. unfold on_timer_timeout.
  rewrite Hact, Hslot.
  destruct (c_slot w Hc _ _ _ Hslot) as [_ ->].
  set (w1 := on_timer (timeout_timer e) timer_stop w).
  destruct (handle_query_timeout_effects tab1 (S (timeout_timer e)) w1 c)
    as (w' & Heq & Ht & Hr & Hdb & _ & _ & Hrs & _ & Hoff); [done|done|].
  exists w'. split; [done|].
  split; [unfold Idle; rewrite Hr; apply lookup_delete_eq|].
  split; [rewrite Ht; apply lookup_delete_eq|].
  split.
  - destruct (handle_query_timeout_ends tab1 _ w1 w' Hrun Heq)
      as (_ & _ & _ & _ & _ & _ & Hs & _).
    destruct (Hs (timeout_timer e)) as [-> | ->]; [|done].
    unfold w1. simpl. by rewrite fn_lookup_insert.
  - split; [|done]. rewrite Hrs. by rewrite fn_lookup_insert.
Qed.

Lemma timeout_fires_for_the_current_runnable_witness :
  running_queries example_running !! 0%nat = Some 3%nat
  ∧ (∃ e, tab_timers example_running !! 0%nat = Some e ∧ timeout_timer e = 2%nat)
  ∧ (∀ c now, db_combo_box (pages example_running 0%nat) = Some c →
       ∃ w', step example_running (timer_timeout 2 now) = Ok w'
         ∧ Idle w' 0%nat
         ∧ tab_timers w' !! 0%nat = None
         ∧ active (timers w' 2%nat) = false
         ∧ r_cancelled (runnables w' 3%nat) = true
         ∧ db_manager w' =
             save_query_to_history (conn_id c)
               (strip (query_editor (pages example_running 0%nat)))
               "Timed Out" 0 (truediv QUERY_TIMEOUT 1000)
               (db_manager example_running)).
Proof.
  apply (timeout_fires_for_the_current_runnable example_running 2 0 3).
  - exists example_db, [text_edited 0 "SELECT 1;"; execute_triggered 0].
    vm_compute. reflexivity.
  - vm_compute. reflexivity.
  - vm_compute. reflexivity.
Defined.

(** * Table queries from the schema tree *)

(** ** More Python built-ins *)

(** The double quote. *)
Definition dq : string := String (Ascii.ascii_of_nat 34) EmptyString.

(** [str.upper] on one character, for the code points below 128. *)
Definition upper_char (c : Ascii.ascii) : Ascii.ascii :=
  let n := Ascii.nat_of_ascii c in
  if ((97 <=? n) && (n <=? 122))%nat then Ascii.ascii_of_nat (n - 32) else c.

Fixpoint upper (s : string) : string :=
  match s with
  | EmptyString => EmptyString
  | String c rest => String (upper_char c) (upper rest)
  end.


Fixpoint all_chars (p : Ascii.ascii → bool) (s : string) : bool :=
  match s with
  | EmptyString => true
  | String c rest => p c && all_chars p rest
  end.

(** [f"{x}"] for an int, and for a value that is a string or [None]. *)
Definition format_int (z : Z) : string := pretty z.

Definition format_opt (v : option string) : string :=
  match v with Some s => s | None => "None" end.

(** ** The data of a schema item *)

(** The dictionary a table item of the schema tree carries: of its keys
    the window reads ["db_type"], ["schema_name"] and ["conn_data"];
    [get] answers [None] for a key that is missing. *)
Record ItemData := {
  db_type : option string;
  schema_name : option string;
  conn_data : option ConnData
}.

(** The loop over the items of the new combo box: the first item with
    the id of [conn_data] becomes current.  The items hold connection
    dictionaries, which are never empty; without [conn_data] the first
    comparison fails on [None.get]. *)
Fixpoint select_connection (items : list ConnData) (conn_data : option ConnData)
    : Result (option ConnData) :=
  match items with
  | [] => Ok None
  | data :: rest =>
      match conn_data with
      | None => Raise (AttributeError "'NoneType' object has no attribute 'get'")
      | Some c =>
          if decide (conn_id data = conn_id c) then Ok (Some data)
          else select_connection rest conn_data
      end
  end.

(** The text [query_table_rows] builds. *)
Definition table_query (item_data : ItemData) (table_name : string)
    (limit : option Z) (order : option string) : string :=
  let query := "" in
  let query :=
    if decide (db_type item_data = Some "postgres") then
      "SELECT * FROM " +:+ dq +:+ format_opt (schema_name item_data) +:+ dq
        +:+ "." +:+ dq +:+ table_name +:+ dq
    else if decide (db_type item_data = Some "sqlite") then
      "SELECT * FROM " +:+ dq +:+ table_name +:+ dq
    else query in
  let query :=
    match order with
    | Some o => if falsy o then query else query +:+ " ORDER BY 1 " +:+ upper o
    | None => query
    end in
  match limit with
  | Some n => if decide (n = 0)%Z then query else query +:+ " LIMIT " +:+ format_int n
  | None => query
  end.

(** [setCurrentWidget]: the page becomes current when the tab widget
    has it. *)
Definition setCurrentWidget (tab : Tab) (tw : QTabWidget) : QTabWidget :=
  match list_find (λ t, t = tab) (tab_pages tw) with
  | Some (i, _) => setCurrentIndex i tw
  | None => tw
  end.

(** [query_table_rows]; [item_data] is [None] for an item without data
    or with an empty dictionary, [now] is the clock reading of the
    [execute_query] it may call. *)
Definition query_table_rows (item_data : option ItemData) (table_name : string)
    (limit : option Z) (execute_now : bool) (order : option string)
    (now : float) (w : MainWindow) : Result MainWindow :=
  match item_data with
  | None => Ok w
  | Some item_data =>
      let conn_data := conn_data item_data in
      let new_tab := next_object w in
      let w := add_tab w in
      selected ← select_connection (connections (db_manager w)) conn_data;
      let w :=
        match selected with
        | Some data => on_page new_tab (set_db_combo_box (Some data)) w
        | None => w
        end in
      let query := table_query item_data table_name limit order in
      let w := on_page new_tab (set_query_editor query) w in
      if execute_now then
        let w := set_tab_widget (setCurrentWidget new_tab) w in
        Ok (execute_query now w)
      else Ok w
  end.


(** The three actions of the menu "View/Edit Data". *)
Definition query_all_action (item_data : option ItemData) (table_name : string)
    (now : float) (w : MainWindow) : Result MainWindow :=
  query_table_rows item_data table_name None true None now w.

Definition preview_100_action (item_data : option ItemData) (table_name : string)
    (now : float) (w : MainWindow) : Result MainWindow :=
  query_table_rows item_data table_name (Some 100%Z) true None now w.

Definition last_100_action (item_data : option ItemData) (table_name : string)
    (now : float) (w : MainWindow) : Result MainWindow :=
  query_table_rows item_data table_name (Some 100%Z) true (Some "desc") now w.

(** ** The last character of a text *)

Fixpoint last_char (s : string) : option Ascii.ascii :=
  match s with
  | EmptyString => None
  | String c rest =>
      match last_char rest with
      | None => Some c
      | Some d => Some d
      end
  end.




Lemma last_char_app (s1 s2 : string) :
  last_char (s1 +:+ s2) =
    match last_char s2 with Some c => Some c | None => last_char s1 end.
Proof.
  induction s1 as [|c rest IH].
  - change ("" +:+ s2) with s2. by destruct (last_char s2).
  - change (String c rest +:+ s2) with (String c (rest +:+ s2)). simpl.
    rewrite IH. by destruct (last_char s2), (last_char rest).
Qed.





Lemma last_char_dq (s : string) : last_char (s +:+ dq) = Some (Ascii.ascii_of_nat 34).
Proof. by rewrite last_char_app. Qed.





(** ** What the text ends with *)




(** ** The connection of the new tab *)






(** ** The menu actions *)

Definition example_item : ItemData :=
  {| db_type := Some "sqlite"; schema_name := None;
     conn_data := Some example_conn |}.





(** X19.  An item without its connection.  [query_table_rows] does
    nothing for an item without data.  For an item whose data lacks the
    key ["conn_data"] the first look at a connection of the new combo
    box raises: with a connection in the store the call ends in an
    [AttributeError], after the tab was added and before the text is
    written; with an empty store the loop has nothing to compare, and
    the new tab gets its text and has no connection selected. *)
Theorem query_table_rows_without_connection (w : MainWindow) (d : ItemData)
    (table_name : string) (limit : option Z) (execute_now : bool)
    (order : option string) (now : float) :
  conn_data d = None →
  query_table_rows None table_name limit execute_now order now w = Ok w
  ∧ (connections (db_manager w) ≠ [] →
     query_table_rows (Some d) table_name limit execute_now order now w =
       Raise (AttributeError "'NoneType' object has no attribute 'get'"))
  ∧ (connections (db_manager w) = [] →
     ∃ w', query_table_rows (Some d) table_name limit execute_now order now w
             = Ok w'
           ∧ db_combo_box (pages w' (next_object w)) = None
           ∧ query_editor (pages w' (next_object w)) =
               table_query d table_name limit order).
Proof.
  intros Hconn. split; [done|]. unfold query_table_rows. rewrite Hconn.
  change (db_manager (add_tab w)) with (db_manager w). split.
  - intros Hsome. by destruct (connections (db_manager w)).
  - intros Hnone. rewrite Hnone. simpl select_connection.
    change (Ok None ≫= ?k) with (k None). cbv beta iota.
    set (w1 := on_page (next_object w) _ (add_tab w)).
    assert (db_combo_box (pages w1 (next_object w)) = None
            ∧ query_editor (pages w1 (next_object w)) =
                table_query d table_name limit order) as [Hc Hq].
    { unfold w1, add_tab. simpl. rewrite !fn_lookup_insert. simpl.
      by rewrite Hnone. }
    clearbody w1. destruct execute_now; (eexists; split; [reflexivity|]);
      [|done].
    destruct (execute_query_inputs now
                (set_tab_widget (setCurrentWidget (next_object w)) w1)
                (next_object w)) as (_ & -> & ->).
    done.
Qed.

Lemma query_table_rows_without_connection_witness :
  let d := {| db_type := Some "sqlite"; schema_name := None;
              conn_data := None |} in
  let w := example_running in
  query_table_rows None "users" None true None 5 w = Ok w
  ∧ (connections (db_manager w) ≠ [] →
     query_table_rows (Some d) "users" None true None 5 w =
       Raise (AttributeError "'NoneType' object has no attribute 'get'"))
  ∧ (connections (db_manager w) = [] →
     ∃ w', query_table_rows (Some d) "users" None true None 5 w = Ok w'
           ∧ db_combo_box (pages w' (next_object w)) = None
           ∧ query_editor (pages w' (next_object w)) =
               table_query d "users" None None).
Proof.
  apply (query_table_rows_without_connection example_running
           {| db_type := Some "sqlite"; schema_name := None;
              conn_data := None |} "users" None true None 5).
  reflexivity.
Defined.

(** ** The table actions among the events *)

Lemma run_snoc (es : list Event) (e : Event) (w w1 w2 : MainWindow) :
  run w es = Ok w1 → step w1 e = Ok w2 → run w (es ++ [e]) = Ok w2.
Proof.
  revert w. induction es as [|e' es IH]; simpl; intros w Hrun Hstep.
  - injection Hrun as ->. by rewrite Hstep.
  - destruct (step w e') as [w'|]; [|done]. simpl in *. by apply IH.
Qed.

Lemma reachable_step (w w' : MainWindow) (e : Event) :
  reachable w → step w e = Ok w' → reachable w'.
Proof.
  intros (db & es & Hrun) Hstep. exists db, (es ++ [e]).
  by eapply run_snoc.
Qed.

(** X20.  A table action is a sequence of things the user can do.  What
    [query_table_rows] makes of the window, when it returns, is what
    these events make of it: the button New, the choice of a connection
    in the new tab, the text typed into its editor, the selection of
    the tab and, with [execute_now], the action Execute.  So the state
    after a table action is again a state the window can reach, and
    what holds in all of those holds after it. *)
Theorem table_action_is_reachable (w w' : MainWindow)
    (item_data : option ItemData) (table_name : string) (limit : option Z)
    (execute_now : bool) (order : option string) (now : float) :
  reachable w →
  query_table_rows item_data table_name limit execute_now order now w = Ok w' →
  reachable w'.
Proof.
  intros Hw Hok. destruct item_data as [d|]; [|by injection Hok as <-].
  unfold query_table_rows in Hok.
  pose proof (reachable_step w (add_tab w) new_tab_clicked Hw eq_refl) as H1.
  assert (next_object w ∈ tab_pages (tab_widget (add_tab w))) as Hin.
  { unfold add_tab. simpl. apply elem_of_app. right.
    by apply list_elem_of_singleton. }
  revert Hok H1 Hin. generalize (add_tab w) (next_object w).
  intros w1 new_tab Hok H1 Hin.
  destruct (select_connection _ _) as [selected|]; [|done]. simpl in Hok.
  set (w2 := match selected with
             | Some data => on_page new_tab (set_db_combo_box (Some data)) w1
             | None => w1
             end) in *.
  assert (reachable w2 ∧ tab_widget w2 = tab_widget w1) as [H2 Htw2].
  { unfold w2. destruct selected as [data|]; [|done]. split; [|done].
    by apply (reachable_step w1 _ (connection_chosen new_tab (Some data))). }
  clearbody w2.
  set (q := table_query d table_name limit order) in *. clearbody q.
  pose proof (reachable_step w2 _ (text_edited new_tab q) H2 eq_refl) as H3.
  assert (tab_widget (on_page new_tab (set_query_editor q) w2) = tab_widget w1)
    as Htw3 by done.
  revert Hok H3 Htw3. generalize (on_page new_tab (set_query_editor q) w2).
  intros w3 Hok H3 Htw3.
  destruct execute_now; [|by injection Hok as <-].
  injection Hok as <-.
  apply (reachable_step
           (set_tab_widget (setCurrentWidget new_tab) w3) _
           (execute_triggered now)); [|done].
  rewrite <- Htw3 in Hin.
  destruct (list_find (λ t, t = new_tab) (tab_pages (tab_widget w3)))
    as [[i t]|] eqn:Hfind.
  - assert (set_tab_widget (setCurrentWidget new_tab) w3 =
            set_tab_widget (setCurrentIndex i) w3) as ->.
    { unfold set_tab_widget, setCurrentWidget. by rewrite Hfind. }
    apply list_find_Some in Hfind as (Hi & _).
    apply (reachable_step w3 _ (tab_selected i)); [done|]. simpl.
    by rewrite decide_True by (by eapply lookup_lt_Some).
  - apply list_find_None in Hfind. rewrite Forall_forall in Hfind.
    by destruct (Hfind new_tab Hin).
Qed.

Lemma table_action_is_reachable_witness :
  ∃ w', last_100_action (Some example_item) "users" 5 example_running = Ok w'
        ∧ reachable w'.
Proof.
  destruct (last_100_action (Some example_item) "users" 5 example_running)
    as [w'|] eqn:Hok; [|vm_compute in Hok; discriminate].
  exists w'. split; [reflexivity|].
  apply (table_action_is_reachable example_running w' (Some example_item)
           "users" (Some 100%Z) true (Some "desc") 5).
  - exists example_db, [text_edited 0 "SELECT 1;"; execute_triggered 0].
    vm_compute. reflexivity.
  - exact Hok.
Defined.

(** * The connection combo box *)

(** A [QComboBox] of connections: the items with their text and data,
    and the current index, [None] for the index -1 of an empty box. *)
Module Combo.

Record t := { items : list (string * ConnData); index : option nat }.

Definition count (cb : t) : nat := length (items cb).

Definition itemData (i : nat) (cb : t) : option ConnData :=
  snd <$> items cb !! i.

Definition currentData (cb : t) : option ConnData :=
  i ← index cb; itemData i cb.

Definition clear (cb : t) : t := {| items := []; index := None |}.

(** The first item put into an empty box becomes current. *)
Definition addItem (text : string) (data : ConnData) (cb : t) : t :=
  {| items := items cb ++ [(text, data)];
     index := match items cb with [] => Some 0%nat | _ => index cb end |}.

Definition setCurrentIndex (i : nat) (cb : t) : t :=
  {| items := items cb;
     index := if decide (i < count cb)%nat then Some i else None |}.

End Combo.

(** One row of [get_all_joined_connections]. *)
Record JoinedRow := {
  cat_name : string;
  subcat_name : string;
  item_name : string;
  row_conn : ConnData
}.

(** What the call of [get_all_joined_connections] gives: the rows, or
    an exception with its text. *)
Inductive Joined :=
| Rows (rows : list JoinedRow)
| Fails (message : string).

Definition visible_text (row : JoinedRow) : string :=
  cat_name row +:+ " -> " +:+ subcat_name row +:+ " -> " +:+ item_name row.

(** The loop [for i in range(combo_box.count())] from [i] on, with [n]
    indices to go: the first item with the id becomes current. *)
Fixpoint select_by_id (id : Z) (n i : nat) (cb : Combo.t) : Combo.t :=
  match n with
  | O => cb
  | S n =>
      match Combo.itemData i cb with
      | Some data =>
          if decide (conn_id data = id) then Combo.setCurrentIndex i cb
          else select_by_id id n (S i) cb
      | None => select_by_id id n (S i) cb
      end
  end.

(** [load_joined_items]: the combo box afterwards, and the message put
    on the status bar when the store fails. *)
Definition load_joined_items (all_items : Joined) (combo_box : Combo.t)
    : Combo.t * option (string * Z) :=
  let current_data_id := conn_id <$> Combo.currentData combo_box in
  let combo_box := Combo.clear combo_box in
  match all_items with
  | Fails e => (combo_box, Some ("Error loading connections: " +:+ e, 4000%Z))
  | Rows all_items =>
      let combo_box :=
        foldl (λ cb row, Combo.addItem (visible_text row) (row_conn row) cb)
          combo_box all_items in
      match current_data_id with
      | Some id => (select_by_id id (Combo.count combo_box) 0 combo_box, None)
      | None => (combo_box, None)
      end
  end.

(** ** Filling and selecting *)

Definition entry (row : JoinedRow) : string * ConnData :=
  (visible_text row, row_conn row).

Lemma fill_spec (rows : list JoinedRow) (cb : Combo.t) :
  foldl (λ cb row, Combo.addItem (visible_text row) (row_conn row) cb) cb rows =
    {| Combo.items := Combo.items cb ++ map entry rows;
       Combo.index :=
         match Combo.items cb, rows with
         | [], _ :: _ => Some 0%nat
         | _, _ => Combo.index cb
         end |}.
Proof.
  revert cb. induction rows as [|row rows IH]; intros cb; simpl.
  - rewrite app_nil_r. by destruct cb as [[|] ?].
  - rewrite IH. unfold Combo.addItem. simpl. rewrite <- app_assoc. simpl.
    f_equal. destruct (Combo.items cb); simpl; by destruct rows.
Qed.

(** The index of the first item with the id, among the items. *)
Definition first_with_id (id : Z) (l : list (string * ConnData)) : option nat :=
  fst <$> list_find (λ e, conn_id (snd e) = id) l.

Lemma select_by_id_spec (id : Z) (cb : Combo.t) (n i : nat) :
  (i + n = Combo.count cb)%nat →
  select_by_id id n i cb =
    match first_with_id id (drop i (Combo.items cb)) with
    | Some j => Combo.setCurrentIndex (i + j) cb
    | None => cb
    end.
Proof.
  revert i. induction n as [|n IH]; intros i Hlen; simpl.
  - rewrite drop_ge by (unfold Combo.count in Hlen; lia). done.
  - unfold Combo.itemData, Combo.count in *.
    destruct (Combo.items cb !! i) as [e|] eqn:He;
      [|apply lookup_ge_None in He; lia].
    rewrite (drop_S _ _ _ He). simpl. unfold first_with_id. simpl.
    case_decide as Hid.
    + simpl. by rewrite Nat.add_0_r.
    + rewrite IH by lia. unfold first_with_id.
      destruct (list_find _ (drop (S i) _)) as [[j e']|]; simpl; [|done].
      f_equal. lia.
Qed.

Lemma load_joined_items_rows (rows : list JoinedRow) (cb : Combo.t) :
  (load_joined_items (Rows rows) cb).1 =
    {| Combo.items := map entry rows;
       Combo.index :=
         match id ← conn_id <$> Combo.currentData cb;
               first_with_id id (map entry rows) with
         | Some j => Some j
         | None => match rows with [] => None | _ => Some 0%nat end
         end |}.
Proof.
  unfold load_joined_items. rewrite fill_spec. simpl.
  destruct (Combo.currentData cb) as [c|]; simpl; [|by destruct rows].
  rewrite select_by_id_spec by done. simpl.
  unfold first_with_id.
  destruct (list_find _ _) as [[j e]|] eqn:Hfind; simpl; [|by destruct rows].
  unfold Combo.setCurrentIndex, Combo.count. simpl.
  apply list_find_Some in Hfind as (Hj & _).
  rewrite decide_True by (by eapply lookup_lt_Some). done.
Qed.

Lemma first_with_id_Some (id : Z) (l : list (string * ConnData)) (j : nat) :
  first_with_id id l = Some j →
  ∃ e, l !! j = Some e ∧ conn_id (snd e) = id
       ∧ ∀ k e', l !! k = Some e' → (k < j)%nat → conn_id (snd e') ≠ id.
Proof.
  unfold first_with_id.
  destruct (list_find _ l) as [[j' e]|] eqn:Hfind; [|done].
  intros [= <-]. apply list_find_Some in Hfind as (Hj & Hid & Hfirst).
  exists e. split; [done|]. split; [done|]. intros k e' Hk Hlt.
  by apply (Hfirst k e').
Qed.

Lemma first_with_id_None (id : Z) (l : list (string * ConnData)) :
  first_with_id id l = None → ∀ e, e ∈ l → conn_id (snd e) ≠ id.
Proof.
  unfold first_with_id.
  destruct (list_find _ l) as [[j' e]|] eqn:Hfind; [done|]. intros _.
  apply list_find_None in Hfind. by rewrite Forall_forall in Hfind.
Qed.

(** X21.  Reloading keeps the selection by id.  [load_joined_items]
    replaces the items of the combo box by one item per row of the
    store, in order, with the text [category -> subcategory -> item].
    When the connection that was selected still has a row with its id,
    the first such row is selected afterwards, wherever it now stands;
    when nothing was selected, or the id is gone, the first row is
    selected, and with no rows nothing is. *)
Theorem load_joined_items_keeps_selection (rows : list JoinedRow) (cb : Combo.t) :
  let cb' := (load_joined_items (Rows rows) cb).1 in
  Combo.items cb' = map (λ row, (visible_text row, row_conn row)) rows
  ∧ (load_joined_items (Rows rows) cb).2 = None
  ∧ (∀ c, Combo.currentData cb = Some c →
       (∃ row, row ∈ rows ∧ conn_id (row_conn row) = conn_id c) →
       ∃ j row, rows !! j = Some row
         ∧ Combo.index cb' = Some j
         ∧ Combo.currentData cb' = Some (row_conn row)
         ∧ conn_id (row_conn row) = conn_id c
         ∧ ∀ k row', rows !! k = Some row' → (k < j)%nat →
             conn_id (row_conn row') ≠ conn_id c)
  ∧ ((∀ c, Combo.currentData cb = Some c →
        ∀ row, row ∈ rows → conn_id (row_conn row) ≠ conn_id c) →
     Combo.currentData cb' = row_conn <$> head rows).
Proof.
  cbv zeta. rewrite load_joined_items_rows. simpl.
  split; [done|]. split.
  { unfold load_joined_items. by destruct (Combo.currentData cb). }
  split.
  - intros c Hc (row & Hin & Hid). rewrite Hc. simpl.
    destruct (first_with_id (conn_id c) (map entry rows)) as [j|] eqn:Hfind.
    + apply first_with_id_Some in Hfind as (e & Hj & Hide & Hfirst).
      rewrite list_lookup_fmap in Hj.
      destruct (rows !! j) as [row'|] eqn:Hrow; [|done].
      injection Hj as <-. exists j, row'.
      split; [done|]. split; [done|]. split.
      { unfold Combo.currentData, Combo.itemData. simpl.
        by rewrite list_lookup_fmap, Hrow. }
      split; [done|]. intros k row'' Hk Hlt.
      apply (Hfirst k (entry row'')); [|done].
      by rewrite list_lookup_fmap, Hk.
    + pose proof (first_with_id_None _ _ Hfind (entry row)) as Hno.
      destruct Hno; [|done]. apply list_elem_of_fmap. by exists row.
  - intros Hgone.
    assert ((id ← conn_id <$> Combo.currentData cb;
             first_with_id id (map entry rows)) = None) as ->.
    { destruct (Combo.currentData cb) as [c|] eqn:Hc; [|done]. simpl.
      destruct (first_with_id _ _) as [j|] eqn:Hfind; [|done].
      apply first_with_id_Some in Hfind as (e & Hj & Hide & _).
      rewrite list_lookup_fmap in Hj.
      destruct (rows !! j) as [row|] eqn:Hrow; [|done]. injection Hj as <-.
      destruct (Hgone c eq_refl row); [|done].
      by eapply list_elem_of_lookup_2. }
    by destruct rows.
Qed.

(** X22.  Reloading twice is reloading once: with the same rows, a
    second [load_joined_items] leaves the combo box as the first one
    made it, items and selection. *)
Theorem load_joined_items_twice (rows : list JoinedRow) (cb : Combo.t) :
  load_joined_items (Rows rows) (load_joined_items (Rows rows) cb).1 =
    load_joined_items (Rows rows) cb.
Proof.
  apply injective_projections.
  2: { unfold load_joined_items.
       by destruct (Combo.currentData _), (Combo.currentData cb). }
  rewrite (load_joined_items_rows rows (load_joined_items (Rows rows) cb).1).
  rewrite (load_joined_items_rows rows cb). f_equal.
  set (found := id ← conn_id <$> Combo.currentData cb;
                first_with_id id (map entry rows)).
  unfold Combo.currentData, Combo.itemData. simpl.
  destruct found as [j|] eqn:Hfound.
  - unfold found in Hfound.
    destruct (Combo.currentData cb) as [c|]; [|done]. simpl in Hfound.
    pose proof Hfound as (e & Hj & Hid & _)%first_with_id_Some.
    simpl. rewrite Hj. simpl. by rewrite Hid, Hfound.
  - destruct rows as [|row rows]; [done|]. simpl.
    unfold first_with_id. simpl. by rewrite decide_True.
Qed.

(** X23.  A failing store empties the combo box.  The box is cleared
    before the store is asked, so when [get_all_joined_connections]
    raises, the box is left without items and without selection, with
    the error on the status bar; the next reload that works selects the
    first row, whatever was selected before the failure. *)
Theorem load_joined_items_after_failure (message : string)
    (rows : list JoinedRow) (cb : Combo.t) :
  let failed := load_joined_items (Fails message) cb in
  Combo.items failed.1 = []
  ∧ Combo.currentData failed.1 = None
  ∧ failed.2 = Some ("Error loading connections: " +:+ message, 4000%Z)
  ∧ Combo.currentData (load_joined_items (Rows rows) failed.1).1 =
      row_conn <$> head rows.
Proof.
  cbv zeta. split; [done|]. split; [done|]. split; [done|].
  rewrite load_joined_items_rows. simpl. by destruct rows.
Qed.

(** * The history list *)

(** ** The text of a row *)

Module PyStr.

(** [s.split()] from a word begun: the words between runs of white
    space. *)
Fixpoint split_from (word s : string) : list string :=
  match s with
  | EmptyString => if falsy word then [] else [word]
  | String c rest =>
      if isspace c then
        if falsy word then split_from "" rest
        else word :: split_from "" rest
      else split_from (word +:+ String c "") rest
  end.

Definition split (s : string) : list string := split_from "" s.

(** [sep.join(words)] *)
Fixpoint join (sep : string) (words : list string) : string :=
  match words with
  | [] => ""
  | [word] => word
  | word :: rest => word +:+ sep +:+ join sep rest
  end.

(** [s[:n]] *)
Fixpoint slice_to (n : nat) (s : string) : string :=
  match n, s with
  | S n, String c rest => String c (slice_to n rest)
  | _, _ => ""
  end.

End PyStr.

Import PyStr.

(** [' '.join(query.split())[:70] + ('...' if len(query) > 70 else '')] *)
Definition short_query (query : string) : string :=
  slice_to 70 (join " " (split query))
    +:+ (if decide (70 < String.length query)%nat then "..." else "").

(** [f"{short_query}\n{data['timestamp']}"] *)
Definition display_text (query timestamp : string) : string :=
  short_query query +:+ nl +:+ timestamp.

(** ** Lengths and line breaks *)

Lemma string_length_app (s1 s2 : string) :
  String.length (s1 +:+ s2) = (String.length s1 + String.length s2)%nat.
Proof.
  induction s1 as [|c rest IH]; [done|].
  change (String c rest +:+ s2) with (String c (rest +:+ s2)). simpl.
  by rewrite IH.
Qed.

Lemma length_slice_to (n : nat) (s : string) :
  String.length (slice_to n s) = (n `min` String.length s)%nat.
Proof.
  revert s. induction n as [|n IH]; intros [|c rest]; simpl; try done.
  by rewrite IH.
Qed.

Lemma slice_to_all (n : nat) (s : string) :
  (String.length s ≤ n)%nat → slice_to n s = s.
Proof.
  revert s. induction n as [|n IH]; intros [|c rest]; simpl; try done; [lia|].
  intros Hlen. rewrite IH; [done|lia].
Qed.

Lemma length_join_split_from (word s : string) :
  (String.length (join " " (split_from word s))
   ≤ String.length word + String.length s)%nat.
Proof.
  revert word. induction s as [|c rest IH]; intros word; simpl.
  - destruct word; simpl; lia.
  - destruct (isspace c).
    + destruct word as [|a word']; simpl falsy; cbv iota.
      * specialize (IH ""). simpl in IH. lia.
      * specialize (IH ""). simpl in IH.
        change (join " " (String a word' :: split_from "" rest))
          with (match split_from "" rest with
                | [] => String a word'
                | _ => String a word' +:+ " " +:+ join " " (split_from "" rest)
                end).
        destruct (split_from "" rest) eqn:Hsplit; [simpl; lia|].
        rewrite !string_length_app. simpl in *. lia.
    + specialize (IH (word +:+ String c "")). rewrite string_length_app in IH.
      simpl in IH. lia.
Qed.

(** A character that does not break the line: no white space but the
    blank. *)
Definition inline (c : Ascii.ascii) : bool :=
  negb (isspace c) || Ascii.eqb c (Ascii.ascii_of_nat 32).

Lemma all_chars_app (p : Ascii.ascii → bool) (s1 s2 : string) :
  all_chars p (s1 +:+ s2) = all_chars p s1 && all_chars p s2.
Proof.
  induction s1 as [|c rest IH]; [done|].
  change (String c rest +:+ s2) with (String c (rest +:+ s2)). simpl.
  rewrite IH. by rewrite andb_assoc.
Qed.

Lemma all_chars_slice_to (p : Ascii.ascii → bool) (n : nat) (s : string) :
  all_chars p s = true → all_chars p (slice_to n s) = true.
Proof.
  revert s. induction n as [|n IH]; intros [|c rest]; simpl; try done.
  intros [Hc Hrest]%andb_prop. rewrite Hc. simpl. by apply IH.
Qed.

Lemma inline_join_split_from (word s : string) :
  all_chars inline word = true →
  all_chars inline (join " " (split_from word s)) = true.
Proof.
  revert word. induction s as [|c rest IH]; intros word Hword; simpl.
  - by destruct word.
  - destruct (isspace c) eqn:Hc.
    + destruct word as [|a word']; simpl falsy; cbv iota; [by apply IH|].
      change (join " " (String a word' :: split_from "" rest))
        with (match split_from "" rest with
              | [] => String a word'
              | _ => String a word' +:+ " " +:+ join " " (split_from "" rest)
              end).
      specialize (IH "" eq_refl).
      destruct (split_from "" rest); [done|].
      rewrite !all_chars_app, Hword, IH. done.
    + apply IH. rewrite all_chars_app, Hword. simpl.
      unfold inline. by rewrite Hc.
Qed.

(** The text up to the first line break. *)
Fixpoint first_line (s : string) : string :=
  match s with
  | EmptyString => ""
  | String c rest =>
      if Ascii.eqb c (Ascii.ascii_of_nat 10) then ""
      else String c (first_line rest)
  end.

Lemma first_line_inline (s t : string) :
  all_chars inline s = true → first_line (s +:+ nl +:+ t) = s.
Proof.
  induction s as [|c rest IH]; [done|]. simpl all_chars.
  intros [Hc Hrest]%andb_prop.
  change (String c rest +:+ nl +:+ t) with (String c (rest +:+ nl +:+ t)).
  simpl. destruct (Ascii.eqb_spec c (Ascii.ascii_of_nat 10)) as [->|_].
  - by vm_compute in Hc.
  - by rewrite IH.
Qed.

(** X24.  The first line of a history row.  The shortened query that
    [load_connection_history] shows has 73 characters at most and no
    line break or tab in it, so the first line of the row is the
    shortened query and the time stamp starts the second.  A query of 70
    characters at most is shown in full, with every run of white space
    as one blank.  The dots follow the length of the query as stored,
    not of what is shown: a query longer than 70 characters whose words
    fit gets the dots although nothing was cut. *)
Theorem short_query_fits (query : string) :
  (String.length (short_query query) ≤ 73)%nat
  ∧ all_chars inline (short_query query) = true
  ∧ (∀ timestamp,
       first_line (display_text query timestamp) = short_query query)
  ∧ ((String.length query ≤ 70)%nat →
     short_query query = join " " (split query))
  ∧ ((70 < String.length query)%nat →
     (String.length (join " " (split query)) ≤ 70)%nat →
     short_query query = join " " (split query) +:+ "...").
Proof.
  assert (all_chars inline (short_query query) = true) as Hinline.
  { unfold short_query. rewrite all_chars_app. rewrite all_chars_slice_to
      by (by apply inline_join_split_from).
    by case_decide. }
  split; [|split; [done|split; [|split]]].
  - unfold short_query. rewrite string_length_app, length_slice_to.
    case_decide;
      [change (String.length "...") with 3%nat
      |change (String.length "") with 0%nat]; lia.
  - intros timestamp. by apply first_line_inline.
  - unfold short_query. intros Hlen. rewrite decide_False by lia.
    pose proof (length_join_split_from "" query) as Hjoin. simpl in Hjoin.
    rewrite slice_to_all by (unfold split; lia).
    generalize (join " " (split query)). intros s.
    induction s as [|c rest IH]; [done|].
    change (String c rest +:+ "") with (String c (rest +:+ "")).
    by rewrite IH.
  - unfold short_query. intros Hlong Hfit. rewrite decide_True by done.
    by rewrite slice_to_all.
Qed.

(** * The results area *)










(** * Back from the history *)







(** * The titles of the tabs *)

(** The texts of the tab bar, by index.  [setTabText] does nothing for
    an index without tab. *)
Definition setTabText (i : nat) (text : string) (titles : list string) : list string :=
  <[i := text]> titles.

(** [f"Worksheet {n}"] *)
Definition worksheet (n : nat) : string := "Worksheet " +:+ pretty n.

(** The loop of [renumber_tabs] from [i] on, with [n] indices to go. *)
Fixpoint renumber_from (n i : nat) (titles : list string) : list string :=
  match n with
  | O => titles
  | S n => renumber_from n (S i) (setTabText i (worksheet (i + 1)) titles)
  end.

Definition renumber_tabs (titles : list string) : list string :=
  renumber_from (length titles) 0 titles.

(** What [add_tab] and [close_tab] do to the titles. *)
Definition add_tab_titles (titles : list string) : list string :=
  renumber_tabs (titles ++ [worksheet (length titles + 1)]).

Definition close_tab_titles (index : nat) (titles : list string) : list string :=
  if decide (1 < length titles)%nat then renumber_tabs (delete index titles)
  else titles.

(** The titles [Worksheet 1] to [Worksheet n]. *)
Definition numbered (n : nat) : list string :=
  (λ i, worksheet (i + 1)) <$> seq 0 n.

Lemma renumber_from_spec (n i : nat) (titles : list string) :
  (i + n ≤ length titles)%nat →
  renumber_from n i titles =
    take i titles ++ ((λ j, worksheet (j + 1)) <$> seq i n)
      ++ drop (i + n) titles.
Proof.
  revert i titles. induction n as [|n IH]; intros i titles Hlen; simpl.
  - rewrite Nat.add_0_r. by rewrite take_drop.
  - unfold setTabText. rewrite IH by (rewrite length_insert; lia).
    rewrite take_S_r with (x := worksheet (i + 1))
      by (apply list_lookup_insert_eq; lia).
    rewrite take_insert_ge by lia.
    rewrite drop_insert_lt by lia.
    rewrite <- app_assoc. simpl.
    by replace (i + S n)%nat with (S (i + n)) by lia.
Qed.

Lemma renumber_tabs_numbered (titles : list string) :
  renumber_tabs titles = numbered (length titles).
Proof.
  unfold renumber_tabs. rewrite renumber_from_spec by done. simpl.
  rewrite drop_all. by rewrite app_nil_r.
Qed.

Lemma numbered_NoDup (n : nat) : NoDup (numbered n).
Proof.
  apply NoDup_fmap_2_strong; [|apply NoDup_seq].
  intros i j _ _ Heq. unfold worksheet in Heq.
  apply (inj (String.append "Worksheet ")) in Heq.
  apply (inj pretty) in Heq. lia.
Qed.

(** X27.  The tabs are numbered by position.  Whatever the titles were,
    after [renumber_tabs] the tab at index [i] is titled [Worksheet]
    [i + 1], so no two tabs share a title; this holds after every
    [add_tab] and every [close_tab] that removes a tab.  The title
    [add_tab] gives the new tab is the one the renumbering gives it,
    and closing a tab moves the numbers of the tabs to its right down
    by one: a title names a position, not a page. *)
Theorem tabs_are_numbered_by_position (titles : list string) :
  length (renumber_tabs titles) = length titles
  ∧ (∀ i, (i < length titles)%nat →
       renumber_tabs titles !! i = Some (worksheet (i + 1)))
  ∧ NoDup (renumber_tabs titles)
  ∧ add_tab_titles titles = numbered (length titles + 1)
  ∧ (∀ index, (index < length titles)%nat → (1 < length titles)%nat →
       close_tab_titles index titles = numbered (length titles - 1))
  ∧ add_tab_titles (numbered (length titles)) =
      numbered (length titles) ++ [worksheet (length titles + 1)].
Proof.
  rewrite renumber_tabs_numbered.
  assert (∀ n, length (numbered n) = n) as Hlen.
  { intros n. unfold numbered. by rewrite length_fmap, length_seq. }
  split; [apply Hlen|]. split.
  { intros i Hi. unfold numbered. rewrite list_lookup_fmap.
    by rewrite lookup_seq_lt. }
  split; [apply numbered_NoDup|]. split.
  { unfold add_tab_titles. rewrite renumber_tabs_numbered.
    rewrite length_app. done. }
  split.
  { intros index Hin Hmany. unfold close_tab_titles.
    rewrite decide_True by done. rewrite renumber_tabs_numbered.
    rewrite length_delete by (by apply lookup_lt_is_Some_2). done. }
  unfold add_tab_titles. rewrite renumber_tabs_numbered.
  rewrite length_app, Hlen. simpl. unfold numbered.
  rewrite seq_app, fmap_app. simpl. done.
Qed.
